(** * Drought / flood risk pipeline: preprocessing, geographic adjustment,
      ensemble blending and risk bucketing

    Shallow embedding of the TypeScript services
    [dataPreprocessor.ts], [enhancedDataPreprocessor.ts], [enhancedMLModels.ts],
    [mlModels.ts] and of [apiService.runMLPrediction]; further down, of the
    data sources and [predictDisasters] of [apiService.ts], the dashboard
    state ([AppContext.tsx], [useDashboard]), the error handler, the
    helpers [clamp] and [isInRange], and the two training-data generators
    with the training of the random forest.

    Numbers.  A JavaScript [number] is modelled by [num]: an exact rational,
    [+Infinity], [-Infinity] or [NaN].  The special values follow IEEE 754
    (so [0/0] is [NaN] and every comparison with [NaN] is false).  The
    arithmetic is exact, which the statements on comparisons, clamped
    values, counts and shapes do not depend on; where a statement depends
    on rounding (the blend of the basic ensemble, the robust average, the
    retry delay) the function is embedded with the operations of
    [Binary64], which round to the nearest binary64 value.  The sign of
    zero is not modelled.

    Platform.  [Math.sqrt], the [Date] parser and the wall clock are not part
    of the repository; they are Section variables of the pipeline.  The
    TensorFlow networks are likewise parameters: what the development models
    is everything the services compute around them.  [Math.random] is the
    sequence of its draws, [Math.sin] the sequence of the monthly sines, and
    the network is what each data source answers. *)

From Stdlib Require Import ZArith QArith Qround Qabs Qreduction Qpower.
From Stdlib Require Import Lia Lqa Bool List String.
From Stdlib Require Import Permutation Sorted.
Import ListNotations.

Local Open Scope Q_scope.

(* ================================================================== *)
(** ** JavaScript numbers *)
(* ================================================================== *)

Inductive num : Type :=
| Fin (q : Q)
| PInf
| NInf
| NaN.

Coercion Fin : Q >-> num.

Definition Qltb (a b : Q) : bool := negb (Qle_bool b a).

Module Num.

(** Sign of a number that is not [NaN]; [Eq] is zero. *)
Definition sign (x : num) : comparison :=
  match x with
  | Fin q => 0 ?= q
  | PInf => Lt
  | NInf => Gt
  | NaN => Eq
  end.

(** [Lt] reads "0 < x", [Gt] reads "x < 0". *)
Definition sign_mul (a b : comparison) : comparison :=
  match a, b with
  | Eq, _ | _, Eq => Eq
  | Lt, Lt | Gt, Gt => Lt
  | Lt, Gt | Gt, Lt => Gt
  end.

(** The infinity of a given sign; a zero sign is the undefined form. *)
Definition inf_of_sign (s : comparison) : num :=
  match s with
  | Lt => PInf
  | Gt => NInf
  | Eq => NaN
  end.

Definition isNaN (x : num) : bool :=
  match x with NaN => true | _ => false end.

Definition isFinite (x : num) : bool :=
  match x with Fin _ => true | _ => false end.

Definition neg (x : num) : num :=
  match x with
  | Fin q => Fin (- q)
  | PInf => NInf
  | NInf => PInf
  | NaN => NaN
  end.

Definition add (x y : num) : num :=
  match x, y with
  | NaN, _ | _, NaN => NaN
  | Fin a, Fin b => Fin (a + b)
  | PInf, NInf | NInf, PInf => NaN
  | PInf, _ | _, PInf => PInf
  | NInf, _ | _, NInf => NInf
  end.

Definition sub (x y : num) : num := add x (neg y).

Definition mul (x y : num) : num :=
  match x, y with
  | NaN, _ | _, NaN => NaN
  | Fin a, Fin b => Fin (a * b)
  | _, _ => inf_of_sign (sign_mul (sign x) (sign y))
  end.

(** Division; a zero divisor is the positive zero. *)
Definition div (x y : num) : num :=
  match x, y with
  | NaN, _ | _, NaN => NaN
  | Fin a, Fin b =>
      if Qeq_bool b 0 then inf_of_sign (sign x) else Fin (a / b)
  | Fin _, _ => Fin 0
  | _, Fin b => inf_of_sign (sign_mul (sign x) (if Qltb b 0 then Gt else Lt))
  | _, _ => NaN
  end.

Definition ltb (x y : num) : bool :=
  match x, y with
  | NaN, _ | _, NaN => false
  | Fin a, Fin b => Qltb a b
  | NInf, NInf | PInf, _ | _, NInf => false
  | _, _ => true
  end.

Definition leb (x y : num) : bool :=
  match x, y with
  | NaN, _ | _, NaN => false
  | Fin a, Fin b => Qle_bool a b
  | NInf, _ | _, PInf => true
  | _, _ => false
  end.

Definition gtb (x y : num) : bool := ltb y x.
Definition geb (x y : num) : bool := leb y x.

(** Strict equality [===] on numbers. *)
Definition eqb (x y : num) : bool :=
  match x, y with
  | Fin a, Fin b => Qeq_bool a b
  | PInf, PInf | NInf, NInf => true
  | _, _ => false
  end.

(** [ToBoolean]: zero and [NaN] are falsy. *)
Definition truthy (x : num) : bool :=
  match x with
  | Fin q => negb (Qeq_bool q 0)
  | NaN => false
  | _ => true
  end.

Definition of_nat (n : nat) : num := Fin (inject_Z (Z.of_nat n)).

(** The same value (unlike [eqb], reflexive at [NaN]). *)
Definition same (x y : num) : Prop :=
  match x, y with
  | Fin a, Fin b => a == b
  | PInf, PInf | NInf, NInf | NaN, NaN => True
  | _, _ => False
  end.

End Num.

Declare Scope num_scope.
Delimit Scope num_scope with num.
Bind Scope num_scope with num.
Infix "+" := Num.add : num_scope.
Infix "-" := Num.sub : num_scope.
Infix "*" := Num.mul : num_scope.
Infix "/" := Num.div : num_scope.
Infix "<?" := Num.ltb (at level 70) : num_scope.
Infix "<=?" := Num.leb (at level 70) : num_scope.
Infix ">?" := Num.gtb (at level 70) : num_scope.
Infix ">=?" := Num.geb (at level 70) : num_scope.
Infix "=n=" := Num.same (at level 70).
Local Open Scope num_scope.

(** [Math.min], [Math.max], [Math.abs], [Math.floor]. *)
Definition Math_min (x y : num) : num :=
  if Num.isNaN x || Num.isNaN y then NaN
  else if y <? x then y else x.

Definition Math_max (x y : num) : num :=
  if Num.isNaN x || Num.isNaN y then NaN
  else if x <? y then y else x.

Definition Math_abs (x : num) : num :=
  match x with
  | Fin q => Fin (Qabs q)
  | NaN => NaN
  | _ => PInf
  end.

Definition Math_floor (x : num) : num :=
  match x with
  | Fin q => Fin (inject_Z (Qfloor q))
  | _ => x
  end.

(** [Math.max(...xs)] and [Math.min(...xs)]. *)
Definition Math_max_list (xs : list num) : num := fold_left Math_max xs NInf.
Definition Math_min_list (xs : list num) : num := fold_left Math_min xs PInf.

(* ================================================================== *)
(** ** Arrays *)
(* ================================================================== *)

(** [xs.reduce((sum, v) => sum + v, 0)]. *)
Definition Array_sum (xs : list num) : num :=
  fold_left Num.add xs (Fin 0).

Definition Array_length (A : Type) (xs : list A) : num :=
  Num.of_nat (List.length xs).
Arguments Array_length {A} xs.

(** [xs[i]] read as a number: an index that is not one of the array's is
    [undefined], which every arithmetic use turns into [NaN]. *)
Definition Array_get (xs : list num) (i : num) : num :=
  match i with
  | Fin q =>
      if Qeq_bool (inject_Z (Qfloor q)) q && Qle_bool 0 q
      then nth (Z.to_nat (Qfloor q)) xs NaN
      else NaN
  | _ => NaN
  end.

(** [xs[i] = v] for a literal index; writing past the end grows the array,
    the holes reading as [undefined]. *)
Fixpoint Array_set (xs : list num) (i : nat) (v : num) : list num :=
  match i, xs with
  | O, [] => [v]
  | O, _ :: t => v :: t
  | S j, [] => NaN :: Array_set [] j v
  | S j, x :: t => x :: Array_set t j v
  end.

(** [xs.slice(a, b)]. *)
Definition Array_slice (A : Type) (xs : list A) (a b : nat) : list A :=
  firstn (b - a)%nat (skipn a xs).
Arguments Array_slice {A} xs a b.

(** [[...xs].sort(cmp)]: the stable sort; [cmp a b > 0] puts [b] first, and a
    [NaN] answer counts as zero. *)
Fixpoint sort_insert (cmp : num -> num -> num) (x : num) (l : list num)
  : list num :=
  match l with
  | [] => [x]
  | y :: t =>
      if cmp x y >? Fin 0 then y :: sort_insert cmp x t
      else x :: l
  end.

Fixpoint Array_sort (cmp : num -> num -> num) (xs : list num) : list num :=
  match xs with
  | [] => []
  | x :: t => sort_insert cmp x (Array_sort cmp t)
  end.

(* ================================================================== *)
(** ** Binary64 rounding *)
(* ================================================================== *)

(** The arithmetic of the engine rounds every result to the nearest
    binary64 value, a tie going to the even mantissa.  [Binary64] gives
    that rounding on [num]; the embeddings of [Rounded] and of
    [ErrorHandler.getRetryDelay] are written with it.  The sign of zero
    is not modelled. *)
Module Binary64.

(** The binade of a positive rational: the [e] with [2^e <= x < 2^(e+1)]. *)
Definition ilog2 (x : Q) : Z :=
  let k := (Z.log2 (Qnum x) - Z.log2 (Zpos (Qden x)))%Z in
  if Qle_bool (2 ^ k) x then k else (k - 1)%Z.

(** The nearest integer, a tie going to the even one. *)
Definition nearest_even (y : Q) : Z :=
  let f := Qfloor y in
  match Qcompare (y - inject_Z f) (1 # 2) with
  | Lt => f
  | Gt => (f + 1)%Z
  | Eq => if Z.even f then f else (f + 1)%Z
  end.

(** The exponent of the last place: 53 significant bits, and no finer
    than [2^-1074]. *)
Definition exponent (x : Q) : Z := Z.max (ilog2 (Qabs x) - 52) (-1074).

Definition round_exponent (x : Q) : Z := exponent (Qred x).

Definition round_mantissa (x : Q) : Z :=
  nearest_even (Qred x / 2 ^ round_exponent x).

Definition round_value (x : Q) : Q :=
  inject_Z (round_mantissa x) * 2 ^ round_exponent x.

(** Rounding to the nearest binary64 value; from [2^1024] on the result
    is infinite. *)
Definition round (x : Q) : num :=
  let r := Qred (round_value x) in
  if Qle_bool (2 ^ 1024) (Qabs r)
  then (if Qle_bool 0 r then PInf else NInf)
  else Fin r.

Definition round_num (x : num) : num :=
  match x with
  | Fin q => round q
  | _ => x
  end.

Definition add (x y : num) : num := round_num (Num.add x y).
Definition sub (x y : num) : num := round_num (Num.sub x y).
Definition mul (x y : num) : num := round_num (Num.mul x y).
Definition div (x y : num) : num := round_num (Num.div x y).

(** A decimal literal of the source. *)
Definition lit (q : Q) : num := round q.

(** The same literal as a rational, when it is finite. *)
Definition double (q : Q) : Q :=
  match round q with
  | Fin r => r
  | _ => 0
  end.

(** The rationals that are binary64 values. *)
Definition is_double (x : Q) : Prop := round x = Fin x.

End Binary64.

Infix "+!" := Binary64.add (at level 50, left associativity).
Infix "-!" := Binary64.sub (at level 50, left associativity).
Infix "*!" := Binary64.mul (at level 40, left associativity).
Infix "/!" := Binary64.div (at level 40, left associativity).

(* ================================================================== *)
(** ** Risk buckets ([apiService.runMLPrediction], [getRiskLevel]) *)
(* ================================================================== *)

Inductive RiskLevel : Type := low | medium | high | extreme.

Definition getRiskLevel (probability : num) : RiskLevel :=
  if probability <? Fin 0.25 then low
  else if probability <? Fin 0.5 then medium
  else if probability <? Fin 0.75 then high
  else extreme.

Definition level_rank (l : RiskLevel) : nat :=
  match l with low => 0 | medium => 1 | high => 2 | extreme => 3 end%nat.

(* ================================================================== *)
(** ** Raw samples and the region predicates *)
(* ================================================================== *)

(** A raw sample of one signal.  The three guarded properties may be absent
    at run time ([None] is [undefined]); [value] is the signal's own
    measurement ([soilMoisture], [temperature], [fireIndex], [seaLevel] or
    [meltingRate]). *)
Record Sample : Type := mkSample {
  timestamp : option string;
  latitude : option num;
  longitude : option num;
  value : num
}.

(** [ToNumber] and [ToBoolean] of a property that may be absent. *)
Definition to_number (o : option num) : num :=
  match o with Some x => x | None => NaN end.

Definition truthy_number (o : option num) : bool :=
  match o with Some x => Num.truthy x | None => false end.

Definition truthy_string (o : option string) : bool :=
  match o with Some s => negb (String.eqb s "") | None => false end.

Definition isDesertRegion (latitude longitude : num) : bool :=
  let saharaDesert := (latitude >=? Fin 15) && (latitude <=? Fin 30)
                      && (longitude >=? Fin (-15)) && (longitude <=? Fin 40) in
  let gobiDesert := (latitude >=? Fin 40) && (latitude <=? Fin 50)
                    && (longitude >=? Fin 100) && (longitude <=? Fin 120) in
  let atacamaDesert := (latitude >=? Fin (-30)) && (latitude <=? Fin (-20))
                       && (longitude >=? Fin (-80))
                       && (longitude <=? Fin (-70)) in
  let kalahariDesert := (latitude >=? Fin (-30)) && (latitude <=? Fin (-20))
                        && (longitude >=? Fin 15) && (longitude <=? Fin 25) in
  let australianDesert := (latitude >=? Fin (-30)) && (latitude <=? Fin (-20))
                          && (longitude >=? Fin 120)
                          && (longitude <=? Fin 140) in
  saharaDesert || gobiDesert || atacamaDesert || kalahariDesert
  || australianDesert.

Definition isPolarRegion (latitude longitude : num) : bool :=
  let arctic := (latitude >? Fin 66.5) in
  let antarctic := (latitude <? Fin (-66.5)) in
  arctic || antarctic.

Definition isCoastalRegion (latitude longitude : num) : bool :=
  let westCoastNA := (longitude >=? Fin (-130)) && (longitude <=? Fin (-120))
                     && (latitude >=? Fin 30) && (latitude <=? Fin 60) in
  let eastCoastNA := (longitude >=? Fin (-80)) && (longitude <=? Fin (-70))
                     && (latitude >=? Fin 25) && (latitude <=? Fin 50) in
  let europeanCoast := (longitude >=? Fin (-10)) && (longitude <=? Fin 20)
                       && (latitude >=? Fin 35) && (latitude <=? Fin 70) in
  let eastAsianCoast := (longitude >=? Fin 120) && (longitude <=? Fin 140)
                        && (latitude >=? Fin 20) && (latitude <=? Fin 50) in
  let australianCoast := (longitude >=? Fin 110) && (longitude <=? Fin 155)
                         && (latitude >=? Fin (-40))
                         && (latitude <=? Fin (-10)) in
  westCoastNA || eastCoastNA || europeanCoast || eastAsianCoast
  || australianCoast.

Definition isTropicalRegion (latitude longitude : num) : bool :=
  (latitude >=? Fin (-23.5)) && (latitude <=? Fin 23.5).

Definition isMountainousRegion (latitude longitude : num) : bool :=
  let himalayas := (latitude >=? Fin 25) && (latitude <=? Fin 35)
                   && (longitude >=? Fin 70) && (longitude <=? Fin 100) in
  let andes := (latitude >=? Fin (-20)) && (latitude <=? Fin 10)
               && (longitude >=? Fin (-80)) && (longitude <=? Fin (-70)) in
  let rockies := (latitude >=? Fin 35) && (latitude <=? Fin 60)
                 && (longitude >=? Fin (-120)) && (longitude <=? Fin (-105)) in
  let alps := (latitude >=? Fin 43) && (latitude <=? Fin 48)
              && (longitude >=? Fin 5) && (longitude <=? Fin 15) in
  himalayas || andes || rockies || alps.

(** [helpers.isValidCoordinates]. *)
Definition isValidCoordinates (lat lng : num) : bool :=
  (lat >=? Fin (-90)) && (lat <=? Fin 90)
  && (lng >=? Fin (-180)) && (lng <=? Fin 180).

Section Pipeline.

(** The platform: [Math.sqrt]; [new Date(s).getTime()] ([NaN] for an
    invalid date) and [new Date(s).getFullYear()]; the current year
    [new Date().getFullYear()]. *)
Variable Math_sqrt : num -> num.
Variable Date_getTime : string -> num.
Variable Date_getFullYear : string -> num.
Variable now_getFullYear : num.

Definition getTime (ts : option string) : num :=
  match ts with Some s => Date_getTime s | None => NaN end.

Definition getFullYear (ts : option string) : num :=
  match ts with Some s => Date_getFullYear s | None => NaN end.

(* ================================================================ *)
(** ** The basic preprocessor ([DataPreprocessor]) *)
(* ================================================================ *)

Record ProcessedFeatures : Type := mkProcessedFeatures {
  pf_soilMoisture : num;
  pf_temperature : num;
  pf_fireIndex : num;
  pf_seaLevel : num;
  pf_glacierMelting : num;
  pf_quality : num;
  pf_completeness : num
}.

Record DataStatistics : Type := mkDataStatistics {
  ds_mean : num;
  ds_median : num;
  ds_std : num;
  ds_min : num;
  ds_max : num;
  ds_count : num;
  ds_outliers : list num
}.

Record NormalizedData : Type := mkNormalizedData {
  nd_features : list num;
  nd_statistics : list DataStatistics;
  nd_quality : num;
  nd_completeness : num
}.

(** The predicate of [cleanData]'s filter. *)
Definition cleanData_keep (item : Sample) : bool :=
  if negb (truthy_string (timestamp item))
     || negb (truthy_number (latitude item))
     || negb (truthy_number (longitude item))
  then false
  else if (to_number (latitude item) <? Fin (-90))
          || (to_number (latitude item) >? Fin 90)
  then false
  else if (to_number (longitude item) <? Fin (-180))
          || (to_number (longitude item) >? Fin 180)
  then false
  else if Num.isNaN (getTime (timestamp item))
  then false
  else true.

Definition cleanData (data : list Sample) : list Sample :=
  filter cleanData_keep data.

(** [calculateRobustAverage], in exact arithmetic;
    [Rounded.calculateRobustAverage] is the same function with the
    rounding of the engine. *)
Definition calculateRobustAverage (values : list num) : num :=
  if Nat.eqb (List.length values) 0 then Fin 0
  else
    let sorted := Array_sort (fun a b => a - b) values in
    let q1Index := Math_floor (Array_length sorted * Fin 0.25) in
    let q3Index := Math_floor (Array_length sorted * Fin 0.75) in
    let q1 := Array_get sorted q1Index in
    let q3 := Array_get sorted q3Index in
    let iqr := q3 - q1 in
    let lowerBound := q1 - Fin 1.5 * iqr in
    let upperBound := q3 + Fin 1.5 * iqr in
    let filteredValues :=
      filter (fun value => (value >=? lowerBound) && (value <=? upperBound))
             values in
    if Array_length filteredValues >? Fin 0
    then Array_sum filteredValues / Array_length filteredValues
    else Array_sum values / Array_length values.

Definition calculateDataQuality (dataCounts : list num) : num :=
  let maxCount := Math_max_list dataCounts in
  let minCount := Math_min_list dataCounts in
  let consistency := if maxCount >? Fin 0 then minCount / maxCount
                     else Fin 0 in
  let totalPoints := Array_sum dataCounts in
  let dataRichness := Math_min (Fin 1) (totalPoints / Fin 50) in
  consistency * Fin 0.6 + dataRichness * Fin 0.4.

Definition calculateDataCompleteness (dataCounts : list num) : num :=
  let expectedCount := Fin 10 in
  let completenessScores :=
    map (fun count => Math_min (Fin 1) (count / expectedCount)) dataCounts in
  Array_sum completenessScores / Array_length completenessScores.

Definition aggregateData
  (soilMoisture temperature fireIndex seaLevel glacierMelting : list Sample)
  : ProcessedFeatures :=
  let cleanSoilMoisture := cleanData soilMoisture in
  let cleanTemperature := cleanData temperature in
  let cleanFireIndex := cleanData fireIndex in
  let cleanSeaLevel := cleanData seaLevel in
  let cleanGlacierMelting := cleanData glacierMelting in
  let counts := [ Array_length cleanSoilMoisture;
                  Array_length cleanTemperature;
                  Array_length cleanFireIndex;
                  Array_length cleanSeaLevel;
                  Array_length cleanGlacierMelting ] in
  {| pf_soilMoisture := calculateRobustAverage (map value cleanSoilMoisture);
     pf_temperature := calculateRobustAverage (map value cleanTemperature);
     pf_fireIndex := calculateRobustAverage (map value cleanFireIndex);
     pf_seaLevel := calculateRobustAverage (map value cleanSeaLevel);
     pf_glacierMelting :=
       calculateRobustAverage (map value cleanGlacierMelting);
     pf_quality := calculateDataQuality counts;
     pf_completeness := calculateDataCompleteness counts |}.

(** One slot of [normalizeFeatures]: rescale by the range, clamp to [0,1]. *)
Definition normalize_slot (value lo hi : num) : num :=
  let normalized := (value - lo) / (hi - lo) in
  Math_max (Fin 0) (Math_min (Fin 1) normalized).

Definition point_statistics (value : num) : DataStatistics :=
  {| ds_mean := value; ds_median := value; ds_std := Fin 0;
     ds_min := value; ds_max := value; ds_count := Fin 1;
     ds_outliers := [] |}.

Definition normalizeFeatures (features : ProcessedFeatures)
  : NormalizedData :=
  let entries :=
    [ (pf_soilMoisture features, Fin 0, Fin 100);
      (pf_temperature features, Fin (-50), Fin 60);
      (pf_fireIndex features, Fin 0, Fin 100);
      (pf_seaLevel features, Fin 0, Fin 1);
      (pf_glacierMelting features, Fin 0, Fin 20) ] in
  {| nd_features :=
       map (fun e => match e with (v, lo, hi) => normalize_slot v lo hi end)
           entries;
     nd_statistics :=
       map (fun e => match e with (v, _, _) => point_statistics v end)
           entries;
     nd_quality := pf_quality features;
     nd_completeness := pf_completeness features |}.

(** The copy [{ ...features }] holds numbers, so every clamp reads the
    caller's value and a later region overrides an earlier one. *)
Definition adjustForGeographicContext
  (features : ProcessedFeatures) (latitude longitude : num)
  : ProcessedFeatures :=
  let isDesert := isDesertRegion latitude longitude in
  let isPolar := isPolarRegion latitude longitude in
  let isCoastal := isCoastalRegion latitude longitude in
  let adjusted := features in
  let adjusted :=
    if isDesert then
      {| pf_soilMoisture := Math_min (pf_soilMoisture features) (Fin 15);
         pf_temperature := Math_max (pf_temperature features) (Fin 25);
         pf_fireIndex := Math_max (pf_fireIndex features) (Fin 60);
         pf_seaLevel := Fin 0;
         pf_glacierMelting := Fin 0;
         pf_quality := pf_quality adjusted;
         pf_completeness := pf_completeness adjusted |}
    else adjusted in
  let adjusted :=
    if isPolar then
      {| pf_soilMoisture := Math_min (pf_soilMoisture features) (Fin 40);
         pf_temperature := Math_min (pf_temperature features) (Fin 15);
         pf_fireIndex := Math_min (pf_fireIndex features) (Fin 30);
         pf_seaLevel := Fin 0;
         pf_glacierMelting := Math_max (pf_glacierMelting features) (Fin 5);
         pf_quality := pf_quality adjusted;
         pf_completeness := pf_completeness adjusted |}
    else adjusted in
  if isCoastal then
    {| pf_soilMoisture := pf_soilMoisture adjusted;
       pf_temperature := pf_temperature adjusted;
       pf_fireIndex := pf_fireIndex adjusted;
       pf_seaLevel := Math_max (pf_seaLevel features) (Fin 0.05);
       pf_glacierMelting := pf_glacierMelting adjusted;
       pf_quality := pf_quality adjusted;
       pf_completeness := pf_completeness adjusted |}
  else adjusted.

Definition processDataForML
  (soilMoisture temperature fireIndex seaLevel glacierMelting : list Sample)
  (latitude longitude : num) : NormalizedData :=
  let aggregatedFeatures :=
    aggregateData soilMoisture temperature fireIndex seaLevel
                  glacierMelting in
  let adjustedFeatures :=
    adjustForGeographicContext aggregatedFeatures latitude longitude in
  normalizeFeatures adjustedFeatures.

(* ================================================================ *)
(** ** The feature engineer ([FeatureEngineer]) *)
(* ================================================================ *)

Definition calculateMean (values : list num) : num :=
  if Array_length values >? Fin 0
  then Array_sum values / Array_length values
  else Fin 0.

Definition calculateTrend (values : list num) : num :=
  if Array_length values <? Fin 2 then Fin 0
  else
    let n := Array_length values in
    let x := map Num.of_nat (seq 0 (List.length values)) in
    let sumX := Array_sum x in
    let sumY := Array_sum values in
    let sumXY := fold_left (fun sum p => sum + fst p * snd p)
                           (combine x values) (Fin 0) in
    let sumXX := fold_left (fun sum val => sum + val * val) x (Fin 0) in
    (n * sumXY - sumX * sumY) / (n * sumXX - sumX * sumX).

Definition calculateVolatility (values : list num) : num :=
  if Array_length values <? Fin 2 then Fin 0
  else
    let mean := calculateMean values in
    let variance :=
      fold_left (fun sum val => sum + (val - mean) * (val - mean))
                values (Fin 0)
      / Array_length values in
    Math_sqrt variance.

(** [values.filter((_, index) => p index)]. *)
Definition filter_index (p : nat -> bool) (values : list num) : list num :=
  map snd (filter (fun e => p (fst e))
                  (combine (seq 0 (List.length values)) values)).

Definition calculateSeasonality (values : list num) : num :=
  if Array_length values <? Fin 12 then Fin 0
  else
    let monthlyAverages :=
      map (fun i =>
             calculateMean
               (filter_index (fun index => Nat.eqb (Nat.modulo index 12) i)
                             values))
          (seq 0 12) in
    Math_max_list monthlyAverages - Math_min_list monthlyAverages.

Definition calculateExtremeValues (values : list num) : num :=
  if Nat.eqb (List.length values) 0 then Fin 0
  else
    let mean := calculateMean values in
    let std := calculateVolatility values in
    let threshold := mean + Fin 2 * std in
    Array_length (filter (fun val => val >? threshold) values)
    / Array_length values.

Definition createTemporalFeatures
  (soilMoisture temperature fireIndex seaLevel glacierMelting : list num)
  : list num :=
  [ calculateMean soilMoisture;
    calculateMean temperature;
    calculateMean fireIndex;
    calculateMean seaLevel;
    calculateMean glacierMelting ]
  ++ [ calculateTrend soilMoisture;
       calculateTrend temperature;
       calculateTrend fireIndex;
       calculateTrend seaLevel;
       calculateTrend glacierMelting ]
  ++ [ calculateVolatility soilMoisture;
       calculateVolatility temperature;
       calculateVolatility fireIndex;
       calculateVolatility seaLevel;
       calculateVolatility glacierMelting ]
  ++ [ calculateMean soilMoisture * calculateMean temperature;
       calculateMean temperature * calculateMean fireIndex;
       calculateMean soilMoisture * calculateMean seaLevel;
       calculateMean glacierMelting * calculateMean seaLevel ]
  ++ [ calculateSeasonality soilMoisture;
       calculateSeasonality temperature;
       calculateSeasonality fireIndex ]
  ++ [ calculateExtremeValues soilMoisture;
       calculateExtremeValues temperature;
       calculateExtremeValues fireIndex ].

(* ================================================================ *)
(** ** The enhanced preprocessor ([EnhancedDataPreprocessor]) *)
(* ================================================================ *)

Record EnhancedProcessedFeatures : Type := mkEnhancedProcessedFeatures {
  basicFeatures : list num;
  temporalFeatures : list num;
  volatilityFeatures : list num;
  interactionFeatures : list num;
  seasonalFeatures : list num;
  extremeFeatures : list num;
  allFeatures : list num;
  epf_quality : num;
  epf_completeness : num;
  epf_dataRichness : num
}.

Record EnhancedDataStatistics : Type := mkEnhancedDataStatistics {
  eds_mean : num;
  eds_median : num;
  eds_std : num;
  eds_min : num;
  eds_max : num;
  eds_count : num;
  eds_outliers : list num;
  eds_trend : num;
  eds_volatility : num;
  eds_seasonality : num;
  eds_extremeValues : num
}.

Record EnhancedNormalizedData : Type := mkEnhancedNormalizedData {
  end_features : list num;
  end_statistics : list EnhancedDataStatistics;
  end_quality : num;
  end_completeness : num;
  end_dataRichness : num;
  end_featureNames : list string
}.

Record CleanResult : Type := mkCleanResult {
  cleanData_of : list Sample;
  cr_quality : num;
  cr_completeness : num
}.

(** The predicate of [cleanAndValidateData]'s filter. *)
Definition cleanAndValidateData_keep (item : Sample) : bool :=
  if negb (truthy_string (timestamp item))
     || negb (truthy_number (latitude item))
     || negb (truthy_number (longitude item))
  then false
  else if (to_number (latitude item) <? Fin (-90))
          || (to_number (latitude item) >? Fin 90)
  then false
  else if (to_number (longitude item) <? Fin (-180))
          || (to_number (longitude item) >? Fin 180)
  then false
  else if Num.isNaN (getTime (timestamp item))
  then false
  else
    let yearsDiff :=
      Math_abs (now_getFullYear - getFullYear (timestamp item)) in
    if yearsDiff >? Fin 10 then false
    else true.

Definition cleanAndValidateData (data : list Sample) : CleanResult :=
  let originalCount := Array_length data in
  let cleanData := filter cleanAndValidateData_keep data in
  {| cleanData_of := cleanData;
     cr_quality := Array_length cleanData / originalCount;
     cr_completeness :=
       Math_min (Fin 1) (Array_length cleanData / Fin 50) |}.

Definition aggregateDataWithTimeSeries
  (soilMoisture temperature fireIndex seaLevel glacierMelting : list Sample)
  : EnhancedProcessedFeatures :=
  let sm := cleanAndValidateData soilMoisture in
  let temp := cleanAndValidateData temperature in
  let fire := cleanAndValidateData fireIndex in
  let sea := cleanAndValidateData seaLevel in
  let glacier := cleanAndValidateData glacierMelting in
  let soilMoistureTS := map value (cleanData_of sm) in
  let temperatureTS := map value (cleanData_of temp) in
  let fireIndexTS := map value (cleanData_of fire) in
  let seaLevelTS := map value (cleanData_of sea) in
  let glacierMeltingTS := map value (cleanData_of glacier) in
  let allFeatures :=
    createTemporalFeatures soilMoistureTS temperatureTS fireIndexTS
                           seaLevelTS glacierMeltingTS in
  let qualities := [ cr_quality sm; cr_quality temp; cr_quality fire;
                     cr_quality sea; cr_quality glacier ] in
  let completenesses :=
    [ cr_completeness sm; cr_completeness temp; cr_completeness fire;
      cr_completeness sea; cr_completeness glacier ] in
  {| basicFeatures := Array_slice allFeatures 0 5;
     temporalFeatures := Array_slice allFeatures 5 10;
     volatilityFeatures := Array_slice allFeatures 10 15;
     interactionFeatures := Array_slice allFeatures 15 19;
     seasonalFeatures := Array_slice allFeatures 19 22;
     extremeFeatures := Array_slice allFeatures 22 25;
     allFeatures := allFeatures;
     epf_quality := Array_sum qualities / Array_length qualities;
     epf_completeness :=
       Array_sum completenesses / Array_length completenesses;
     epf_dataRichness :=
       Math_min (Fin 1)
         ((Array_length soilMoistureTS + Array_length temperatureTS
           + Array_length fireIndexTS + Array_length seaLevelTS
           + Array_length glacierMeltingTS) / Fin 250) |}.

(** The range table of [normalizeFeaturesEnhanced], one list per feature
    group, in the order of [featureGroups]. *)
Definition normalizationRanges : list (list (string * num * num)) :=
  [ [ ("soilMoisture"%string, Fin 0, Fin 100);
      ("temperature"%string, Fin (-50), Fin 60);
      ("fireIndex"%string, Fin 0, Fin 100);
      ("seaLevel"%string, Fin 0, Fin 1);
      ("glacierMelting"%string, Fin 0, Fin 20) ];
    [ ("soilMoistureTrend"%string, Fin (-10), Fin 10);
      ("temperatureTrend"%string, Fin (-5), Fin 5);
      ("fireIndexTrend"%string, Fin (-20), Fin 20);
      ("seaLevelTrend"%string, Fin (-0.1), Fin 0.1);
      ("glacierMeltingTrend"%string, Fin (-2), Fin 2) ];
    [ ("soilMoistureVolatility"%string, Fin 0, Fin 30);
      ("temperatureVolatility"%string, Fin 0, Fin 15);
      ("fireIndexVolatility"%string, Fin 0, Fin 25);
      ("seaLevelVolatility"%string, Fin 0, Fin 0.2);
      ("glacierMeltingVolatility"%string, Fin 0, Fin 5) ];
    [ ("moistureTempInteraction"%string, Fin 0, Fin 6000);
      ("tempFireInteraction"%string, Fin 0, Fin 6000);
      ("moistureSeaInteraction"%string, Fin 0, Fin 100);
      ("glacierSeaInteraction"%string, Fin 0, Fin 20) ];
    [ ("soilMoistureSeasonality"%string, Fin 0, Fin 50);
      ("temperatureSeasonality"%string, Fin 0, Fin 30);
      ("fireIndexSeasonality"%string, Fin 0, Fin 40) ];
    [ ("soilMoistureExtreme"%string, Fin 0, Fin 1);
      ("temperatureExtreme"%string, Fin 0, Fin 1);
      ("fireIndexExtreme"%string, Fin 0, Fin 1) ] ].

Definition enhanced_statistics (groupIndex : nat) (feature : num)
  : EnhancedDataStatistics :=
  {| eds_mean := feature; eds_median := feature; eds_std := Fin 0;
     eds_min := feature; eds_max := feature; eds_count := Fin 1;
     eds_outliers := [];
     eds_trend := if Nat.eqb groupIndex 1 then feature else Fin 0;
     eds_volatility := if Nat.eqb groupIndex 2 then feature else Fin 0;
     eds_seasonality := if Nat.eqb groupIndex 4 then feature else Fin 0;
     eds_extremeValues := if Nat.eqb groupIndex 5 then feature else Fin 0 |}.

(** One group of the double [forEach]: a feature beyond the group's names
    has no range and is skipped. *)
Definition normalize_group
  (groupIndex : nat) (features : list num)
  (ranges : list (string * num * num))
  : list (num * EnhancedDataStatistics * string) :=
  map (fun e =>
         match e with
         | (feature, (featureName, lo, hi)) =>
             (normalize_slot feature lo hi,
              enhanced_statistics groupIndex feature,
              featureName)
         end)
      (combine features ranges).

Definition normalizeFeaturesEnhanced (features : EnhancedProcessedFeatures)
  : EnhancedNormalizedData :=
  let featureGroups :=
    [ basicFeatures features; temporalFeatures features;
      volatilityFeatures features; interactionFeatures features;
      seasonalFeatures features; extremeFeatures features ] in
  let pushed :=
    List.concat
      (map (fun g =>
              match g with
              | (groupIndex, (group, ranges)) =>
                  normalize_group groupIndex group ranges
              end)
           (combine (seq 0 6) (combine featureGroups normalizationRanges)))
  in
  {| end_features := map (fun p => fst (fst p)) pushed;
     end_statistics := map (fun p => snd (fst p)) pushed;
     end_quality := epf_quality features;
     end_completeness := epf_completeness features;
     end_dataRichness := epf_dataRichness features;
     end_featureNames := map snd pushed |}.

(** [xs[i]] for a literal index, as an argument of [Math.min]/[Math.max]. *)
Definition at_index (xs : list num) (i : nat) : num := nth i xs NaN.

(** [b[i] = f(b[i])]: one clamp of the adjustment, in place. *)
Definition clamp_at (b : list num) (i : nat) (f : num -> num) : list num :=
  Array_set b i (f (at_index b i)).

(** The five [if] blocks of [adjustForGeographicContextEnhanced], each as
    the assignments it makes to the array, in order. *)
Definition adjust_desert (b : list num) : list num :=
  let b := clamp_at b 0 (fun x => Math_min x (Fin 0.15)) in
  let b := clamp_at b 1 (fun x => Math_max x (Fin 0.25)) in
  let b := clamp_at b 2 (fun x => Math_max x (Fin 0.6)) in
  let b := Array_set b 3 (Fin 0) in
  Array_set b 4 (Fin 0).

Definition adjust_polar (b : list num) : list num :=
  let b := clamp_at b 0 (fun x => Math_min x (Fin 0.4)) in
  let b := clamp_at b 1 (fun x => Math_min x (Fin 0.15)) in
  let b := clamp_at b 2 (fun x => Math_min x (Fin 0.3)) in
  let b := Array_set b 3 (Fin 0) in
  clamp_at b 4 (fun x => Math_max x (Fin 0.05)).

Definition adjust_coastal (b : list num) : list num :=
  clamp_at b 3 (fun x => Math_max x (Fin 0.05)).

Definition adjust_tropical (b : list num) : list num :=
  let b := clamp_at b 0 (fun x => Math_max x (Fin 0.6)) in
  let b := clamp_at b 1 (fun x => Math_max x (Fin 0.2)) in
  clamp_at b 2 (fun x => Math_min x (Fin 0.6)).

Definition adjust_mountainous (b : list num) : list num :=
  let b := clamp_at b 1 (fun x => Math_min x (Fin 0.3)) in
  clamp_at b 4 (fun x => Math_max x (Fin 0.02)).

(** The copy [{ ...features }] shares the array [basicFeatures] with the
    caller's object, so each assignment is visible to the reads that
    follow: the array is threaded through the five blocks. *)
Definition adjustForGeographicContextEnhanced
  (features : EnhancedProcessedFeatures) (latitude longitude : num)
  : EnhancedProcessedFeatures :=
  let isDesert := isDesertRegion latitude longitude in
  let isPolar := isPolarRegion latitude longitude in
  let isCoastal := isCoastalRegion latitude longitude in
  let isTropical := isTropicalRegion latitude longitude in
  let isMountainous := isMountainousRegion latitude longitude in
  let b := basicFeatures features in
  let b := if isDesert then adjust_desert b else b in
  let b := if isPolar then adjust_polar b else b in
  let b := if isCoastal then adjust_coastal b else b in
  let b := if isTropical then adjust_tropical b else b in
  let b := if isMountainous then adjust_mountainous b else b in
  {| basicFeatures := b;
     temporalFeatures := temporalFeatures features;
     volatilityFeatures := volatilityFeatures features;
     interactionFeatures := interactionFeatures features;
     seasonalFeatures := seasonalFeatures features;
     extremeFeatures := extremeFeatures features;
     allFeatures := b ++ temporalFeatures features
                      ++ volatilityFeatures features
                      ++ interactionFeatures features
                      ++ seasonalFeatures features
                      ++ extremeFeatures features;
     epf_quality := epf_quality features;
     epf_completeness := epf_completeness features;
     epf_dataRichness := epf_dataRichness features |}.

Definition processDataForEnhancedML
  (soilMoisture temperature fireIndex seaLevel glacierMelting : list Sample)
  (latitude longitude : num) : EnhancedNormalizedData :=
  let aggregatedFeatures :=
    aggregateDataWithTimeSeries soilMoisture temperature fireIndex seaLevel
                                glacierMelting in
  let adjustedFeatures :=
    adjustForGeographicContextEnhanced aggregatedFeatures latitude
                                       longitude in
  normalizeFeaturesEnhanced adjustedFeatures.

(* ================================================================ *)
(** ** The predictors ([mlModels.ts], [enhancedMLModels.ts]) *)
(* ================================================================ *)

(** A trained TensorFlow model, seen through what [predict] reads of it:
    the first output for a one-row input. *)
Definition Network : Type := list num -> num.

Inductive PredictionModel : Type :=
| linear
| neural
| ensemble
| random_forest.

Record ModelPrediction : Type := mkModelPrediction {
  mp_droughtRisk : num;
  mp_floodRisk : num;
  mp_confidence : num
}.

Record EnhancedModelPrediction : Type := mkEnhancedModelPrediction {
  emp_droughtRisk : num;
  emp_floodRisk : num;
  emp_confidence : num;
  emp_featureImportance : list num;
  emp_uncertainty : num
}.

(** [Math.max(0, Math.min(1, x))]. *)
Definition clamp01 (x : num) : num := Math_max (Fin 0) (Math_min (Fin 1) x).

(** [features.filter(f => f > 0).length]. *)
Definition count_positive (features : list num) : num :=
  Array_length (filter (fun f => f >? Fin 0) features).

Record LinearRegressionModel : Type := mkLinearRegressionModel {
  lin_droughtModel : Network;
  lin_floodModel : Network
}.

Definition LinearRegressionModel_predict
  (this : LinearRegressionModel) (features : list num) : ModelPrediction :=
  let droughtRisk := clamp01 (lin_droughtModel this features) in
  let floodRisk := clamp01 (lin_floodModel this features) in
  let confidence :=
    Fin 0.6 + (count_positive features / Fin 5) * Fin 0.3 in
  {| mp_droughtRisk := droughtRisk;
     mp_floodRisk := floodRisk;
     mp_confidence := Math_min (Fin 0.95) confidence |}.

Record NeuralNetworkModel : Type := mkNeuralNetworkModel {
  nn_droughtModel : Network;
  nn_floodModel : Network
}.

Definition NeuralNetworkModel_predict
  (this : NeuralNetworkModel) (features : list num) : ModelPrediction :=
  let droughtRisk := clamp01 (nn_droughtModel this features) in
  let floodRisk := clamp01 (nn_floodModel this features) in
  let confidence :=
    Fin 0.7 + (count_positive features / Fin 5) * Fin 0.25 in
  {| mp_droughtRisk := droughtRisk;
     mp_floodRisk := floodRisk;
     mp_confidence := Math_min (Fin 0.95) confidence |}.

Inductive Tree : Type :=
| Leaf (droughtRisk floodRisk : num)
| Node (featureIndex : nat) (threshold : num) (leftTree rightTree : Tree).

Fixpoint predictTree (tree : Tree) (features : list num) : num * num :=
  match tree with
  | Leaf droughtRisk floodRisk => (droughtRisk, floodRisk)
  | Node featureIndex threshold leftTree rightTree =>
      if at_index features featureIndex <=? threshold
      then predictTree leftTree features
      else predictTree rightTree features
  end.

Record RandomForestModel : Type := mkRandomForestModel {
  trees : list Tree
}.

Definition RandomForestModel_predict
  (this : RandomForestModel) (features : list num) : ModelPrediction :=
  let predictions := map (fun tree => predictTree tree features)
                         (trees this) in
  let avgDroughtRisk :=
    Array_sum (map fst predictions) / Array_length predictions in
  let avgFloodRisk :=
    Array_sum (map snd predictions) / Array_length predictions in
  let droughtVariance :=
    fold_left (fun sum p => sum + (fst p - avgDroughtRisk)
                                  * (fst p - avgDroughtRisk))
              predictions (Fin 0) / Array_length predictions in
  let floodVariance :=
    fold_left (fun sum p => sum + (snd p - avgFloodRisk)
                                  * (snd p - avgFloodRisk))
              predictions (Fin 0) / Array_length predictions in
  let confidence :=
    Fin 0.65
    + (Fin 1 - Math_sqrt (droughtVariance + floodVariance)) * Fin 0.3 in
  {| mp_droughtRisk := clamp01 avgDroughtRisk;
     mp_floodRisk := clamp01 avgFloodRisk;
     mp_confidence := Math_min (Fin 0.95) confidence |}.

(** The weights of [EnsembleModel.predict]. *)
Definition weight_linear : num := Fin 0.2.
Definition weight_neural : num := Fin 0.5.
Definition weight_randomForest : num := Fin 0.3.

(** The blend of [EnsembleModel.predict], given the three sub-predictions,
    in exact arithmetic; [Rounded.EnsembleModel_predict] is the same blend
    with the rounding of the engine. *)
Definition EnsembleModel_blend
  (linearPred neuralPred rfPred : ModelPrediction) : ModelPrediction :=
  let droughtRisk :=
    mp_droughtRisk linearPred * weight_linear
    + mp_droughtRisk neuralPred * weight_neural
    + mp_droughtRisk rfPred * weight_randomForest in
  let floodRisk :=
    mp_floodRisk linearPred * weight_linear
    + mp_floodRisk neuralPred * weight_neural
    + mp_floodRisk rfPred * weight_randomForest in
  let confidence :=
    mp_confidence linearPred * weight_linear
    + mp_confidence neuralPred * weight_neural
    + mp_confidence rfPred * weight_randomForest in
  {| mp_droughtRisk := clamp01 droughtRisk;
     mp_floodRisk := clamp01 floodRisk;
     mp_confidence := Math_min (Fin 0.95) confidence |}.

Record EnsembleModel : Type := mkEnsembleModel {
  linearModel : LinearRegressionModel;
  neuralModel : NeuralNetworkModel;
  randomForestModel : RandomForestModel
}.

Definition EnsembleModel_predict
  (this : EnsembleModel) (features : list num) : ModelPrediction :=
  EnsembleModel_blend
    (LinearRegressionModel_predict (linearModel this) features)
    (NeuralNetworkModel_predict (neuralModel this) features)
    (RandomForestModel_predict (randomForestModel this) features).

(** The registry of [MLModelsManager]; every identifier is registered. *)
Record MLModelsManager : Type := mkMLModelsManager {
  mgr_linear : LinearRegressionModel;
  mgr_neural : NeuralNetworkModel;
  mgr_random_forest : RandomForestModel;
  mgr_ensemble : EnsembleModel
}.

Definition MLModelsManager_predict
  (this : MLModelsManager) (modelType : PredictionModel)
  (features : list num) : ModelPrediction :=
  match modelType with
  | linear => LinearRegressionModel_predict (mgr_linear this) features
  | neural => NeuralNetworkModel_predict (mgr_neural this) features
  | random_forest =>
      RandomForestModel_predict (mgr_random_forest this) features
  | ensemble => EnsembleModel_predict (mgr_ensemble this) features
  end.

Record EnhancedNeuralNetworkModel : Type := mkEnhancedNeuralNetworkModel {
  enn_droughtModel : Network;
  enn_floodModel : Network
}.

(** [features.map((feature, index) => ...)]. *)
Definition calculateFeatureImportance (features : list num) : list num :=
  map (fun e =>
         let magnitude := Math_abs (snd e) in
         let position := Fin 1 / (Num.of_nat (fst e) + Fin 1) in
         magnitude * position)
      (combine (seq 0 (List.length features)) features).

Definition calculateUncertainty (droughtRisk floodRisk : num) : num :=
  let spread := Math_abs (droughtRisk - floodRisk) in
  Math_min (Fin 1) (spread * Fin 2).

Definition EnhancedNeuralNetworkModel_predict
  (this : EnhancedNeuralNetworkModel) (features : list num)
  : EnhancedModelPrediction :=
  let droughtRisk := clamp01 (enn_droughtModel this features) in
  let floodRisk := clamp01 (enn_floodModel this features) in
  let featureImportance := calculateFeatureImportance features in
  let uncertainty := calculateUncertainty droughtRisk floodRisk in
  let confidence :=
    Fin 0.8 + (count_positive features / Array_length features) * Fin 0.2 in
  {| emp_droughtRisk := droughtRisk;
     emp_floodRisk := floodRisk;
     emp_confidence := Math_min (Fin 0.95) confidence;
     emp_featureImportance := featureImportance;
     emp_uncertainty := uncertainty |}.

Record EnhancedEnsembleModel : Type := mkEnhancedEnsembleModel {
  ee_neuralModel : EnhancedNeuralNetworkModel
}.

Definition EnhancedEnsembleModel_predict
  (this : EnhancedEnsembleModel) (features : list num)
  : EnhancedModelPrediction :=
  let prediction :=
    EnhancedNeuralNetworkModel_predict (ee_neuralModel this) features in
  {| emp_droughtRisk := emp_droughtRisk prediction;
     emp_floodRisk := emp_floodRisk prediction;
     emp_confidence := emp_confidence prediction * Fin 0.95;
     emp_featureImportance := emp_featureImportance prediction;
     emp_uncertainty := emp_uncertainty prediction * Fin 1.1 |}.

(** The registry of [EnhancedMLModelsManager]: only [neural] and
    [ensemble] are registered; [None] is the thrown "not found" error. *)
Record EnhancedMLModelsManager : Type := mkEnhancedMLModelsManager {
  emgr_neural : EnhancedNeuralNetworkModel;
  emgr_ensemble : EnhancedEnsembleModel
}.

Definition EnhancedMLModelsManager_predict
  (this : EnhancedMLModelsManager) (modelType : PredictionModel)
  (features : list num) : option EnhancedModelPrediction :=
  match modelType with
  | neural =>
      Some (EnhancedNeuralNetworkModel_predict (emgr_neural this) features)
  | ensemble =>
      Some (EnhancedEnsembleModel_predict (emgr_ensemble this) features)
  | _ => None
  end.

(* ================================================================ *)
(** ** The orchestrator ([apiService.runMLPrediction]) *)
(* ================================================================ *)

Record DataFeatures : Type := mkDataFeatures {
  df_soilMoisture : bool;
  df_glacierMelting : bool;
  df_surfaceTemperature : bool;
  df_fireIndex : bool;
  df_seaLevel : bool
}.

Record RiskEstimate : Type := mkRiskEstimate {
  level : RiskLevel;
  probability : num;
  confidence : num
}.

Record DataPoints : Type := mkDataPoints {
  dp_soilMoisture : option num;
  dp_surfaceTemperature : option num;
  dp_fireIndex : option num;
  dp_seaLevel : option num;
  dp_glacierMelting : option num
}.

(** The result without its [id], [timestamp] and display name, which are
    read off the clock. *)
Record PredictionResult : Type := mkPredictionResult {
  pr_latitude : num;
  pr_longitude : num;
  pr_droughtRisk : RiskEstimate;
  pr_floodRisk : RiskEstimate;
  pr_model : PredictionModel;
  pr_features : DataFeatures;
  pr_dataPoints : DataPoints
}.

(** The two singletons [mlModelsManager] and [enhancedMLModelsManager],
    after their lazy training. *)
Variable mlModelsManager : MLModelsManager.
Variable enhancedMLModelsManager : EnhancedMLModelsManager.

(** [x || 0]. *)
Definition or_zero (x : num) : num := if Num.truthy x then x else Fin 0.

(** One optional entry of [dataPoints]: [statistics[i].mean] when the
    signal is selected and has samples.  The outer [None] is the
    [TypeError] of reading [mean] off a missing entry. *)
Definition dataPoint
  (selected : bool) (samples : list Sample) (means : list num) (i : nat)
  : option (option num) :=
  if selected && (Array_length samples >? Fin 0)
  then match nth_error means i with
       | Some m => Some (Some m)
       | None => None
       end
  else Some None.

Definition collect_dataPoints
  (features : DataFeatures)
  (soilMoisture temperature fireIndex seaLevel glacierMelting : list Sample)
  (means : list num) : option DataPoints :=
  match dataPoint (df_soilMoisture features) soilMoisture means 0,
        dataPoint (df_surfaceTemperature features) temperature means 1,
        dataPoint (df_fireIndex features) fireIndex means 2,
        dataPoint (df_seaLevel features) seaLevel means 3,
        dataPoint (df_glacierMelting features) glacierMelting means 4 with
  | Some a, Some b, Some c, Some d, Some e =>
      Some {| dp_soilMoisture := a; dp_surfaceTemperature := b;
              dp_fireIndex := c; dp_seaLevel := d;
              dp_glacierMelting := e |}
  | _, _, _, _, _ => None
  end.

(** [None] is a thrown error. *)
Definition runMLPrediction
  (soilMoisture temperature fireIndex seaLevel glacierMelting : list Sample)
  (model : PredictionModel) (features : DataFeatures)
  (latitude longitude : num) : option PredictionResult :=
  let useEnhancedModels :=
    match model with neural | ensemble => true | _ => false end in
  if useEnhancedModels then
    let enhancedProcessedData :=
      processDataForEnhancedML soilMoisture temperature fireIndex seaLevel
                               glacierMelting latitude longitude in
    match EnhancedMLModelsManager_predict
            enhancedMLModelsManager model
            (end_features enhancedProcessedData) with
    | None => None
    | Some enhancedPrediction =>
        match collect_dataPoints
                features soilMoisture temperature fireIndex seaLevel
                glacierMelting
                (map eds_mean (end_statistics enhancedProcessedData)) with
        | None => None
        | Some dataPoints =>
            let finalConfidence :=
              emp_confidence enhancedPrediction
              * end_quality enhancedProcessedData
              * end_dataRichness enhancedProcessedData in
            Some
              {| pr_latitude := or_zero latitude;
                 pr_longitude := or_zero longitude;
                 pr_droughtRisk :=
                   {| level :=
                        getRiskLevel (emp_droughtRisk enhancedPrediction);
                      probability := emp_droughtRisk enhancedPrediction;
                      confidence := finalConfidence |};
                 pr_floodRisk :=
                   {| level :=
                        getRiskLevel (emp_floodRisk enhancedPrediction);
                      probability := emp_floodRisk enhancedPrediction;
                      confidence := finalConfidence |};
                 pr_model := model;
                 pr_features := features;
                 pr_dataPoints := dataPoints |}
        end
    end
  else
    let processedData :=
      processDataForML soilMoisture temperature fireIndex seaLevel
                       glacierMelting latitude longitude in
    let mlPrediction :=
      MLModelsManager_predict mlModelsManager model
                              (nd_features processedData) in
    match collect_dataPoints
            features soilMoisture temperature fireIndex seaLevel
            glacierMelting
            (map ds_mean (nd_statistics processedData)) with
    | None => None
    | Some dataPoints =>
        Some
          {| pr_latitude := or_zero latitude;
             pr_longitude := or_zero longitude;
             pr_droughtRisk :=
               {| level := getRiskLevel (mp_droughtRisk mlPrediction);
                  probability := mp_droughtRisk mlPrediction;
                  confidence :=
                    mp_confidence mlPrediction * nd_quality processedData |};
             pr_floodRisk :=
               {| level := getRiskLevel (mp_floodRisk mlPrediction);
                  probability := mp_floodRisk mlPrediction;
                  confidence :=
                    mp_confidence mlPrediction * nd_quality processedData |};
             pr_model := model;
             pr_features := features;
             pr_dataPoints := dataPoints |}
    end.

End Pipeline.

Arguments cleanData_keep Date_getTime item : simpl never.
Arguments cleanAndValidateData_keep
  Date_getTime Date_getFullYear now_getFullYear item : simpl never.

(* ================================================================== *)
(** ** The robust average and the basic ensemble, in binary64 *)
(* ================================================================== *)

Module Rounded.

(** [DataPreprocessor.calculateRobustAverage]. *)
Definition calculateRobustAverage (values : list num) : num :=
  if Nat.eqb (List.length values) 0 then Fin 0
  else
    let sorted := Array_sort (fun a b => a -! b) values in
    let q1Index := Math_floor (Array_length sorted *! Binary64.lit 0.25) in
    let q3Index := Math_floor (Array_length sorted *! Binary64.lit 0.75) in
    let q1 := Array_get sorted q1Index in
    let q3 := Array_get sorted q3Index in
    let iqr := q3 -! q1 in
    let lowerBound := q1 -! Binary64.lit 1.5 *! iqr in
    let upperBound := q3 +! Binary64.lit 1.5 *! iqr in
    let filteredValues :=
      filter (fun value => (value >=? lowerBound) && (value <=? upperBound))
             values in
    if Array_length filteredValues >? Fin 0
    then fold_left (fun sum val => sum +! val) filteredValues (Fin 0)
         /! Array_length filteredValues
    else fold_left (fun sum val => sum +! val) values (Fin 0)
         /! Array_length values.

(** The three sub-models of [EnsembleModel], each by its [predict]. *)
Record EnsembleModel : Type := mkEnsembleModel {
  linearModel : list num -> ModelPrediction;
  neuralModel : list num -> ModelPrediction;
  randomForestModel : list num -> ModelPrediction
}.

Definition weights_linear : num := Binary64.lit 0.2.
Definition weights_neural : num := Binary64.lit 0.5.
Definition weights_randomForest : num := Binary64.lit 0.3.

(** [EnsembleModel.predict], once the ensemble is trained. *)
Definition EnsembleModel_predict
  (this : EnsembleModel) (features : list num) : ModelPrediction :=
  let linearPred := linearModel this features in
  let neuralPred := neuralModel this features in
  let rfPred := randomForestModel this features in
  let droughtRisk :=
    mp_droughtRisk linearPred *! weights_linear
    +! mp_droughtRisk neuralPred *! weights_neural
    +! mp_droughtRisk rfPred *! weights_randomForest in
  let floodRisk :=
    mp_floodRisk linearPred *! weights_linear
    +! mp_floodRisk neuralPred *! weights_neural
    +! mp_floodRisk rfPred *! weights_randomForest in
  let confidence :=
    mp_confidence linearPred *! weights_linear
    +! mp_confidence neuralPred *! weights_neural
    +! mp_confidence rfPred *! weights_randomForest in
  {| mp_droughtRisk := Math_max (Fin 0) (Math_min (Fin 1) droughtRisk);
     mp_floodRisk := Math_max (Fin 0) (Math_min (Fin 1) floodRisk);
     mp_confidence := Math_min (Binary64.lit 0.95) confidence |}.

End Rounded.

(* ================================================================== *)
(** ** Reference definitions *)
(* ================================================================== *)

(** These follow the wording of the specification, not the code; the
    theorems below compare the code with them. *)

Definition Q_of_nat (n : nat) : Q := inject_Z (Z.of_nat n).

Definition Qsum (xs : list Q) : Q := fold_right Qplus 0%Q xs.

(** "arithmetic mean; 0 for empty input". *)
Definition Qmean (xs : list Q) : Q :=
  match xs with
  | [] => 0%Q
  | _ => (Qsum xs / Q_of_nat (List.length xs))%Q
  end.

Definition Qmin2 (a b : Q) : Q := if Qle_bool a b then a else b.

(** "Q1, Q3 at the 25th/75th percentile by index (floor(n*0.25),
    floor(n*0.75) on the ascending-sorted sequence, not interpolated),
    IQR = Q3 - Q1, bounds = [Q1 - 1.5 IQR, Q3 + 1.5 IQR]; average only
    in-bound values; if filtering removes everything, fall back to the
    unfiltered mean".  [sorted] is the ascending-sorted sequence of [xs]. *)
Definition robustMean_reference (sorted xs : list Q) : Q :=
  let n := List.length xs in
  let q1 := nth (Nat.div n 4) sorted 0%Q in
  let q3 := nth (Nat.div (3 * n) 4) sorted 0%Q in
  let iqr := (q3 - q1)%Q in
  let lower := (q1 - 1.5 * iqr)%Q in
  let upper := (q3 + 1.5 * iqr)%Q in
  let inBound :=
    filter (fun x => Qle_bool lower x && Qle_bool x upper) xs in
  match xs, inBound with
  | [], _ => 0%Q
  | _, [] => Qmean xs
  | _, _ => Qmean inBound
  end.

(** The stable insertion sort of [Array_sort], read on rationals with the
    comparator [(a, b) => a - b]. *)
Fixpoint qinsert (x : Q) (l : list Q) : list Q :=
  match l with
  | [] => [x]
  | y :: t => if Qltb 0 (x + - y) then y :: qinsert x t else x :: l
  end.

Fixpoint qsort (xs : list Q) : list Q :=
  match xs with
  | [] => []
  | x :: t => qinsert x (qsort t)
  end.

(** The mean as the engine takes it: the sum from the left, then the
    quotient, each rounded to binary64. *)
Definition mean_binary64 (xs : list Q) : num :=
  fold_left Binary64.add (map Fin xs) (Fin 0) /! Num.of_nat (List.length xs).

(** The reference definition of the robust mean, word for word as
    [robustMean_reference], its difference, products, sums and quotient
    being those of binary64. *)
Definition robustMean_binary64 (sorted xs : list Q) : num :=
  let n := List.length xs in
  let q1 := Fin (nth (Nat.div n 4) sorted 0%Q) in
  let q3 := Fin (nth (Nat.div (3 * n) 4) sorted 0%Q) in
  let iqr := q3 -! q1 in
  let lower := q1 -! Binary64.lit 1.5 *! iqr in
  let upper := q3 +! Binary64.lit 1.5 *! iqr in
  let inBound :=
    filter (fun x => Num.leb lower (Fin x) && Num.leb (Fin x) upper) xs in
  match xs, inBound with
  | [], _ => Fin 0
  | _, [] => mean_binary64 xs
  | _, _ => mean_binary64 inBound
  end.



(** The values that the robust average keeps, in binary64: those within
    1.5 IQR of the quartiles read off the sorted copy. *)
Definition in_bound_binary64 (xs : list Q) : list Q :=
  let sorted := qsort xs in
  let n := List.length xs in
  let q1 := Fin (nth (Nat.div n 4) sorted 0%Q) in
  let q3 := Fin (nth (Nat.div (3 * n) 4) sorted 0%Q) in
  let iqr := q3 -! q1 in
  let lower := q1 -! Binary64.lit 1.5 *! iqr in
  let upper := q3 +! Binary64.lit 1.5 *! iqr in
  filter (fun x => Num.leb lower (Fin x) && Num.leb (Fin x) upper) xs.

(** "Exponential backoff: 1s, 2s, 4s, 8s, 16s", and 0 where the power of
    two is below the smallest binary64 value. *)
Definition retry_schedule (attempt : Z) : Q :=
  if (attempt <=? -1074)%Z then 0
  else if (5 <=? attempt)%Z then 16000
  else (1000 * 2 ^ (attempt - 1))%Q.

Definition list_min (counts : list nat) : nat :=
  match counts with
  | [] => 0%nat
  | c :: rest => fold_left Nat.min rest c
  end.

Definition list_total (counts : list nat) : nat :=
  fold_right Nat.add 0%nat counts.

(** "consistency = min(cleanCounts)/max(cleanCounts) (0 if max is 0)". *)
Definition consistency_reference (counts : list nat) : Q :=
  if Nat.eqb (list_max counts) 0 then 0%Q
  else (Q_of_nat (list_min counts) / Q_of_nat (list_max counts))%Q.

(** "quality = 0.6 consistency + 0.4 richness", with the basic variant's
    "richness = min(1, totalCleanPoints/50)". *)
Definition quality_reference_basic (counts : list nat) : Q :=
  (0.6 * consistency_reference counts
   + 0.4 * Qmin2 1 (Q_of_nat (list_total counts) / 50))%Q.

(** "the mean of five independent per-signal min(1, count/expectedMinimum)
    completeness scores (expected minimum = 10)". *)
Definition completeness_reference (counts : list nat) : Q :=
  Qmean (map (fun c => Qmin2 1 (Q_of_nat c / 10)) counts).



(** "dropped if and only if its timestamp, latitude, or longitude is
    missing, its latitude is outside [-90,90] or longitude outside
    [-180,180], its timestamp does not parse": the samples to keep. *)
Definition valid_sample_reference
  (Date_getTime : string -> num) (item : Sample) : bool :=
  match timestamp item, latitude item, longitude item with
  | Some ts, Some lat, Some lon =>
      negb (String.eqb ts "")
      && isValidCoordinates lat lon
      && negb (Num.isNaN (Date_getTime ts))
  | _, _, _ => false
  end.

(** The feature record is laid out as the aggregation step builds it. *)
Definition well_formed (features : EnhancedProcessedFeatures) : Prop :=
  List.length (basicFeatures features) = 5%nat
  /\ List.length (allFeatures features) = 25%nat
  /\ allFeatures features
     = basicFeatures features ++ temporalFeatures features
         ++ volatilityFeatures features ++ interactionFeatures features
         ++ seasonalFeatures features ++ extremeFeatures features.

(* ================================================================== *)
(** ** Example platform and inputs *)
(* ================================================================== *)

Definition example_timestamp : string := "2024-06-01T00:00:00.000Z".

(** A platform that knows one timestamp, in a year 2026. *)
Definition example_getTime (s : string) : num :=
  if String.eqb s example_timestamp then Fin 1717200000000 else NaN.

Definition example_getFullYear (s : string) : num :=
  if String.eqb s example_timestamp then Fin 2024 else NaN.

Definition example_now : num := Fin 2026.

(** Square root on rationals, exact on squares and rounded down to a
    multiple of the inverse denominator otherwise. *)
Definition example_sqrt (x : num) : num :=
  match x with
  | Fin q =>
      if Qltb q 0 then NaN
      else Fin (Z.sqrt (Qnum q * Zpos (Qden q)) # Qden q)
  | NInf => NaN
  | _ => x
  end.

Definition example_sample (lat lon v : Q) : Sample :=
  {| timestamp := Some example_timestamp;
     latitude := Some (Fin lat);
     longitude := Some (Fin lon);
     value := Fin v |}.

Definition example_enhanced
  (soil temp fire sea glacier : list Sample) (lat lon : Q)
  : EnhancedNormalizedData :=
  processDataForEnhancedML example_sqrt example_getTime example_getFullYear
                           example_now soil temp fire sea glacier
                           (Fin lat) (Fin lon).

(** Aggregated features of a point of the Australian desert coast. *)
Definition example_aggregated : EnhancedProcessedFeatures :=
  aggregateDataWithTimeSeries
    example_sqrt example_getTime example_getFullYear example_now
    [example_sample (-25) 130 40; example_sample (-25) 130 44]
    [example_sample (-25) 130 31]
    [example_sample (-25) 130 10]
    []
    [].

(** Five valid samples of one signal, at Bangkok. *)
Definition five_samples : list Sample :=
  [ example_sample 13.75 100.5 30; example_sample 13.75 100.5 31;
    example_sample 13.75 100.5 32; example_sample 13.75 100.5 33;
    example_sample 13.75 100.5 34 ].

Definition constant_network (v : Q) : Network := fun _ => Fin v.

Definition example_linear : LinearRegressionModel :=
  {| lin_droughtModel := constant_network 0.7;
     lin_floodModel := constant_network 0.2 |}.

Definition example_neural : NeuralNetworkModel :=
  {| nn_droughtModel := constant_network 0.7;
     nn_floodModel := constant_network 0.4 |}.

Definition example_forest : RandomForestModel :=
  {| trees := [ Leaf (Fin 0.7) (Fin 0.1);
                Node 1 (Fin 0.5) (Leaf (Fin 0.7) (Fin 0.3))
                                 (Leaf (Fin 0.7) (Fin 0.5)) ] |}.

Definition example_ensemble : EnsembleModel :=
  {| linearModel := example_linear;
     neuralModel := example_neural;
     randomForestModel := example_forest |}.

Definition example_manager : MLModelsManager :=
  {| mgr_linear := example_linear;
     mgr_neural := example_neural;
     mgr_random_forest := example_forest;
     mgr_ensemble := example_ensemble |}.

(** An enhanced network pair that answers "drought 0.9, flood 0.1". *)
Definition example_enhanced_neural : EnhancedNeuralNetworkModel :=
  {| enn_droughtModel := constant_network 0.9;
     enn_floodModel := constant_network 0.1 |}.

Definition example_enhanced_manager : EnhancedMLModelsManager :=
  {| emgr_neural := example_enhanced_neural;
     emgr_ensemble := {| ee_neuralModel := example_enhanced_neural |} |}.

Definition example_features : DataFeatures :=
  {| df_soilMoisture := true; df_glacierMelting := false;
     df_surfaceTemperature := true; df_fireIndex := false;
     df_seaLevel := false |}.



(** Five temperature readings, 25, 25.3, 25.4, 25.5 and 25.8, as the
    engine holds them. *)
Definition example_readings : list Q :=
  Eval vm_compute in map Binary64.double [25; 25.3; 25.4; 25.5; 25.8].

(* ================================================================== *)
(** ** Helpers ([utils/helpers.ts]) *)
(* ================================================================== *)

(** [Math.min(Math.max(value, min), max)]. *)
Definition clamp (value min max : num) : num :=
  Math_min (Math_max value min) max.

Definition isInRange (value min max : num) : bool :=
  (value >=? min) && (value <=? max).

(* ================================================================== *)
(** ** The error handler ([ErrorHandler]) *)
(* ================================================================== *)

Module ErrorHandler.

Definition NETWORK_ERROR : string := "NETWORK_ERROR".
Definition API_ERROR : string := "API_ERROR".
Definition VALIDATION_ERROR : string := "VALIDATION_ERROR".
Definition PREDICTION_ERROR : string := "PREDICTION_ERROR".
Definition DATA_LOAD_ERROR : string := "DATA_LOAD_ERROR".
Definition UNKNOWN_ERROR : string := "UNKNOWN_ERROR".

Definition NETWORK_ERROR_MESSAGE : string :=
  "ไม่สามารถเชื่อมต่อเครือข่ายได้".
Definition API_ERROR_MESSAGE : string :=
  "เกิดข้อผิดพลาดในการเชื่อมต่อ API".
Definition VALIDATION_ERROR_MESSAGE : string := "ข้อมูลไม่ถูกต้อง".
Definition PREDICTION_ERROR_MESSAGE : string :=
  "เกิดข้อผิดพลาดในการทำนาย".
Definition DATA_LOAD_ERROR_MESSAGE : string :=
  "เกิดข้อผิดพลาดในการโหลดข้อมูล".
Definition UNKNOWN_ERROR_MESSAGE : string :=
  "เกิดข้อผิดพลาดที่ไม่ทราบสาเหตุ".
Definition SERVER_ERROR_MESSAGE : string :=
  "เกิดข้อผิดพลาดที่เซิร์ฟเวอร์".

(** The table [ERROR_MESSAGES]; [None] is a key that it does not hold
    (what the object inherits is not modelled). *)
Definition ERROR_MESSAGES (code : string) : option string :=
  if String.eqb code NETWORK_ERROR then Some NETWORK_ERROR_MESSAGE
  else if String.eqb code API_ERROR then Some API_ERROR_MESSAGE
  else if String.eqb code VALIDATION_ERROR
  then Some VALIDATION_ERROR_MESSAGE
  else if String.eqb code PREDICTION_ERROR
  then Some PREDICTION_ERROR_MESSAGE
  else if String.eqb code DATA_LOAD_ERROR
  then Some DATA_LOAD_ERROR_MESSAGE
  else if String.eqb code UNKNOWN_ERROR then Some UNKNOWN_ERROR_MESSAGE
  else None.

(** What the handlers put into [details]: the caller's value, or the part
    of the failed request that [handleApiError] records. *)
Inductive Details : Type :=
| given (payload : string)
| of_response (status : num) (data_message : option string)
| of_request
| of_original.

Record AppError : Type := mkAppError {
  code : string;
  message : string;
  details : option Details;
  timestamp : string;
  stack : option string
}.

(** The argument of [handleApiError]: the [response] of a request that the
    server answered with an error status, whether a [request] was made,
    and the error's own [message] and [stack]. *)
Record ResponseError : Type := mkResponseError {
  status : num;
  data_message : option string
}.

Record RequestError : Type := mkRequestError {
  response : option ResponseError;
  request : bool;
  error_message : option string;
  error_stack : option string
}.

(** [s || d] on a string that may be absent. *)
Definition or_default (s : option string) (d : string) : string :=
  match s with
  | Some v => if String.eqb v "" then d else v
  | None => d
  end.

(** The methods thread the singleton's [errorLog]; [now] is
    [new Date().toISOString()] at the call. *)
Definition logError (error : AppError) (errorLog : list AppError)
  : list AppError :=
  errorLog ++ [error].

Definition createError
  (now : string) (code message : string) (details : option Details)
  (originalStack : option string) (errorLog : list AppError)
  : AppError * list AppError :=
  let error := {| code := code; message := message; details := details;
                  timestamp := now; stack := originalStack |} in
  (error, logError error errorLog).

Definition getErrorLog (errorLog : list AppError) : list AppError :=
  errorLog.

Definition clearErrorLog (errorLog : list AppError) : list AppError := [].

Definition handleApiError
  (now : string) (error : RequestError) (errorLog : list AppError)
  : AppError * list AppError :=
  match response error with
  | Some r =>
      let message := or_default (data_message r) SERVER_ERROR_MESSAGE in
      createError now API_ERROR message
                  (Some (of_response (status r) (data_message r)))
                  (error_stack error) errorLog
  | None =>
      if request error then
        createError now NETWORK_ERROR NETWORK_ERROR_MESSAGE
                    (Some of_request) (error_stack error) errorLog
      else
        createError now UNKNOWN_ERROR
                    (or_default (error_message error)
                                UNKNOWN_ERROR_MESSAGE)
                    (Some of_original) (error_stack error) errorLog
  end.

Definition handleValidationError
  (now : string) (message : string) (details : option Details)
  (errorLog : list AppError) : AppError * list AppError :=
  createError now VALIDATION_ERROR message details None errorLog.

Definition handlePredictionError
  (now : string) (message : string) (details : option Details)
  (errorLog : list AppError) : AppError * list AppError :=
  createError now PREDICTION_ERROR message details None errorLog.

Definition handleDataLoadError
  (now : string) (message : string) (details : option Details)
  (errorLog : list AppError) : AppError * list AppError :=
  createError now DATA_LOAD_ERROR message details None errorLog.

Definition getUserFriendlyMessage (error : AppError) : string :=
  or_default (ERROR_MESSAGES (code error)) (message error).

Definition isRetryable (error : AppError) : bool :=
  String.eqb (code error) NETWORK_ERROR
  || String.eqb (code error) API_ERROR.

(** [Math.pow(2, n)] at an integer [n]: the power itself where binary64
    holds it, 0 below [2^-1074] and infinite from [2^1024] on. *)
Definition Math_pow2 (n : Z) : num := Binary64.round (Qpower 2 n).

(** [attempt] is the count of the attempt, an integer. *)
Definition getRetryDelay (error : AppError) (attempt : Z) : num :=
  if negb (isRetryable error) then Fin 0
  else Math_min (Fin 1000 *! Math_pow2 (attempt - 1)) (Fin 16000).

End ErrorHandler.

(* ================================================================== *)
(** ** The dashboard state ([AppContext], [useDashboard]) *)
(* ================================================================== *)

Record Location : Type := mkLocation {
  loc_latitude : num;
  loc_longitude : num;
  loc_name : string
}.

Record DashboardState : Type := mkDashboardState {
  selectedModel : PredictionModel;
  selectedFeatures : DataFeatures;
  selectedLocation : Location;
  predictionResults : list PredictionResult;
  isLoading : bool;
  error : option string
}.

Inductive Action : Type :=
| SET_MODEL (payload : PredictionModel)
| SET_FEATURES (payload : DataFeatures)
| SET_LOCATION (payload : Location)
| SET_LOADING (payload : bool)
| SET_ERROR (payload : option string)
| ADD_PREDICTION_RESULT (payload : PredictionResult)
| CLEAR_PREDICTION_RESULTS
| CLEAR_ERROR.

Definition dashboardReducer (state : DashboardState) (action : Action)
  : DashboardState :=
  match action with
  | SET_MODEL payload =>
      {| selectedModel := payload;
         selectedFeatures := selectedFeatures state;
         selectedLocation := selectedLocation state;
         predictionResults := predictionResults state;
         isLoading := isLoading state;
         error := error state |}
  | SET_FEATURES payload =>
      {| selectedModel := selectedModel state;
         selectedFeatures := payload;
         selectedLocation := selectedLocation state;
         predictionResults := predictionResults state;
         isLoading := isLoading state;
         error := error state |}
  | SET_LOCATION payload =>
      {| selectedModel := selectedModel state;
         selectedFeatures := selectedFeatures state;
         selectedLocation := payload;
         predictionResults := predictionResults state;
         isLoading := isLoading state;
         error := error state |}
  | SET_LOADING payload =>
      {| selectedModel := selectedModel state;
         selectedFeatures := selectedFeatures state;
         selectedLocation := selectedLocation state;
         predictionResults := predictionResults state;
         isLoading := payload;
         error := error state |}
  | SET_ERROR payload =>
      {| selectedModel := selectedModel state;
         selectedFeatures := selectedFeatures state;
         selectedLocation := selectedLocation state;
         predictionResults := predictionResults state;
         isLoading := isLoading state;
         error := payload |}
  | ADD_PREDICTION_RESULT payload =>
      {| selectedModel := selectedModel state;
         selectedFeatures := selectedFeatures state;
         selectedLocation := selectedLocation state;
         predictionResults := payload :: predictionResults state;
         isLoading := isLoading state;
         error := error state |}
  | CLEAR_PREDICTION_RESULTS =>
      {| selectedModel := selectedModel state;
         selectedFeatures := selectedFeatures state;
         selectedLocation := selectedLocation state;
         predictionResults := [];
         isLoading := isLoading state;
         error := error state |}
  | CLEAR_ERROR =>
      {| selectedModel := selectedModel state;
         selectedFeatures := selectedFeatures state;
         selectedLocation := selectedLocation state;
         predictionResults := predictionResults state;
         isLoading := isLoading state;
         error := None |}
  end.

(** The answer of [apiService.predictDisasters]: [success: true] with the
    prediction as [data], or [success: false] with an [error]. *)
Inductive PredictionResponse : Type :=
| succeeded (data : PredictionResult)
| failed (error : option string).

(** [Object.values(selectedFeatures).filter(Boolean).length]. *)
Definition selectedFeatureCount (features : DataFeatures) : nat :=
  List.length
    (filter (fun b : bool => b)
            [ df_soilMoisture features; df_glacierMelting features;
              df_surfaceTemperature features; df_fireIndex features;
              df_seaLevel features ]).

Section UseDashboard.

(** [apiService.predictDisasters], awaited. *)
Variable predictDisasters :
  num -> num -> PredictionModel -> DataFeatures -> PredictionResponse.

(** The first update of [runPrediction]. *)
Definition runPrediction_start (prev : DashboardState) : DashboardState :=
  {| selectedModel := selectedModel prev;
     selectedFeatures := selectedFeatures prev;
     selectedLocation := selectedLocation prev;
     predictionResults := predictionResults prev;
     isLoading := true;
     error := None |}.

Definition runPrediction_fail (message : string) (prev : DashboardState)
  : DashboardState :=
  {| selectedModel := selectedModel prev;
     selectedFeatures := selectedFeatures prev;
     selectedLocation := selectedLocation prev;
     predictionResults := predictionResults prev;
     isLoading := false;
     error := Some message |}.

(** The second update: [state] is the state the callback closed over,
    [prev] the state the update is applied to.  A successful response
    carries its result. *)
Definition runPrediction_finish (state prev : DashboardState)
  : DashboardState :=
  if Nat.ltb (selectedFeatureCount (selectedFeatures state)) 2
  then runPrediction_fail
         "Please select at least 2 features for prediction"%string prev
  else
    let response :=
      predictDisasters (loc_latitude (selectedLocation state))
                       (loc_longitude (selectedLocation state))
                       (selectedModel state) (selectedFeatures state) in
    match response with
    | succeeded data =>
        {| selectedModel := selectedModel prev;
           selectedFeatures := selectedFeatures prev;
           selectedLocation := selectedLocation prev;
           predictionResults := data :: predictionResults prev;
           isLoading := false;
           error := error prev |}
    | failed e =>
        runPrediction_fail
          (ErrorHandler.or_default e "Error occurred during prediction")
          prev
    end.

(** [runPrediction] when no other update comes in between. *)
Definition runPrediction (state : DashboardState) : DashboardState :=
  runPrediction_finish state (runPrediction_start state).

Definition clearError (prev : DashboardState) : DashboardState :=
  {| selectedModel := selectedModel prev;
     selectedFeatures := selectedFeatures prev;
     selectedLocation := selectedLocation prev;
     predictionResults := predictionResults prev;
     isLoading := isLoading prev;
     error := None |}.

Definition clearResults (prev : DashboardState) : DashboardState :=
  {| selectedModel := selectedModel prev;
     selectedFeatures := selectedFeatures prev;
     selectedLocation := selectedLocation prev;
     predictionResults := [];
     isLoading := isLoading prev;
     error := error prev |}.

End UseDashboard.

(* ================================================================== *)
(** ** The data sources and [apiService.predictDisasters] *)
(* ================================================================== *)

(** What one fetcher meets outside the program: the answer to its request
    (the [date] property of each item, or [None] when the request or its
    transformation throws), the fallback timestamp
    [new Date(Date.now() - index * 86400000).toISOString()] of the item at
    [index], and the draw of [Math.random()] that gives that item its
    value. *)
Record Source : Type := mkSource {
  src_response : option (list (option string));
  src_clock : nat -> string;
  src_random : nat -> Q
}.

(** [{ success, data }] of a fetcher. *)
Record Fetched : Type := mkFetched {
  success : bool;
  data : list Sample
}.

(** The common body of the four fetchers that go through the APOD
    request, which differ in the numbers only: [value] is
    [base + Math.random() * spread] (the sea level has no base, here 0).
    The answer is the array of items, or the one item made an array. *)
Definition fetchApod
  (source : Source) (base spread : Q) (latitude longitude : num)
  : Fetched :=
  match src_response source with
  | Some items =>
      {| success := true;
         data :=
           map (fun e =>
                  {| timestamp :=
                       if truthy_string (snd e) then snd e
                       else Some (src_clock source (fst e));
                     latitude := Some latitude;
                     longitude := Some longitude;
                     value := Fin base
                              + Fin (src_random source (fst e))
                                * Fin spread |})
               (combine (seq 0 (List.length items)) items) |}
  | None => {| success := false; data := [] |}
  end.

Definition getSoilMoistureData (source : Source) := fetchApod source 50 30.
Definition getSurfaceTemperatureData (source : Source) :=
  fetchApod source 25 10.
Definition getFireIndexData (source : Source) := fetchApod source 30 40.
Definition getSeaLevelData (source : Source) := fetchApod source 0 0.5.

(** The glacier fetcher builds its ten items itself. *)
Definition getGlacierData
  (source : Source) (latitude longitude : num) : Fetched :=
  {| success := true;
     data :=
       map (fun i =>
              {| timestamp := Some (src_clock source i);
                 latitude := Some latitude;
                 longitude := Some longitude;
                 value := Fin 2 + Fin (src_random source i) * Fin 8 |})
           (seq 0 10) |}.

(** [Promise.resolve({ success: true, data: [] })]. *)
Definition not_requested : Fetched := {| success := true; data := [] |}.

Record World : Type := mkWorld {
  soilSource : Source;
  temperatureSource : Source;
  fireSource : Source;
  seaSource : Source;
  glacierSource : Source
}.

Section PredictDisasters.

Variable Math_sqrt : num -> num.
Variable Date_getTime : string -> num.
Variable Date_getFullYear : string -> num.
Variable now_getFullYear : num.
Variable mlModelsManager : MLModelsManager.
Variable enhancedMLModelsManager : EnhancedMLModelsManager.

(** The message of the error that [runMLPrediction] throws. *)
Variable thrown_message : option string.

Definition predictDisasters
  (world : World) (latitude longitude : num) (model : PredictionModel)
  (features : DataFeatures) : PredictionResponse :=
  let soilData :=
    if df_soilMoisture features
    then getSoilMoistureData (soilSource world) latitude longitude
    else not_requested in
  let tempData :=
    if df_surfaceTemperature features
    then getSurfaceTemperatureData (temperatureSource world)
                                   latitude longitude
    else not_requested in
  let fireData :=
    if df_fireIndex features
    then getFireIndexData (fireSource world) latitude longitude
    else not_requested in
  let seaData :=
    if df_seaLevel features
    then getSeaLevelData (seaSource world) latitude longitude
    else not_requested in
  let glacierData :=
    if df_glacierMelting features
    then getGlacierData (glacierSource world) latitude longitude
    else not_requested in
  match runMLPrediction Math_sqrt Date_getTime Date_getFullYear
          now_getFullYear mlModelsManager enhancedMLModelsManager
          (data soilData) (data tempData) (data fireData) (data seaData)
          (data glacierData) model features latitude longitude with
  | Some prediction => succeeded prediction
  | None =>
      failed (Some (ErrorHandler.or_default thrown_message
                                            "Prediction failed"))
  end.

End PredictDisasters.

(* ================================================================== *)
(** ** Training of the random forest
       ([BaseMLModel.generateTrainingData], [RandomForestModel.train]) *)
(* ================================================================== *)

Record TrainingData : Type := mkTrainingData {
  td_features : list num;
  td_droughtRisk : num;
  td_floodRisk : num
}.

Section Training.

(** [Math.random()]: the draws in the order in which the program makes
    them.  A computation that draws is a function of the index of the
    next draw, and returns the index of the draw after its last one. *)
Variable Math_random : nat -> Q.

Definition Rand (A : Type) : Type := nat -> A * nat.

Definition ret (A : Type) (a : A) : Rand A := fun n => (a, n).

Definition bind (A B : Type) (m : Rand A) (f : A -> Rand B) : Rand B :=
  fun n => let (a, n') := m n in f a n'.

Arguments ret {A} a.
Arguments bind {A B} m f.

Local Notation "x <- m ;; k" := (bind m (fun x => k))
  (at level 61, m at next level, right associativity).

Definition random : Rand num := fun n => (Fin (Math_random n), S n).

(** [for (let i = 0; i < count; i++) trainingData.push(...)]. *)
Fixpoint repeatM (A : Type) (count : nat) (m : Rand A) : Rand (list A) :=
  match count with
  | O => ret []
  | S count' => a <- m ;; rest <- repeatM A count' m ;; ret (a :: rest)
  end.

Arguments repeatM {A} count m.

Definition desertExample : Rand TrainingData :=
  r1 <- random ;; r2 <- random ;; r3 <- random ;;
  r4 <- random ;; r5 <- random ;;
  ret {| td_features := [ Fin 5 + r1 * Fin 10; Fin 30 + r2 * Fin 15;
                          Fin 70 + r3 * Fin 20; Fin 0; Fin 0 ];
         td_droughtRisk := Fin 0.8 + r4 * Fin 0.15;
         td_floodRisk := Fin 0.05 + r5 * Fin 0.1 |}.

Definition coastalExample : Rand TrainingData :=
  r1 <- random ;; r2 <- random ;; r3 <- random ;; r4 <- random ;;
  r5 <- random ;; r6 <- random ;;
  ret {| td_features := [ Fin 40 + r1 * Fin 30; Fin 15 + r2 * Fin 20;
                          Fin 30 + r3 * Fin 40; Fin 0.05 + r4 * Fin 0.15;
                          Fin 0 ];
         td_droughtRisk := Fin 0.2 + r5 * Fin 0.4;
         td_floodRisk := Fin 0.3 + r6 * Fin 0.4 |}.

Definition tropicalExample : Rand TrainingData :=
  r1 <- random ;; r2 <- random ;; r3 <- random ;;
  r4 <- random ;; r5 <- random ;;
  ret {| td_features := [ Fin 70 + r1 * Fin 20; Fin 25 + r2 * Fin 10;
                          Fin 40 + r3 * Fin 30; Fin 0; Fin 0 ];
         td_droughtRisk := Fin 0.1 + r4 * Fin 0.3;
         td_floodRisk := Fin 0.4 + r5 * Fin 0.4 |}.

Definition polarExample : Rand TrainingData :=
  r1 <- random ;; r2 <- random ;; r3 <- random ;; r4 <- random ;;
  r5 <- random ;; r6 <- random ;;
  ret {| td_features := [ Fin 20 + r1 * Fin 20; Fin (-10) + r2 * Fin 20;
                          Fin 10 + r3 * Fin 20; Fin 0;
                          Fin 5 + r4 * Fin 10 ];
         td_droughtRisk := Fin 0.1 + r5 * Fin 0.2;
         td_floodRisk := Fin 0.2 + r6 * Fin 0.3 |}.

Definition riverBasinExample : Rand TrainingData :=
  r1 <- random ;; r2 <- random ;; r3 <- random ;;
  r4 <- random ;; r5 <- random ;;
  ret {| td_features := [ Fin 60 + r1 * Fin 30; Fin 20 + r2 * Fin 15;
                          Fin 30 + r3 * Fin 40; Fin 0; Fin 0 ];
         td_droughtRisk := Fin 0.1 + r4 * Fin 0.3;
         td_floodRisk := Fin 0.4 + r5 * Fin 0.4 |}.

Definition generateTrainingData : Rand (list TrainingData) :=
  desert <- repeatM 100 desertExample ;;
  coastal <- repeatM 100 coastalExample ;;
  tropical <- repeatM 100 tropicalExample ;;
  polar <- repeatM 100 polarExample ;;
  riverBasin <- repeatM 100 riverBasinExample ;;
  ret (desert ++ coastal ++ tropical ++ polar ++ riverBasin).

(** [data.reduce((sum, d) => sum + f(d), 0) / data.length]. *)
Definition average (f : TrainingData -> num) (data : list TrainingData)
  : num :=
  fold_left (fun sum d => sum + f d) data (Fin 0) / Array_length data.

Definition averageLeaf (data : list TrainingData) : Tree :=
  Leaf (average td_droughtRisk data) (average td_floodRisk data).

(** An array index that is a number: [Math.floor] of a draw times 5, one
    of 0 .. 4. *)
Definition index_of (x : num) : nat :=
  match x with
  | Fin q => Z.to_nat (Qfloor q)
  | _ => O
  end.

(** [createTree]; the recursion is on sub-arrays that are strictly
    smaller, which [fuel] bounds: [None] is fuel that ran out. *)
Fixpoint createTree (fuel : nat) (data : list TrainingData)
  : Rand (option Tree) :=
  if Array_length data <? Fin 10 then ret (Some (averageLeaf data))
  else
    r1 <- random ;;
    let featureIndex := index_of (Math_floor (r1 * Fin 5)) in
    let featureValues :=
      map (fun d => at_index (td_features d) featureIndex) data in
    let min := Math_min_list featureValues in
    let max := Math_max_list featureValues in
    r2 <- random ;;
    let threshold := min + r2 * (max - min) in
    let leftData :=
      filter (fun d => at_index (td_features d) featureIndex <=? threshold)
             data in
    let rightData :=
      filter (fun d => at_index (td_features d) featureIndex >? threshold)
             data in
    if Nat.eqb (List.length leftData) 0
       || Nat.eqb (List.length rightData) 0
    then ret (Some (averageLeaf data))
    else
      match fuel with
      | O => ret None
      | S fuel' =>
          leftTree <- createTree fuel' leftData ;;
          rightTree <- createTree fuel' rightData ;;
          ret (match leftTree, rightTree with
               | Some l, Some r => Some (Node featureIndex threshold l r)
               | _, _ => None
               end)
      end.

(** [for (let i = 0; i < 50; i++) this.trees.push(this.createTree(data))]. *)
Fixpoint growTrees (count : nat) (data : list TrainingData)
  : Rand (option (list Tree)) :=
  match count with
  | O => ret (Some [])
  | S count' =>
      tree <- createTree (List.length data) data ;;
      rest <- growTrees count' data ;;
      ret (match tree, rest with
           | Some t, Some ts => Some (t :: ts)
           | _, _ => None
           end)
  end.

Definition train (data : list TrainingData)
  : Rand (option RandomForestModel) :=
  grown <- growTrees 50 data ;;
  ret (match grown with
       | Some ts => Some {| trees := ts |}
       | None => None
       end).

(** The first [predict] of a forest: it trains on generated data. *)
Definition trainedForest : Rand (option RandomForestModel) :=
  data <- generateTrainingData ;; train data.

End Training.

Arguments ret {A} a.
Arguments bind {A B} m f.
Arguments repeatM {A} count m.

(* ================================================================== *)
(** ** Training data of the enhanced models
       ([EnhancedTrainingDataGenerator]) *)
(* ================================================================== *)

Record RiskPattern : Type := mkRiskPattern {
  base : Q;
  variation : Q
}.

Record FeatureRange : Type := mkFeatureRange {
  range_min : Q;
  range_max : Q
}.

Record RegionPattern : Type := mkRegionPattern {
  rp_droughtRisk : RiskPattern;
  rp_floodRisk : RiskPattern;
  rp_soilMoisture : FeatureRange;
  rp_temperature : FeatureRange;
  rp_fireIndex : FeatureRange;
  rp_seaLevel : FeatureRange;
  rp_glacierMelting : FeatureRange
}.

(** [Object.entries(disasterPatterns)], in the order of the literal. *)
Definition disasterPatterns : list (string * RegionPattern) :=
  [ ("desert"%string,
     {| rp_droughtRisk := {| base := 0.75; variation := 0.2 |};
        rp_floodRisk := {| base := 0.05; variation := 0.1 |};
        rp_soilMoisture := {| range_min := 5; range_max := 20 |};
        rp_temperature := {| range_min := 25; range_max := 45 |};
        rp_fireIndex := {| range_min := 60; range_max := 95 |};
        rp_seaLevel := {| range_min := 0; range_max := 0 |};
        rp_glacierMelting := {| range_min := 0; range_max := 0 |} |});
    ("coastal"%string,
     {| rp_droughtRisk := {| base := 0.3; variation := 0.3 |};
        rp_floodRisk := {| base := 0.6; variation := 0.3 |};
        rp_soilMoisture := {| range_min := 40; range_max := 80 |};
        rp_temperature := {| range_min := 15; range_max := 35 |};
        rp_fireIndex := {| range_min := 20; range_max := 70 |};
        rp_seaLevel := {| range_min := 0.05; range_max := 0.3 |};
        rp_glacierMelting := {| range_min := 0; range_max := 0 |} |});
    ("tropical"%string,
     {| rp_droughtRisk := {| base := 0.2; variation := 0.2 |};
        rp_floodRisk := {| base := 0.7; variation := 0.2 |};
        rp_soilMoisture := {| range_min := 60; range_max := 95 |};
        rp_temperature := {| range_min := 20; range_max := 35 |};
        rp_fireIndex := {| range_min := 30; range_max := 60 |};
        rp_seaLevel := {| range_min := 0; range_max := 0.1 |};
        rp_glacierMelting := {| range_min := 0; range_max := 0 |} |});
    ("polar"%string,
     {| rp_droughtRisk := {| base := 0.1; variation := 0.2 |};
        rp_floodRisk := {| base := 0.4; variation := 0.3 |};
        rp_soilMoisture := {| range_min := 15; range_max := 50 |};
        rp_temperature := {| range_min := -20; range_max := 15 |};
        rp_fireIndex := {| range_min := 5; range_max := 40 |};
        rp_seaLevel := {| range_min := 0; range_max := 0 |};
        rp_glacierMelting := {| range_min := 3; range_max := 15 |} |});
    ("riverBasin"%string,
     {| rp_droughtRisk := {| base := 0.15; variation := 0.25 |};
        rp_floodRisk := {| base := 0.65; variation := 0.25 |};
        rp_soilMoisture := {| range_min := 50; range_max := 90 |};
        rp_temperature := {| range_min := 15; range_max := 35 |};
        rp_fireIndex := {| range_min := 20; range_max := 60 |};
        rp_seaLevel := {| range_min := 0; range_max := 0.05 |};
        rp_glacierMelting := {| range_min := 0; range_max := 0 |} |}) ].

Record EnhancedTrainingData : Type := mkEnhancedTrainingData {
  etd_features : list num;
  etd_droughtRisk : num;
  etd_floodRisk : num;
  etd_region : string;
  etd_season : string;
  etd_historicalEvents : num
}.

Inductive RiskType : Type := drought | flood.

Definition calculateRiskAdjustment (features : list num)
  (riskType : RiskType) : num :=
  match riskType with
  | drought =>
      (at_index features 1 * Fin 0.3 + at_index features 2 * Fin 0.2)
      * Fin 0.1
  | flood =>
      (at_index features 0 * Fin 0.3 + at_index features 3 * Fin 0.4)
      * Fin 0.1
  end.

Section EnhancedTraining.

Variable Math_sqrt : num -> num.
Variable Math_random : nat -> Q.

(** [Math.sin(i * Math.PI / 6)] at the month [i] of a series. *)
Variable monthly_sine : nat -> Q.

Local Notation "x <- m ;; k" := (bind m (fun x => k))
  (at level 61, m at next level, right associativity).

Local Abbreviation draw := (random Math_random).

Definition randomInRange (min max : num) : Rand num :=
  r <- draw ;; ret (min + r * (max - min)).

(** The loop of [generateTimeSeries] from the month [i] on, [count]
    values to go. *)
Fixpoint timeSeriesFrom (i count : nat) (currentValue : num)
  : Rand (list num) :=
  match count with
  | O => ret []
  | S count' =>
      r1 <- draw ;;
      let trend := (r1 - Fin 0.5) * Fin 0.1 in
      let seasonality := Fin (monthly_sine i) * Fin 0.2 in
      r2 <- draw ;;
      let noise := (r2 - Fin 0.5) * Fin 0.3 in
      let currentValue :=
        Math_max (Fin 0) (currentValue + trend + seasonality + noise) in
      rest <- timeSeriesFrom (S i) count' currentValue ;;
      ret (currentValue :: rest)
  end.

Definition generateTimeSeries (baseValue : num) (length : nat)
  : Rand (list num) :=
  timeSeriesFrom 0 length baseValue.

Definition getRandomSeason : Rand string :=
  r <- draw ;;
  ret (nth (index_of (Math_floor (r * Fin 4)))
           ["spring"; "summer"; "autumn"; "winter"]%string
           ""%string).

Definition featureRange (range : FeatureRange) : Rand num :=
  randomInRange (Fin (range_min range)) (Fin (range_max range)).

(** The body of the inner loop: one training example of a region. *)
Definition realisticExample (region : string) (pattern : RegionPattern)
  : Rand EnhancedTrainingData :=
  b0 <- featureRange (rp_soilMoisture pattern) ;;
  b1 <- featureRange (rp_temperature pattern) ;;
  b2 <- featureRange (rp_fireIndex pattern) ;;
  b3 <- featureRange (rp_seaLevel pattern) ;;
  b4 <- featureRange (rp_glacierMelting pattern) ;;
  let timeSeriesLength := 24%nat in
  soilMoistureTS <- generateTimeSeries b0 timeSeriesLength ;;
  temperatureTS <- generateTimeSeries b1 timeSeriesLength ;;
  fireIndexTS <- generateTimeSeries b2 timeSeriesLength ;;
  seaLevelTS <- generateTimeSeries b3 timeSeriesLength ;;
  glacierMeltingTS <- generateTimeSeries b4 timeSeriesLength ;;
  let enhancedFeatures :=
    createTemporalFeatures Math_sqrt soilMoistureTS temperatureTS
                           fireIndexTS seaLevelTS glacierMeltingTS in
  r1 <- draw ;;
  let droughtRisk :=
    Math_max (Fin 0)
      (Math_min (Fin 1)
         (Fin (base (rp_droughtRisk pattern))
          + (r1 - Fin 0.5) * Fin (variation (rp_droughtRisk pattern))
          + calculateRiskAdjustment enhancedFeatures drought)) in
  r2 <- draw ;;
  let floodRisk :=
    Math_max (Fin 0)
      (Math_min (Fin 1)
         (Fin (base (rp_floodRisk pattern))
          + (r2 - Fin 0.5) * Fin (variation (rp_floodRisk pattern))
          + calculateRiskAdjustment enhancedFeatures flood)) in
  season <- getRandomSeason ;;
  r3 <- draw ;;
  ret {| etd_features := enhancedFeatures;
         etd_droughtRisk := droughtRisk;
         etd_floodRisk := floodRisk;
         etd_region := region;
         etd_season := season;
         etd_historicalEvents := Math_floor (r3 * Fin 5) |}.

(** [Object.entries(disasterPatterns).forEach(...)]. *)
Fixpoint forEachRegion (patterns : list (string * RegionPattern))
  : Rand (list EnhancedTrainingData) :=
  match patterns with
  | [] => ret []
  | (region, pattern) :: rest =>
      examples <- repeatM 200 (realisticExample region pattern) ;;
      others <- forEachRegion rest ;;
      ret (examples ++ others)
  end.

Definition generateRealisticTrainingData
  : Rand (list EnhancedTrainingData) :=
  forEachRegion disasterPatterns.

End EnhancedTraining.

(* ================================================================== *)
(** ** Predicates used to state ranges *)
(* ================================================================== *)

(** A finite number of the interval [lo, hi]. *)
Definition within (lo hi : Q) (x : num) : Prop :=
  exists q, x = Fin q /\ (lo <= q <= hi)%Q.

(** A finite number of [0,1]. *)
Definition unit_interval (x : num) : Prop := within 0 1 x.

Definition finite_values (samples : list Sample) : Prop :=
  Forall (fun s => Num.isFinite (value s) = true) samples.

(** Every range of the table has finite bounds, the lower one first. *)
Definition proper_range (r : string * num * num) : bool :=
  match r with
  | (_, Fin lo, Fin hi) => Qltb lo hi
  | _ => false
  end.

(** The six feature groups have the sizes of the aggregation step. *)
Definition group_shape (features : EnhancedProcessedFeatures) : Prop :=
  List.length (basicFeatures features) = 5%nat
  /\ List.length (temporalFeatures features) = 5%nat
  /\ List.length (volatilityFeatures features) = 5%nat
  /\ List.length (interactionFeatures features) = 4%nat
  /\ List.length (seasonalFeatures features) = 3%nat
  /\ List.length (extremeFeatures features) = 3%nat.

(** No feature of the record is [NaN]. *)
Definition no_NaN (features : EnhancedProcessedFeatures) : Prop :=
  Forall (fun x => Num.isNaN x = false)
         (basicFeatures features ++ temporalFeatures features
            ++ volatilityFeatures features ++ interactionFeatures features
            ++ seasonalFeatures features ++ extremeFeatures features).

(** The names of the range table, in order. *)
Definition range_names : list string :=
  List.concat (map (map (fun r => fst (fst r))) normalizationRanges).

(** The five level slots of a basic feature record hold finite numbers. *)
Definition finite_levels (f : ProcessedFeatures) : Prop :=
  exists a b c d e,
    pf_soilMoisture f = Fin a /\ pf_temperature f = Fin b
    /\ pf_fireIndex f = Fin c /\ pf_seaLevel f = Fin d
    /\ pf_glacierMelting f = Fin e.

(** The leaves of a decision tree, left to right. *)
Fixpoint leaves (tree : Tree) : list (num * num) :=
  match tree with
  | Leaf droughtRisk floodRisk => [(droughtRisk, floodRisk)]
  | Node _ _ leftTree rightTree => leaves leftTree ++ leaves rightTree
  end.

(** One entry of [dataPoints] as the result shows it: the value [v] when
    the signal is selected and its raw array is non-empty. *)
Definition data_entry (selected : bool) (samples : list Sample) (v : num)
  : option num :=
  if selected && negb (Nat.eqb (List.length samples) 0) then Some v
  else None.

(** The results that a sequence of actions leaves, given the results
    before it: each added result in front, none after a clear. *)
Definition results_after
  (actions : list Action) (before : list PredictionResult)
  : list PredictionResult :=
  fold_left (fun results action =>
               match action with
               | ADD_PREDICTION_RESULT payload => payload :: results
               | CLEAR_PREDICTION_RESULTS => []
               | _ => results
               end)
            actions before.

(** The payloads of the [ADD_PREDICTION_RESULT] actions, in order. *)
Definition added (actions : list Action) : list PredictionResult :=
  flat_map (fun action =>
              match action with
              | ADD_PREDICTION_RESULT payload => [payload]
              | _ => []
              end)
           actions.

Definition clears (action : Action) : bool :=
  match action with CLEAR_PREDICTION_RESULTS => true | _ => false end.

(** A result and a dashboard state to run the state functions on: one
    toggle is on. *)
Definition example_result : PredictionResult :=
  {| pr_latitude := Fin 13.7563; pr_longitude := Fin 100.5018;
     pr_droughtRisk := {| level := high; probability := Fin 0.7;
                          confidence := Fin 0.624 |};
     pr_floodRisk := {| level := low; probability := Fin 0.2;
                        confidence := Fin 0.624 |};
     pr_model := linear;
     pr_features := example_features;
     pr_dataPoints := {| dp_soilMoisture := Some (Fin 15);
                         dp_surfaceTemperature := Some (Fin 32);
                         dp_fireIndex := None; dp_seaLevel := None;
                         dp_glacierMelting := None |} |}.

Definition example_state : DashboardState :=
  {| selectedModel := linear;
     selectedFeatures :=
       {| df_soilMoisture := true; df_glacierMelting := false;
          df_surfaceTemperature := false; df_fireIndex := false;
          df_seaLevel := false |};
     selectedLocation := {| loc_latitude := Fin 13.7563;
                            loc_longitude := Fin 100.5018;
                            loc_name := "Bangkok, Thailand" |};
     predictionResults := [example_result];
     isLoading := false;
     error := None |}.

(** Every sample carries the requested coordinates and a value within
    [lo, hi]. *)
Definition carries (lat lon : num) (lo hi : Q) (samples : list Sample)
  : Prop :=
  Forall (fun s => latitude s = Some lat /\ longitude s = Some lon
                   /\ within lo hi (value s))
         samples.

(** The draws of [Math.random()] lie in [0, 1). *)
Definition unit_draws (draw : nat -> Q) : Prop :=
  forall i, (0 <= draw i < 1)%Q.

(** A source that answers two items, the second without a date, and
    draws 1/2 every time; and a world of five such sources. *)
Definition example_source : Source :=
  {| src_response := Some [Some example_timestamp; None];
     src_clock := fun _ => example_timestamp;
     src_random := fun _ => 0.5%Q |}.

Definition example_world : World :=
  {| soilSource := example_source; temperatureSource := example_source;
     fireSource := example_source; seaSource := example_source;
     glacierSource := example_source |}.

(** A training example with five finite features, a drought label within
    [dlo, dhi] and a flood label within [flo, fhi]. *)
Definition labelled (dlo dhi flo fhi : Q) (d : TrainingData) : Prop :=
  List.length (td_features d) = 5%nat
  /\ Forall (fun x => Num.isFinite x = true) (td_features d)
  /\ within dlo dhi (td_droughtRisk d)
  /\ within flo fhi (td_floodRisk d).

(** Draws that go through the tenths 0, 0.1, ..., 0.9 in turn. *)
Definition example_draws (i : nat) : Q :=
  (inject_Z (Z.of_nat (Nat.modulo i 10)) / 10)%Q.

(** A series of finite values that are not negative, starts at most 0.4
    below [c] and falls by at most 0.4 a step. *)
Fixpoint falls_slowly (c : Q) (xs : list num) : Prop :=
  match xs with
  | [] => True
  | x :: rest =>
      exists v, x = Fin v /\ (0 <= v)%Q /\ (c - 0.4 <= v)%Q
                /\ falls_slowly v rest
  end.

(** The ranges of a region pattern are not empty and its variations are
    not negative. *)
Definition well_ranged (pattern : RegionPattern) : Prop :=
  (range_min (rp_soilMoisture pattern)
   <= range_max (rp_soilMoisture pattern))%Q
  /\ (range_min (rp_temperature pattern)
      <= range_max (rp_temperature pattern))%Q
  /\ (range_min (rp_fireIndex pattern)
      <= range_max (rp_fireIndex pattern))%Q
  /\ (range_min (rp_seaLevel pattern)
      <= range_max (rp_seaLevel pattern))%Q
  /\ (range_min (rp_glacierMelting pattern)
      <= range_max (rp_glacierMelting pattern))%Q
  /\ (0 <= variation (rp_droughtRisk pattern))%Q
  /\ (0 <= variation (rp_floodRisk pattern))%Q.

(** The least drought and flood labels that a pattern can give before
    clamping: the base less half the variation, plus the adjustment at
    the least means of the series (5 below the least start value, and 0
    for the sea level). *)
Definition drought_floor (pattern : RegionPattern) : Q :=
  (base (rp_droughtRisk pattern)
   - variation (rp_droughtRisk pattern) * 0.5
   + ((range_min (rp_temperature pattern) - 5) * 0.3
      + (range_min (rp_fireIndex pattern) - 5) * 0.2) * 0.1)%Q.

Definition flood_floor (pattern : RegionPattern) : Q :=
  (base (rp_floodRisk pattern)
   - variation (rp_floodRisk pattern) * 0.5
   + ((range_min (rp_soilMoisture pattern) - 5) * 0.3) * 0.1)%Q.

(** Monthly sines within -1 .. 1. *)
Definition bounded_sine (sine : nat -> Q) : Prop :=
  forall i, (-1 <= sine i <= 1)%Q.

(** What every example of the enhanced training data satisfies. *)
Definition realistic (d : EnhancedTrainingData) : Prop :=
  List.length (etd_features d) = 25%nat
  /\ unit_interval (etd_droughtRisk d)
  /\ unit_interval (etd_floodRisk d)
  /\ (In (etd_region d) ["desert"; "tropical"]%string ->
      etd_droughtRisk d = Fin 1)
  /\ (In (etd_region d) ["coastal"; "tropical"; "riverBasin"]%string ->
      etd_floodRisk d = Fin 1).

(* ================================================================== *)
(** ** Facts about numbers *)
(* ================================================================== *)

Lemma Qltb_true (a b : Q) : Qltb a b = true <-> (a < b)%Q.
Proof.
  unfold Qltb. rewrite negb_true_iff. split; intro H.
  - apply Qnot_le_lt. intro C. apply Qle_bool_iff in C. congruence.
  - destruct (Qle_bool b a) eqn:E; [|reflexivity].
    apply Qle_bool_iff in E. lra.
Qed.

Lemma Qltb_false (a b : Q) : Qltb a b = false <-> (b <= a)%Q.
Proof.
  unfold Qltb. rewrite negb_false_iff. apply Qle_bool_iff.
Qed.

Lemma Qle_bool_false (a b : Q) : Qle_bool a b = false <-> (b < a)%Q.
Proof.
  split; intro H.
  - apply Qnot_le_lt. intro C. apply Qle_bool_iff in C. congruence.
  - destruct (Qle_bool a b) eqn:E; [|reflexivity].
    apply Qle_bool_iff in E. lra.
Qed.

Lemma Qeq_bool_false (a b : Q) : Qeq_bool a b = false <-> ~ (a == b)%Q.
Proof.
  split; intro H.
  - intro C. apply Qeq_bool_iff in C. congruence.
  - destruct (Qeq_bool a b) eqn:E; [|reflexivity].
    apply Qeq_bool_iff in E. contradiction.
Qed.

(** Turn the boolean comparisons of the context and of the goal into
    propositions. *)
Ltac qprop :=
  repeat match goal with
  | H : Qltb _ _ = true |- _ => apply Qltb_true in H
  | H : Qltb _ _ = false |- _ => apply Qltb_false in H
  | H : Qle_bool _ _ = true |- _ => apply Qle_bool_iff in H
  | H : Qle_bool _ _ = false |- _ => apply Qle_bool_false in H
  | H : Qeq_bool _ _ = true |- _ => apply Qeq_bool_iff in H
  | H : Qeq_bool _ _ = false |- _ => apply Qeq_bool_false in H
  | |- Qltb _ _ = true => apply Qltb_true
  | |- Qltb _ _ = false => apply Qltb_false
  | |- Qle_bool _ _ = true => apply Qle_bool_iff
  | |- Qle_bool _ _ = false => apply Qle_bool_false
  | |- Qeq_bool _ _ = true => apply Qeq_bool_iff
  | |- Qeq_bool _ _ = false => apply Qeq_bool_false
  end.

(** Split on every comparison the goal branches on, innermost first. *)
Ltac no_cmp t :=
  lazymatch t with
  | context [Qltb _ _] => fail
  | context [Qle_bool _ _] => fail
  | context [Qeq_bool _ _] => fail
  | _ => idtac
  end.

Ltac qcases :=
  repeat match goal with
  | |- context [Qltb ?a ?b] =>
      no_cmp a; no_cmp b; destruct (Qltb a b) eqn:?
  | |- context [Qle_bool ?a ?b] =>
      no_cmp a; no_cmp b; destruct (Qle_bool a b) eqn:?
  | |- context [Qeq_bool ?a ?b] =>
      no_cmp a; no_cmp b; destruct (Qeq_bool a b) eqn:?
  end.

(** Replace the inverse of a closed rational by its value, for [lra]. *)
Ltac qinv :=
  unfold Qdiv in *;
  repeat match goal with
  | |- context [Qinv ?b] =>
      let c := eval vm_compute in (Qinv b) in
      progress change (Qinv b) with c
  | H : context [Qinv ?b] |- _ =>
      let c := eval vm_compute in (Qinv b) in
      progress change (Qinv b) with c in H
  end.

Lemma same_refl (x : num) : x =n= x.
Proof. destruct x; simpl; auto. reflexivity. Qed.

Lemma same_sym (x y : num) : x =n= y -> y =n= x.
Proof. destruct x, y; simpl; auto. intro H. symmetry. exact H. Qed.

Lemma same_trans (x y z : num) : x =n= y -> y =n= z -> x =n= z.
Proof.
  destruct x, y, z; simpl; auto; try contradiction.
  intros H1 H2. rewrite H1. exact H2.
Qed.

Lemma same_fin (x : num) (q : Q) :
  x =n= Fin q -> exists a, x = Fin a /\ (a == q)%Q.
Proof. destruct x; simpl; try contradiction. intro H. eauto. Qed.

Lemma add_NaN_r (x : num) : x + NaN = NaN.
Proof. destruct x; reflexivity. Qed.

Lemma mul_NaN_r (x : num) : x * NaN = NaN.
Proof. destruct x; reflexivity. Qed.

Lemma mul_NaN_l (x : num) : NaN * x = NaN.
Proof. reflexivity. Qed.

Lemma div_fin (a b : Q) : ~ (b == 0)%Q -> Fin a / Fin b = Fin (a / b).
Proof.
  intro H. simpl. apply Qeq_bool_false in H. rewrite H. reflexivity.
Qed.

Lemma Math_min_fin (a b : Q) :
  Math_min (Fin a) (Fin b) = Fin (if Qltb b a then b else a).
Proof. unfold Math_min. simpl. destruct (Qltb b a); reflexivity. Qed.

Lemma Math_max_fin (a b : Q) :
  Math_max (Fin a) (Fin b) = Fin (if Qltb a b then b else a).
Proof. unfold Math_max. simpl. destruct (Qltb a b); reflexivity. Qed.

Lemma Q_of_nat_nonneg (n : nat) : (0 <= Q_of_nat n)%Q.
Proof.
  unfold Q_of_nat. change 0%Q with (inject_Z 0). rewrite <- Zle_Qle. lia.
Qed.

Lemma Q_of_nat_pos (n : nat) : (0 < n)%nat -> (0 < Q_of_nat n)%Q.
Proof.
  intro H. unfold Q_of_nat. change 0%Q with (inject_Z 0).
  rewrite <- Zlt_Qlt. lia.
Qed.

Lemma Q_of_nat_S (n : nat) : (Q_of_nat (S n) == Q_of_nat n + 1)%Q.
Proof.
  unfold Q_of_nat. rewrite Nat2Z.inj_succ. unfold Z.succ.
  rewrite inject_Z_plus. reflexivity.
Qed.

Lemma Q_of_nat_le (a b : nat) : (a <= b)%nat -> (Q_of_nat a <= Q_of_nat b)%Q.
Proof. intro H. unfold Q_of_nat. rewrite <- Zle_Qle. lia. Qed.

Lemma Q_of_nat_add (a b : nat) :
  (Q_of_nat (a + b) == Q_of_nat a + Q_of_nat b)%Q.
Proof.
  unfold Q_of_nat. rewrite Nat2Z.inj_add, inject_Z_plus. reflexivity.
Qed.

(* ================================================================== *)
(** ** Risk buckets *)
(* ================================================================== *)

Lemma getRiskLevel_monotone (p q : num) :
  (p <=? q) = true ->
  (level_rank (getRiskLevel p) <= level_rank (getRiskLevel q))%nat.
Proof.
  unfold getRiskLevel.
  destruct p as [a| | |], q as [b| | |]; simpl;
    intro H; try discriminate; try lia;
    qcases; simpl; qprop; try lia; lra.
Qed.

(** Settle one interval of the step function, by cases on the number and
    on the three comparisons. *)
Ltac level_interval p :=
  let H := fresh "H" in
  unfold getRiskLevel, Num.geb;
  destruct p as [?| | |]; simpl; qcases; simpl;
  split; intro H; try discriminate H; try reflexivity;
  try (destruct H as [H | H]; try discriminate H);
  qprop; try lra; auto.

(** C7.  The level is the step function of the probability with steps at
    0.25, 0.5 and 0.75: below 0.25 is [low], from 0.25 up to 0.5 is
    [medium], from 0.5 up to 0.75 is [high], from 0.75 on is [extreme]; it
    never decreases when the probability grows; and the five sample points
    of the specification fall where it says. *)
Theorem getRiskLevel_step_function :
  forall p q : num,
    (getRiskLevel p = low <-> (p <? Fin 0.25) = true)
    /\ (getRiskLevel p = medium
        <-> (p >=? Fin 0.25) && (p <? Fin 0.5) = true)
    /\ (getRiskLevel p = high
        <-> (p >=? Fin 0.5) && (p <? Fin 0.75) = true)
    /\ (getRiskLevel p = extreme
        <-> (p >=? Fin 0.75) = true \/ Num.isNaN p = true)
    /\ ((p <=? q) = true ->
        (level_rank (getRiskLevel p) <= level_rank (getRiskLevel q))%nat)
    /\ getRiskLevel (Fin 0.2499) = low
    /\ getRiskLevel (Fin 0.25) = medium
    /\ getRiskLevel (Fin 0.4999) = medium
    /\ getRiskLevel (Fin 0.5) = high
    /\ getRiskLevel (Fin 0.9) = extreme.
Proof.
  intros p q.
  split; [level_interval p|].
  split; [level_interval p|].
  split; [level_interval p|].
  split; [level_interval p|].
  split; [apply getRiskLevel_monotone|].
  repeat split.
Qed.

(** The thresholds at work on 0.3 and 0.8. *)
Lemma getRiskLevel_step_function_witness :
  getRiskLevel (Fin 0.3) = medium
  /\ (level_rank (getRiskLevel (Fin 0.3))
      <= level_rank (getRiskLevel (Fin 0.8)))%nat.
Proof.
  destruct (getRiskLevel_step_function (Fin 0.3) (Fin 0.8))
    as (_ & Hm & _ & _ & Hmono & _).
  split.
  - apply Hm. reflexivity.
  - apply Hmono. reflexivity.
Defined.

(* ================================================================== *)
(** ** Binary64 rounding *)
(* ================================================================== *)

Section Rounding.

Local Close Scope num_scope.

Lemma pow2_pos (e : Z) : 0 < 2 ^ e.
Proof. apply Qpower_0_lt. reflexivity. Qed.

Lemma pow2_plus (a b : Z) : 2 ^ (a + b) == 2 ^ a * 2 ^ b.
Proof. apply Qpower_plus. discriminate. Qed.

Lemma pow2_succ (a : Z) : 2 ^ (a + 1) == 2 * 2 ^ a.
Proof. rewrite pow2_plus. change (2 ^ 1) with 2. ring. Qed.

Lemma pow2_pred (a : Z) : 2 * 2 ^ (a - 1) == 2 ^ a.
Proof.
  rewrite <- pow2_succ. replace (a - 1 + 1)%Z with a by lia. reflexivity.
Qed.

Lemma pow2_le (a b : Z) : (a <= b)%Z -> 2 ^ a <= 2 ^ b.
Proof. intro H. apply Qpower_le_compat_l; [exact H | discriminate]. Qed.

Lemma pow2_lt (a b : Z) : (a < b)%Z -> 2 ^ a < 2 ^ b.
Proof. intro H. apply Qpower_lt_compat_l; [exact H | reflexivity]. Qed.

Lemma pow2_lt_inv (a b : Z) : 2 ^ a < 2 ^ b -> (a < b)%Z.
Proof.
  intro H. destruct (Z_lt_le_dec a b) as [L|L]; [exact L|].
  apply pow2_le in L. lra.
Qed.

Lemma pow2_inject (a : Z) : (0 <= a)%Z -> inject_Z (2 ^ a) == 2 ^ a.
Proof. intro H. apply (Zpower_Qpower 2 a H). Qed.

(** The binade of a positive rational. *)
Lemma ilog2_spec (x : Q) :
  0 < x ->
  2 ^ Binary64.ilog2 x <= x /\ x < 2 ^ (Binary64.ilog2 x + 1).
Proof.
  intro Hx. destruct x as [n d].
  assert (Hn : (0 < n)%Z).
  { unfold Qlt in Hx. simpl in Hx. lia. }
  unfold Binary64.ilog2. cbn [Qnum Qden].
  set (a := Z.log2 n). set (b := Z.log2 (Z.pos d)).
  destruct (Z.log2_spec n Hn) as (Ha1 & Ha2). fold a in Ha1, Ha2.
  destruct (Z.log2_spec (Z.pos d) (Pos2Z.is_pos d)) as (Hb1 & Hb2).
  fold b in Hb1, Hb2.
  assert (Ha0 : (0 <= a)%Z) by apply Z.log2_nonneg.
  assert (Hb0 : (0 <= b)%Z) by apply Z.log2_nonneg.
  set (N := inject_Z n). set (D := inject_Z (Z.pos d)).
  assert (HxD : (n # d) * D == N).
  { unfold D, N, Qeq, Qmult, inject_Z. simpl. lia. }
  assert (A1 : 2 ^ a <= N).
  { rewrite <- (pow2_inject a Ha0). unfold N. rewrite <- Zle_Qle. exact Ha1. }
  assert (A2 : N < 2 * 2 ^ a).
  { rewrite <- pow2_succ, <- (pow2_inject (a + 1)) by lia.
    unfold N. rewrite <- Zlt_Qlt. replace (a + 1)%Z with (Z.succ a) by lia.
    exact Ha2. }
  assert (B1 : 2 ^ b <= D).
  { rewrite <- (pow2_inject b Hb0). unfold D. rewrite <- Zle_Qle. exact Hb1. }
  assert (B2 : D < 2 * 2 ^ b).
  { rewrite <- pow2_succ, <- (pow2_inject (b + 1)) by lia.
    unfold D. rewrite <- Zlt_Qlt. replace (b + 1)%Z with (Z.succ b) by lia.
    exact Hb2. }
  assert (K : 2 ^ (a - b) * 2 ^ b == 2 ^ a).
  { rewrite <- pow2_plus. replace (a - b + b)%Z with a by lia. reflexivity. }
  pose proof (pow2_pos (a - b)) as Pk. pose proof (pow2_pos b) as Pb.
  pose proof (pow2_pos a) as Pa.
  assert (PD : 0 < D) by lra.
  set (x := n # d) in *. set (k := (a - b)%Z) in *.
  (* x < 2 * 2^k  and  2^k < 2 * x *)
  assert (U : x < 2 * 2 ^ k).
  { apply (Qmult_lt_r _ _ D PD). rewrite HxD.
    assert (2 ^ k * 2 ^ b <= 2 ^ k * D).
    { apply Qmult_le_l; [exact Pk | exact B1]. }
    lra. }
  assert (L : 2 ^ k < 2 * x).
  { apply (Qmult_lt_r _ _ D PD).
    assert (2 ^ k * D < 2 ^ k * (2 * 2 ^ b)).
    { apply Qmult_lt_l; [exact Pk | exact B2]. }
    lra. }
  destruct (Qle_bool (2 ^ k) x) eqn:T.
  - apply Qle_bool_iff in T. split; [exact T|]. rewrite pow2_succ. exact U.
  - assert (T' : x < 2 ^ k).
    { apply Qnot_le_lt. intro C. apply Qle_bool_iff in C. congruence. }
    replace (k - 1 + 1)%Z with k by lia. split; [|exact T'].
    pose proof (pow2_pred k). lra.
Qed.

Lemma ilog2_lt (x : Q) (k : Z) : 0 < x -> x < 2 ^ k -> (Binary64.ilog2 x < k)%Z.
Proof.
  intros Hx H. destruct (ilog2_spec x Hx) as (L & _).
  apply pow2_lt_inv. lra.
Qed.

Lemma ilog2_le (x : Q) (k : Z) : 0 < x -> 2 ^ k <= x -> (k <= Binary64.ilog2 x)%Z.
Proof.
  intros Hx H. destruct (ilog2_spec x Hx) as (_ & U).
  assert (k < Binary64.ilog2 x + 1)%Z by (apply pow2_lt_inv; lra). lia.
Qed.

(** The nearest integer is within one half. *)
Lemma nearest_even_near (y : Q) :
  Qabs (inject_Z (Binary64.nearest_even y) - y) <= 1 # 2.
Proof.
  unfold Binary64.nearest_even.
  pose proof (Qfloor_le y) as L. pose proof (Qlt_floor y) as U.
  rewrite inject_Z_plus in U. change (inject_Z 1) with 1 in U.
  set (f := Qfloor y) in *.
  apply Qabs_Qle_condition.
  destruct (Qcompare (y - inject_Z f) (1 # 2)) eqn:C.
  - apply Qeq_alt in C. destruct (Z.even f).
    + lra.
    + rewrite inject_Z_plus. change (inject_Z 1) with 1. lra.
  - apply Qlt_alt in C. lra.
  - apply Qgt_alt in C. rewrite inject_Z_plus. change (inject_Z 1) with 1.
    lra.
Qed.

Lemma nearest_even_compat (x y : Q) :
  x == y -> Binary64.nearest_even x = Binary64.nearest_even y.
Proof.
  intro H. unfold Binary64.nearest_even.
  rewrite (Qfloor_comp _ _ H).
  assert (E : x - inject_Z (Qfloor y) == y - inject_Z (Qfloor y))
    by (rewrite H; reflexivity).
  rewrite (Qcompare_comp _ _ E (1 # 2) (1 # 2) (Qeq_refl _)). reflexivity.
Qed.

Lemma nearest_even_Z (k : Z) : Binary64.nearest_even (inject_Z k) = k.
Proof.
  unfold Binary64.nearest_even. rewrite Qfloor_Z.
  replace (Qcompare (inject_Z k - inject_Z k) (1 # 2)) with Lt; [reflexivity|].
  symmetry. apply Qlt_alt.
  assert (E : inject_Z k - inject_Z k == 0) by ring.
  rewrite E. reflexivity.
Qed.

Lemma round_compat (x y : Q) : x == y -> Binary64.round x = Binary64.round y.
Proof.
  intro H.
  unfold Binary64.round, Binary64.round_value, Binary64.round_mantissa,
    Binary64.round_exponent.
  rewrite (Qred_complete _ _ H). reflexivity.
Qed.

Lemma round_unfold (x : Q) :
  Binary64.round x
  = if Qle_bool (2 ^ 1024) (Qabs (Qred (Binary64.round_value x)))
    then (if Qle_bool 0 (Qred (Binary64.round_value x)) then PInf else NInf)
    else Fin (Qred (Binary64.round_value x)).
Proof. reflexivity. Qed.

Lemma round_fin (x : Q) :
  Qabs (Binary64.round_value x) < 2 ^ 1024 ->
  Binary64.round x = Fin (Qred (Binary64.round_value x)).
Proof.
  intro H. rewrite round_unfold.
  replace (Qle_bool (2 ^ 1024) (Qabs (Qred (Binary64.round_value x)))) with false;
    [reflexivity|].
  symmetry. apply not_true_is_false. intro C. apply Qle_bool_iff in C.
  rewrite (Qred_correct (Binary64.round_value x)) in C. lra.
Qed.


Lemma round_zero (x : Q) : x == 0 -> Binary64.round x = Fin 0.
Proof.
  intro H. rewrite (round_compat x 0 H). vm_compute. reflexivity.
Qed.

Lemma Qabs_pos_lt (x : Q) : ~ x == 0 -> 0 < Qabs x.
Proof.
  intro H. apply Qabs_case; intro S.
  - destruct (Qlt_le_dec 0 x) as [L|L]; [exact L|]. exfalso. apply H. lra.
  - destruct (Qlt_le_dec x 0) as [L|L]; [lra|]. exfalso. apply H. lra.
Qed.

Lemma round_exponent_le (x : Q) (E : Z) :
  ~ x == 0 -> Qabs x < 2 ^ (E + 1) ->
  (Binary64.round_exponent x <= Z.max (E - 52) (-1074))%Z.
Proof.
  intros Hx H. unfold Binary64.round_exponent, Binary64.exponent.
  assert (L : (Binary64.ilog2 (Qabs (Qred x)) < E + 1)%Z).
  { apply ilog2_lt.
    - apply Qabs_pos_lt. rewrite Qred_correct. exact Hx.
    - rewrite (Qred_correct x). exact H. }
  lia.
Qed.


Lemma round_exponent_ge (x : Q) : (-1074 <= Binary64.round_exponent x)%Z.
Proof. unfold Binary64.round_exponent, Binary64.exponent. lia. Qed.

(** A value with a 53-bit mantissa and an exponent in range is not
    changed by rounding. *)
Lemma round_value_exact (k q : Z) :
  (Z.abs k < 2 ^ 53)%Z -> (-1074 <= q)%Z ->
  Binary64.round_value (inject_Z k * 2 ^ q) == inject_Z k * 2 ^ q.
Proof.
  intros Hk Hq. set (x := inject_Z k * 2 ^ q).
  destruct (Z.eq_dec k 0) as [K0|K0].
  - assert (X0 : x == 0) by (unfold x; rewrite K0; ring).
    unfold Binary64.round_value, Binary64.round_mantissa.
    set (e := Binary64.round_exponent x).
    assert (T : Qred x / 2 ^ e == inject_Z 0).
    { rewrite Qred_correct, X0. unfold Qdiv. ring. }
    rewrite (nearest_even_compat _ _ T), nearest_even_Z.
    change (inject_Z 0) with 0. rewrite Qmult_0_l. symmetry. exact X0.
  - assert (NZ : ~ x == 0).
    { unfold x. intro C. pose proof (pow2_pos q) as P.
      apply Qmult_integral in C. destruct C as [C|C]; [|lra].
      apply K0. apply (inject_Z_injective k 0). exact C. }
    assert (Hx : Qabs x < 2 ^ (52 + q + 1)).
    { unfold x. rewrite Qabs_Qmult.
      rewrite (Qabs_pos (2 ^ q)) by (apply Qlt_le_weak, pow2_pos).
      replace (52 + q + 1)%Z with (53 + q)%Z by lia.
      rewrite pow2_plus. apply Qmult_lt_r; [apply pow2_pos|].
      rewrite <- (pow2_inject 53) by lia.
      assert (A : Qabs (inject_Z k) == inject_Z (Z.abs k)).
      { unfold Qabs, inject_Z. reflexivity. }
      rewrite A. rewrite <- Zlt_Qlt. exact Hk. }
    pose proof (round_exponent_le x (52 + q) NZ Hx) as Le.
    pose proof (round_exponent_ge x) as Ge.
    set (e := Binary64.round_exponent x) in *.
    assert (Le' : (e <= q)%Z) by lia.
    unfold Binary64.round_value, Binary64.round_mantissa. fold e.
    assert (T : Qred x / 2 ^ e == inject_Z (k * 2 ^ (q - e))).
    { rewrite Qred_correct. unfold x. rewrite inject_Z_mult.
      rewrite (pow2_inject (q - e)) by lia.
      assert (S : 2 ^ q == 2 ^ (q - e) * 2 ^ e).
      { rewrite <- pow2_plus. replace (q - e + e)%Z with q by lia.
        reflexivity. }
      rewrite S. pose proof (pow2_pos e). field. lra. }
    rewrite (nearest_even_compat _ _ T), nearest_even_Z.
    rewrite inject_Z_mult, (pow2_inject (q - e)) by lia.
    unfold x.
    assert (S : 2 ^ q == 2 ^ (q - e) * 2 ^ e).
    { rewrite <- pow2_plus. replace (q - e + e)%Z with q by lia.
      reflexivity. }
    rewrite S. ring.
Qed.

Lemma round_exact (k q : Z) :
  (Z.abs k < 2 ^ 53)%Z -> (-1074 <= q)%Z ->
  Qabs (inject_Z k * 2 ^ q) < 2 ^ 1024 ->
  Binary64.round (inject_Z k * 2 ^ q) = Fin (Qred (inject_Z k * 2 ^ q)).
Proof.
  intros Hk Hq H. pose proof (round_value_exact k q Hk Hq) as E.
  rewrite round_fin by (rewrite E; exact H).
  rewrite (Qred_complete _ _ E). reflexivity.
Qed.

Lemma round_overflow (k q : Z) :
  (0 < k < 2 ^ 53)%Z -> (-1074 <= q)%Z ->
  2 ^ 1024 <= inject_Z k * 2 ^ q ->
  Binary64.round (inject_Z k * 2 ^ q) = PInf.
Proof.
  intros Hk Hq H.
  assert (E : Binary64.round_value (inject_Z k * 2 ^ q) == inject_Z k * 2 ^ q)
    by (apply round_value_exact; lia).
  rewrite round_unfold.
  pose proof (pow2_pos 1024) as P.
  replace (Qle_bool (2 ^ 1024)
             (Qabs (Qred (Binary64.round_value (inject_Z k * 2 ^ q))))) with true.
  - replace (Qle_bool 0 (Qred (Binary64.round_value (inject_Z k * 2 ^ q))))
      with true; [reflexivity|].
    symmetry. apply Qle_bool_iff. rewrite Qred_correct, E. lra.
  - symmetry. apply Qle_bool_iff. rewrite Qred_correct, E.
    rewrite Qabs_pos by lra. exact H.
Qed.

(** What rounding does to the sign. *)
Lemma round_mantissa_pos (x : Q) :
  2 ^ (-1074) <= x -> (1 <= Binary64.round_mantissa x)%Z.
Proof.
  intro H. pose proof (pow2_pos (-1074)) as P0.
  assert (Hy : 2 ^ (-1074) <= Qabs (Qred x)).
  { rewrite Qred_correct, Qabs_pos by lra. exact H. }
  assert (Py : 0 < Qabs (Qred x)) by lra.
  pose proof (ilog2_le _ _ Py Hy) as L.
  destruct (ilog2_spec _ Py) as (S & _).
  unfold Binary64.round_mantissa.
  assert (Le : (Binary64.round_exponent x <= Binary64.ilog2 (Qabs (Qred x)))%Z).
  { unfold Binary64.round_exponent, Binary64.exponent. lia. }
  apply pow2_le in Le.
  set (i := Binary64.ilog2 (Qabs (Qred x))) in *.
  set (e := Binary64.round_exponent x) in *. pose proof (pow2_pos e) as Pe.
  set (t := Qred x / 2 ^ e).
  assert (T : 1 <= t).
  { unfold t. apply Qle_shift_div_l; [exact Pe|].
    rewrite Qred_correct, Qabs_pos in S by lra.
    rewrite Qred_correct. lra. }
  pose proof (nearest_even_near t) as N.
  apply Qabs_Qle_condition in N. destruct N as (N1 & _).
  assert (M : inject_Z 0 < inject_Z (Binary64.nearest_even t)).
  { change (inject_Z 0) with 0. lra. }
  rewrite <- Zlt_Qlt in M. lia.
Qed.

Lemma round_mantissa_nonpos (x : Q) :
  x <= 0 -> (Binary64.round_mantissa x <= 0)%Z.
Proof.
  intro H. unfold Binary64.round_mantissa.
  set (e := Binary64.round_exponent x). pose proof (pow2_pos e) as Pe.
  set (t := Qred x / 2 ^ e).
  assert (T : t <= 0).
  { unfold t. apply Qle_shift_div_r; [exact Pe|].
    rewrite Qred_correct. lra. }
  pose proof (nearest_even_near t) as N.
  apply Qabs_Qle_condition in N. destruct N as (_ & N2).
  assert (M : inject_Z (Binary64.nearest_even t) < inject_Z 1).
  { change (inject_Z 1) with 1. lra. }
  rewrite <- Zlt_Qlt in M. lia.
Qed.

Lemma round_positive (x : Q) :
  2 ^ (-1074) <= x -> Num.ltb (Fin 0) (Binary64.round x) = true.
Proof.
  intro H. pose proof (round_mantissa_pos x H) as M.
  assert (V : 0 < Binary64.round_value x).
  { unfold Binary64.round_value. pose proof (pow2_pos (Binary64.round_exponent x)) as Pe.
    apply Qmult_lt_0_compat; [|exact Pe].
    change 0 with (inject_Z 0). rewrite <- Zlt_Qlt. lia. }
  rewrite round_unfold.
  assert (R : 0 < Qred (Binary64.round_value x)) by (rewrite Qred_correct; exact V).
  destruct (Qle_bool (2 ^ 1024) (Qabs (Qred (Binary64.round_value x)))).
  - replace (Qle_bool 0 (Qred (Binary64.round_value x))) with true; [reflexivity|].
    symmetry. apply Qle_bool_iff. lra.
  - cbn [Num.ltb]. unfold Qltb. apply negb_true_iff.
    apply not_true_is_false. intro C. apply Qle_bool_iff in C. lra.
Qed.

Lemma round_nonpositive (x : Q) :
  x <= 0 -> Num.ltb (Fin 0) (Binary64.round x) = false.
Proof.
  intro H. pose proof (round_mantissa_nonpos x H) as M.
  assert (V : Binary64.round_value x <= 0).
  { unfold Binary64.round_value. pose proof (pow2_pos (Binary64.round_exponent x)) as Pe.
    assert (I : inject_Z (Binary64.round_mantissa x) <= 0).
    { change 0 with (inject_Z 0). rewrite <- Zle_Qle. exact M. }
    assert (0 <= - inject_Z (Binary64.round_mantissa x) * 2 ^ Binary64.round_exponent x)
      by (apply Qmult_le_0_compat; lra).
    lra. }
  rewrite round_unfold.
  assert (R : Qred (Binary64.round_value x) <= 0) by (rewrite Qred_correct; exact V).
  destruct (Qle_bool (2 ^ 1024) (Qabs (Qred (Binary64.round_value x)))) eqn:O.
  - destruct (Qle_bool 0 (Qred (Binary64.round_value x))) eqn:S; [|reflexivity].
    exfalso. apply Qle_bool_iff in S, O. pose proof (pow2_pos 1024) as P.
    assert (Z0 : Qred (Binary64.round_value x) == 0) by lra.
    rewrite Z0 in O. change (Qabs 0) with 0 in O. lra.
  - cbn [Num.ltb]. unfold Qltb. apply negb_false_iff.
    apply Qle_bool_iff. exact R.
Qed.

Lemma Fin_eq (a b : Q) : Fin a = Fin b -> a = b.
Proof. intro H. injection H as H. exact H. Qed.

(** A binary64 value is a multiple of [2^-1074]. *)

Lemma double_grid (x : Q) :
  Binary64.is_double x -> exists k : Z, x == inject_Z k * 2 ^ (-1074).
Proof.
  unfold Binary64.is_double. rewrite round_unfold.
  destruct (Qle_bool (2 ^ 1024) (Qabs (Qred (Binary64.round_value x)))).
  - destruct (Qle_bool 0 (Qred (Binary64.round_value x))); discriminate.
  - intro H. apply Fin_eq in H.
    pose proof (round_exponent_ge x) as Ge.
    exists (Binary64.round_mantissa x * 2 ^ (Binary64.round_exponent x + 1074))%Z.
    pose proof (Qred_correct (Binary64.round_value x)) as E. rewrite H in E.
    transitivity (Binary64.round_value x); [exact E|]. clear E H.
    unfold Binary64.round_value.
    rewrite inject_Z_mult, (pow2_inject (Binary64.round_exponent x + 1074)) by lia.
    assert (S : 2 ^ Binary64.round_exponent x
                == 2 ^ (Binary64.round_exponent x + 1074) * 2 ^ (-1074)).
    { rewrite <- pow2_plus.
      replace (Binary64.round_exponent x + 1074 + -1074)%Z with (Binary64.round_exponent x)
        by lia.
      reflexivity. }
    rewrite S at 1. ring.
Qed.

(** The comparator [a - b] of a sort orders binary64 values as they are. *)
Lemma sub_positive (a b : Q) :
  Binary64.is_double a -> Binary64.is_double b ->
  Num.gtb (Binary64.sub (Fin a) (Fin b)) (Fin 0) = Qltb b a.
Proof.
  intros Ha Hb. unfold Binary64.sub, Num.sub, Num.gtb.
  cbn [Num.neg Num.add Binary64.round_num].
  destruct (Qlt_le_dec b a) as [L|L].
  - replace (Qltb b a) with true.
    + destruct (double_grid a Ha) as (ka & Ea).
      destruct (double_grid b Hb) as (kb & Eb).
      apply round_positive. pose proof (pow2_pos (-1074)) as P.
      assert (D : a + - b == inject_Z (ka - kb) * 2 ^ (-1074)).
      { rewrite Ea, Eb. unfold Z.sub. rewrite inject_Z_plus, inject_Z_opp.
        ring. }
      rewrite D.
      assert (K : (1 <= ka - kb)%Z).
      { assert (0 < inject_Z (ka - kb) * 2 ^ (-1074)) by (rewrite <- D; lra).
        destruct (Z_lt_le_dec 0 (ka - kb)) as [G|G]; [lia|].
        exfalso. rewrite Zle_Qle in G. change (inject_Z 0) with 0 in G.
        assert (0 <= - inject_Z (ka - kb) * 2 ^ (-1074))
          by (apply Qmult_le_0_compat; lra).
        lra. }
      rewrite Zle_Qle in K. change (inject_Z 1) with 1 in K.
      assert (1 * 2 ^ (-1074) <= inject_Z (ka - kb) * 2 ^ (-1074))
        by (apply Qmult_le_compat_r; lra).
      lra.
    + symmetry. unfold Qltb. apply negb_true_iff, not_true_is_false.
      intro C. apply Qle_bool_iff in C. lra.
  - replace (Qltb b a) with false.
    + apply round_nonpositive. lra.
    + symmetry. unfold Qltb. apply negb_false_iff, Qle_bool_iff. exact L.
Qed.

Lemma nearest_even_mono (t1 t2 : Q) :
  t1 <= t2 -> (Binary64.nearest_even t1 <= Binary64.nearest_even t2)%Z.
Proof.
  intro H.
  destruct (Z_le_gt_dec (Binary64.nearest_even t1)
                        (Binary64.nearest_even t2)) as [L|G];
    [exact L|].
  exfalso.
  pose proof (nearest_even_near t1) as N1.
  pose proof (nearest_even_near t2) as N2.
  apply Qabs_Qle_condition in N1, N2.
  assert (G' : inject_Z (Binary64.nearest_even t2) + 1
               <= inject_Z (Binary64.nearest_even t1)).
  { change 1 with (inject_Z 1). rewrite <- inject_Z_plus, <- Zle_Qle. lia. }
  assert (E : t1 == t2) by lra.
  rewrite (nearest_even_compat _ _ E) in G. lia.
Qed.

Lemma round_value_eq (x : Q) :
  Binary64.round_value x
  = inject_Z (Binary64.nearest_even (x / 2 ^ Binary64.round_exponent x))
    * 2 ^ Binary64.round_exponent x.
Proof.
  unfold Binary64.round_value, Binary64.round_mantissa.
  set (e := Binary64.round_exponent x).
  assert (E : Qred x / 2 ^ e == x / 2 ^ e)
    by (rewrite Qred_correct; reflexivity).
  rewrite (nearest_even_compat _ _ E). reflexivity.
Qed.

Lemma exponent_pos (x : Q) :
  0 < x ->
  exists i, 2 ^ i <= x /\ x < 2 ^ (i + 1)
            /\ Binary64.round_exponent x = Z.max (i - 52) (-1074).
Proof.
  intro H. exists (Binary64.ilog2 (Qabs (Qred x))).
  assert (A : Qabs (Qred x) == x)
    by (rewrite Qred_correct; apply Qabs_pos; lra).
  assert (P : 0 < Qabs (Qred x)) by lra.
  destruct (ilog2_spec _ P) as (L & U).
  set (i := Binary64.ilog2 (Qabs (Qred x))) in *.
  split; [lra|]. split; [lra|]. reflexivity.
Qed.

Lemma exponent_neg (x : Q) :
  x < 0 ->
  exists i, 2 ^ i <= - x /\ - x < 2 ^ (i + 1)
            /\ Binary64.round_exponent x = Z.max (i - 52) (-1074).
Proof.
  intro H. exists (Binary64.ilog2 (Qabs (Qred x))).
  assert (A : Qabs (Qred x) == - x).
  { rewrite Qred_correct. rewrite <- Qabs_opp. apply Qabs_pos. lra. }
  assert (P : 0 < Qabs (Qred x)) by lra.
  destruct (ilog2_spec _ P) as (L & U).
  set (i := Binary64.ilog2 (Qabs (Qred x))) in *.
  split; [lra|]. split; [lra|]. reflexivity.
Qed.

Lemma pow2_split (a b : Z) : 2 ^ a == 2 ^ (a - b) * 2 ^ b.
Proof.
  rewrite <- pow2_plus. replace (a - b + b)%Z with a by lia. reflexivity.
Qed.

Lemma div_pow2_le (x y : Q) (e : Z) : x <= y -> x / 2 ^ e <= y / 2 ^ e.
Proof.
  intro H. pose proof (pow2_pos e) as P.
  apply Qle_shift_div_l; [exact P|].
  assert (E : x / 2 ^ e * 2 ^ e == x) by (field; lra).
  rewrite E. exact H.
Qed.

Lemma mul_pow2_le (a b : Z) (e : Z) :
  (a <= b)%Z -> inject_Z a * 2 ^ e <= inject_Z b * 2 ^ e.
Proof.
  intro H. apply Qmult_le_compat_r.
  - rewrite <- Zle_Qle. exact H.
  - apply Qlt_le_weak, pow2_pos.
Qed.

(** Quotients by the last place, at a power of two. *)
Lemma pow2_quotient (a e : Z) :
  (e <= a)%Z -> 2 ^ a / 2 ^ e == inject_Z (2 ^ (a - e)).
Proof.
  intro H. rewrite (pow2_inject (a - e)) by lia.
  rewrite (pow2_split a e). pose proof (pow2_pos e). field. lra.
Qed.

Lemma round_value_mono_pos (x1 x2 : Q) :
  0 < x1 -> x1 <= x2 ->
  Binary64.round_value x1 <= Binary64.round_value x2.
Proof.
  intros H1 H12. assert (H2 : 0 < x2) by lra.
  destruct (exponent_pos x1 H1) as (i1 & L1 & U1 & E1).
  destruct (exponent_pos x2 H2) as (i2 & L2 & U2 & E2).
  rewrite !round_value_eq.
  set (e1 := Binary64.round_exponent x1) in *.
  set (e2 := Binary64.round_exponent x2) in *.
  assert (I : (i1 < i2 + 1)%Z) by (apply pow2_lt_inv; lra).
  destruct (Z.eq_dec e1 e2) as [Ee|Ne].
  - rewrite Ee. apply mul_pow2_le, nearest_even_mono, div_pow2_le, H12.
  - assert (I' : (i1 + 1 <= i2)%Z) by lia.
    assert (Ee2 : e2 = (i2 - 52)%Z) by lia.
    assert (B1 : x1 <= 2 ^ i2).
    { apply pow2_le in I'. lra. }
    apply (Qle_trans _ (2 ^ i2)).
    + assert (M : (Binary64.nearest_even (x1 / 2 ^ e1) <= 2 ^ (i2 - e1))%Z).
      { rewrite <- (nearest_even_Z (2 ^ (i2 - e1))).
        apply nearest_even_mono.
        rewrite <- (pow2_quotient i2 e1) by lia.
        apply div_pow2_le, B1. }
      apply (mul_pow2_le _ _ e1) in M.
      rewrite (pow2_inject (i2 - e1)) in M by lia.
      rewrite <- (pow2_split i2 e1) in M. exact M.
    + assert (M : (2 ^ (i2 - e2) <= Binary64.nearest_even (x2 / 2 ^ e2))%Z).
      { rewrite <- (nearest_even_Z (2 ^ (i2 - e2))).
        apply nearest_even_mono.
        rewrite <- (pow2_quotient i2 e2) by lia.
        apply div_pow2_le, L2. }
      apply (mul_pow2_le _ _ e2) in M.
      rewrite (pow2_inject (i2 - e2)) in M by lia.
      rewrite <- (pow2_split i2 e2) in M. exact M.
Qed.

Lemma round_value_mono_neg (x1 x2 : Q) :
  x2 < 0 -> x1 <= x2 ->
  Binary64.round_value x1 <= Binary64.round_value x2.
Proof.
  intros H2 H12. assert (H1 : x1 < 0) by lra.
  destruct (exponent_neg x1 H1) as (i1 & L1 & U1 & E1).
  destruct (exponent_neg x2 H2) as (i2 & L2 & U2 & E2).
  rewrite !round_value_eq.
  set (e1 := Binary64.round_exponent x1) in *.
  set (e2 := Binary64.round_exponent x2) in *.
  assert (I : (i2 < i1 + 1)%Z) by (apply pow2_lt_inv; lra).
  destruct (Z.eq_dec e1 e2) as [Ee|Ne].
  - rewrite Ee. apply mul_pow2_le, nearest_even_mono, div_pow2_le, H12.
  - assert (I' : (i2 + 1 <= i1)%Z) by lia.
    assert (Ee1 : e1 = (i1 - 52)%Z) by lia.
    assert (B2 : - 2 ^ i1 <= x2).
    { apply pow2_le in I'. lra. }
    apply (Qle_trans _ (- 2 ^ i1)).
    + assert (M : (Binary64.nearest_even (x1 / 2 ^ e1) <= - 2 ^ (i1 - e1))%Z).
      { rewrite <- (nearest_even_Z (- 2 ^ (i1 - e1))).
        apply nearest_even_mono.
        rewrite inject_Z_opp, <- (pow2_quotient i1 e1) by lia.
        assert (E : - (2 ^ i1 / 2 ^ e1) == (- 2 ^ i1) / 2 ^ e1)
          by (pose proof (pow2_pos e1); field; lra).
        rewrite E. apply div_pow2_le. lra. }
      apply (mul_pow2_le _ _ e1) in M.
      rewrite inject_Z_opp, (pow2_inject (i1 - e1)) in M by lia.
      assert (E : - 2 ^ (i1 - e1) * 2 ^ e1 == - 2 ^ i1)
        by (rewrite (pow2_split i1 e1); ring).
      rewrite E in M. exact M.
    + assert (M : (- 2 ^ (i1 - e2) <= Binary64.nearest_even (x2 / 2 ^ e2))%Z).
      { rewrite <- (nearest_even_Z (- 2 ^ (i1 - e2))).
        apply nearest_even_mono.
        rewrite inject_Z_opp, <- (pow2_quotient i1 e2) by lia.
        assert (E : - (2 ^ i1 / 2 ^ e2) == (- 2 ^ i1) / 2 ^ e2)
          by (pose proof (pow2_pos e2); field; lra).
        rewrite E. apply div_pow2_le, B2. }
      apply (mul_pow2_le _ _ e2) in M.
      rewrite inject_Z_opp, (pow2_inject (i1 - e2)) in M by lia.
      assert (E : - 2 ^ (i1 - e2) * 2 ^ e2 == - 2 ^ i1)
        by (rewrite (pow2_split i1 e2); ring).
      rewrite E in M. exact M.
Qed.

Lemma round_value_nonpos (x : Q) : x <= 0 -> Binary64.round_value x <= 0.
Proof.
  intro H. pose proof (round_mantissa_nonpos x H) as M.
  unfold Binary64.round_value.
  pose proof (mul_pow2_le _ _ (Binary64.round_exponent x) M) as L.
  change (inject_Z 0) with 0 in L. rewrite Qmult_0_l in L. exact L.
Qed.

Lemma round_value_nonneg (x : Q) : 0 <= x -> 0 <= Binary64.round_value x.
Proof.
  intro H. rewrite round_value_eq.
  set (e := Binary64.round_exponent x).
  assert (M : (0 <= Binary64.nearest_even (x / 2 ^ e))%Z).
  { rewrite <- (nearest_even_Z 0) at 1. apply nearest_even_mono.
    change (inject_Z 0) with 0. apply Qle_shift_div_l; [apply pow2_pos|].
    lra. }
  pose proof (mul_pow2_le _ _ e M) as L.
  change (inject_Z 0) with 0 in L. rewrite Qmult_0_l in L. exact L.
Qed.

Lemma round_value_mono (x1 x2 : Q) :
  x1 <= x2 -> Binary64.round_value x1 <= Binary64.round_value x2.
Proof.
  intro H.
  destruct (Qlt_le_dec 0 x1) as [P|N].
  - apply round_value_mono_pos; assumption.
  - destruct (Qlt_le_dec x2 0) as [N2|P2].
    + apply round_value_mono_neg; assumption.
    + pose proof (round_value_nonpos x1 N).
      pose proof (round_value_nonneg x2 P2). lra.
Qed.

(** Rounding keeps the order. *)
Lemma round_mono (x1 x2 : Q) :
  x1 <= x2 -> Num.leb (Binary64.round x1) (Binary64.round x2) = true.
Proof.
  intro H. pose proof (round_value_mono x1 x2 H) as M.
  rewrite !round_unfold.
  rewrite <- (Qred_correct (Binary64.round_value x1)) in M.
  rewrite <- (Qred_correct (Binary64.round_value x2)) in M.
  set (r1 := Qred (Binary64.round_value x1)) in *.
  set (r2 := Qred (Binary64.round_value x2)) in *.
  pose proof (pow2_pos 1024) as P.
  destruct (Qle_bool (2 ^ 1024) (Qabs r1)) eqn:O1;
    destruct (Qle_bool (2 ^ 1024) (Qabs r2)) eqn:O2;
    try (apply Qle_bool_iff in O1); try (apply Qle_bool_iff in O2);
    try (apply not_true_iff_false in O1; rewrite Qle_bool_iff in O1);
    try (apply not_true_iff_false in O2; rewrite Qle_bool_iff in O2).
  - destruct (Qle_bool 0 r1) eqn:S1; destruct (Qle_bool 0 r2) eqn:S2;
      try reflexivity.
    exfalso. apply Qle_bool_iff in S1.
    apply not_true_iff_false in S2. apply S2. apply Qle_bool_iff. lra.
  - destruct (Qle_bool 0 r1) eqn:S1; [|reflexivity].
    exfalso. apply Qle_bool_iff in S1. apply O2.
    rewrite Qabs_pos in O1 by exact S1.
    rewrite Qabs_pos by lra. lra.
  - destruct (Qle_bool 0 r2) eqn:S2; [reflexivity|].
    exfalso. apply not_true_iff_false in S2. rewrite Qle_bool_iff in S2.
    apply O1. assert (N2 : r2 <= 0) by lra.
    assert (A2 : Qabs r2 == - r2)
      by (rewrite <- Qabs_opp; apply Qabs_pos; lra).
    rewrite A2 in O2.
    assert (A1 : Qabs r1 == - r1)
      by (rewrite <- Qabs_opp; apply Qabs_pos; lra).
    rewrite A1. lra.
  - cbn [Num.leb]. apply Qle_bool_iff. exact M.
Qed.




End Rounding.

(* ================================================================== *)
(** ** The basic ensemble *)
(* ================================================================== *)

Lemma clamp01_fin (x : Q) :
  clamp01 (Fin x)
  = Fin (let m := if Qltb x 1 then x else 1%Q in
         if Qltb 0 m then m else 0%Q).
Proof. unfold clamp01. rewrite Math_min_fin, Math_max_fin. reflexivity. Qed.




(* ================================================================== *)
(** ** Geographic adjustment of the enhanced features: the frame *)
(* ================================================================== *)

Lemma Array_set_length (xs : list num) (i : nat) (v : num) :
  (i < List.length xs)%nat ->
  List.length (Array_set xs i v) = List.length xs.
Proof.
  revert i. induction xs as [|x xs IH]; intros [|i] H; simpl in *;
    try lia.
  rewrite IH; [reflexivity | lia].
Qed.

Lemma skipn_prefix (a r : list num) (n : nat) :
  List.length a = n -> skipn n (a ++ r) = r.
Proof.
  intro H. subst n. rewrite skipn_app, skipn_all, Nat.sub_diag. reflexivity.
Qed.

Lemma clamp_at_length (b : list num) (i : nat) (f : num -> num) :
  (i < List.length b)%nat -> List.length (clamp_at b i f) = List.length b.
Proof. apply Array_set_length. Qed.

(** Every block keeps a five-slot array at five slots. *)
Ltac five_slots :=
  repeat first
    [ rewrite clamp_at_length
    | rewrite Array_set_length ];
  lia.

Lemma adjust_desert_length (b : list num) :
  List.length b = 5%nat -> List.length (adjust_desert b) = 5%nat.
Proof. intro H. unfold adjust_desert. five_slots. Qed.

Lemma adjust_polar_length (b : list num) :
  List.length b = 5%nat -> List.length (adjust_polar b) = 5%nat.
Proof. intro H. unfold adjust_polar. five_slots. Qed.

Lemma adjust_coastal_length (b : list num) :
  List.length b = 5%nat -> List.length (adjust_coastal b) = 5%nat.
Proof. intro H. unfold adjust_coastal. five_slots. Qed.

Lemma adjust_tropical_length (b : list num) :
  List.length b = 5%nat -> List.length (adjust_tropical b) = 5%nat.
Proof. intro H. unfold adjust_tropical. five_slots. Qed.

Lemma adjust_mountainous_length (b : list num) :
  List.length b = 5%nat -> List.length (adjust_mountainous b) = 5%nat.
Proof. intro H. unfold adjust_mountainous. five_slots. Qed.

Lemma adjusted_basic_length
  (features : EnhancedProcessedFeatures) (latitude longitude : num) :
  List.length (basicFeatures features) = 5%nat ->
  List.length
    (basicFeatures
       (adjustForGeographicContextEnhanced features latitude longitude))
  = 5%nat.
Proof.
  intro H. unfold adjustForGeographicContextEnhanced. cbn [basicFeatures].
  destruct (isMountainousRegion latitude longitude);
    [apply adjust_mountainous_length|];
    (destruct (isTropicalRegion latitude longitude);
     [apply adjust_tropical_length|]);
    (destruct (isCoastalRegion latitude longitude);
     [apply adjust_coastal_length|]);
    (destruct (isPolarRegion latitude longitude);
     [apply adjust_polar_length|]);
    (destruct (isDesertRegion latitude longitude);
     [apply adjust_desert_length|]);
    exact H.
Qed.

Lemma aggregate_well_formed
  (Math_sqrt : num -> num) (Date_getTime Date_getFullYear : string -> num)
  (now_getFullYear : num)
  (soilMoisture temperature fireIndex seaLevel glacierMelting : list Sample) :
  well_formed
    (aggregateDataWithTimeSeries Math_sqrt Date_getTime Date_getFullYear
       now_getFullYear soilMoisture temperature fireIndex seaLevel
       glacierMelting).
Proof. repeat split. Qed.

(** C10.  On a 25-slot feature record the enhanced geographic adjustment
    rewrites the five level slots only: the output still has 25 slots, the
    slots 5 to 24 (trend, volatility, interaction, seasonal, extreme) are
    those of the input, and so are the five groups they come from. *)
Theorem geographic_adjustment_frame :
  forall (features : EnhancedProcessedFeatures) (latitude longitude : num),
    well_formed features ->
    let adjusted :=
      adjustForGeographicContextEnhanced features latitude longitude in
    List.length (allFeatures adjusted) = 25%nat
    /\ skipn 5 (allFeatures adjusted) = skipn 5 (allFeatures features)
    /\ (forall i, (5 <= i < 25)%nat ->
          nth i (allFeatures adjusted) NaN = nth i (allFeatures features) NaN)
    /\ temporalFeatures adjusted = temporalFeatures features
    /\ volatilityFeatures adjusted = volatilityFeatures features
    /\ interactionFeatures adjusted = interactionFeatures features
    /\ seasonalFeatures adjusted = seasonalFeatures features
    /\ extremeFeatures adjusted = extremeFeatures features.
Proof.
  intros features latitude longitude (Hb & Hlen & Hall) adjusted.
  pose proof (adjusted_basic_length features latitude longitude Hb) as Hb'.
  fold adjusted in Hb'.
  assert (Hall' : allFeatures adjusted
                  = basicFeatures adjusted ++ temporalFeatures features
                      ++ volatilityFeatures features
                      ++ interactionFeatures features
                      ++ seasonalFeatures features
                      ++ extremeFeatures features) by reflexivity.
  assert (Hskip : skipn 5 (allFeatures adjusted)
                  = skipn 5 (allFeatures features)).
  { rewrite Hall', Hall.
    rewrite (skipn_prefix _ _ 5%nat Hb), (skipn_prefix _ _ 5%nat Hb').
    reflexivity. }
  assert (Hlen' : List.length (allFeatures adjusted) = 25%nat).
  { rewrite Hall'. rewrite Hall in Hlen.
    rewrite length_app in *. lia. }
  repeat split; try reflexivity; try assumption.
  intros i Hi.
  replace i with (5 + (i - 5))%nat by lia.
  rewrite <- !nth_skipn. rewrite Hskip. reflexivity.
Qed.

(** A 25-slot record in the Australian desert, which is also coastal. *)
Lemma geographic_adjustment_frame_witness :
  well_formed example_aggregated
  /\ skipn 5
       (allFeatures
          (adjustForGeographicContextEnhanced example_aggregated
             (Fin (-25)) (Fin 130)))
     = skipn 5 (allFeatures example_aggregated).
Proof.
  assert (Hwf : well_formed example_aggregated) by (repeat split).
  split; [exact Hwf|].
  pose proof (geographic_adjustment_frame example_aggregated
                (Fin (-25)) (Fin 130) Hwf) as H.
  cbv zeta in H. destruct H as (_ & Hskip & _). exact Hskip.
Defined.

(* ================================================================== *)
(** ** Cleaning *)
(* ================================================================== *)

Section Cleaning.

Variable Date_getTime : string -> num.
Variable Date_getFullYear : string -> num.
Variable now_getFullYear : num.

Lemma range_guard (x : num) (lo hi : Q) :
  Num.truthy x = true ->
  (x <? Fin lo) || (x >? Fin hi)
  = negb ((x >=? Fin lo) && (x <=? Fin hi)).
Proof.
  unfold Num.gtb, Num.geb.
  destruct x as [a| | |]; simpl;
    intro Ht; try discriminate; try reflexivity;
    unfold Qltb; qcases; reflexivity.
Qed.

(** Away from the zero meridian and the equator, [cleanData] keeps
    exactly the samples the specification calls valid. *)
Lemma cleanData_keep_nonzero (item : Sample) :
  truthy_number (latitude item) = true ->
  truthy_number (longitude item) = true ->
  cleanData_keep Date_getTime item
  = valid_sample_reference Date_getTime item.
Proof.
  unfold cleanData_keep, valid_sample_reference, isValidCoordinates.
  destruct item as [[ts|] [lat|] [lon|] v];
    cbn [timestamp latitude longitude to_number truthy_number
         truthy_string getTime];
    intros Hlat Hlon; try discriminate;
    try (rewrite ?orb_true_r; reflexivity).
  rewrite Hlat, Hlon, (range_guard lat _ _ Hlat),
    (range_guard lon _ _ Hlon).
  destruct (String.eqb ts ""), (lat >=? Fin (-90)), (lat <=? Fin 90),
    (lon >=? Fin (-180)), (lon <=? Fin 180),
    (Num.isNaN (Date_getTime ts)); reflexivity.
Qed.

(** The enhanced cleaning adds the calendar-year test. *)
Lemma cleanAndValidateData_keep_nonzero (item : Sample) :
  truthy_number (latitude item) = true ->
  truthy_number (longitude item) = true ->
  cleanAndValidateData_keep Date_getTime Date_getFullYear now_getFullYear
                            item
  = valid_sample_reference Date_getTime item
    && negb (Math_abs (now_getFullYear
                       - getFullYear Date_getFullYear (timestamp item))
             >? Fin 10).
Proof.
  intros Hlat Hlon.
  rewrite <- (cleanData_keep_nonzero item Hlat Hlon).
  unfold cleanAndValidateData_keep, cleanData_keep.
  repeat match goal with
         | |- context [if ?c then _ else _] => destruct c; simpl
         end; reflexivity.
Qed.

(** C4.  A sample on the equator or on the zero meridian is dropped by
    both cleaning steps, whatever its timestamp and its other coordinate,
    although its coordinates are in range: the guard [!item.latitude]
    takes the number 0 for a missing value.  The example sample, at
    latitude 0 with a valid recent timestamp, is valid by the
    specification and is removed. *)
Theorem cleaning_drops_zero_coordinates :
  forall (ts : option string) (other : option num) (v : num),
    cleanData Date_getTime [mkSample ts (Some (Fin 0)) other v] = []
    /\ cleanData Date_getTime [mkSample ts other (Some (Fin 0)) v] = []
    /\ cleanData_of
         (cleanAndValidateData Date_getTime Date_getFullYear
            now_getFullYear [mkSample ts (Some (Fin 0)) other v]) = []
    /\ cleanData_of
         (cleanAndValidateData Date_getTime Date_getFullYear
            now_getFullYear [mkSample ts other (Some (Fin 0)) v]) = []
    /\ isValidCoordinates (Fin 0) (Fin 100.5) = true
    /\ valid_sample_reference example_getTime (example_sample 0 100.5 30)
       = true
    /\ cleanData example_getTime [example_sample 0 100.5 30] = []
    /\ cleanData_of
         (cleanAndValidateData example_getTime example_getFullYear
            example_now [example_sample 0 100.5 30]) = [].
Proof.
  intros ts other v.
  unfold cleanData, cleanAndValidateData, cleanData_keep,
    cleanAndValidateData_keep; simpl.
  repeat split; try reflexivity;
    destruct (truthy_string ts); simpl; try reflexivity;
    destruct (truthy_number other); reflexivity.
Qed.

End Cleaning.

(* ================================================================== *)
(** ** Sums and means of finite values *)
(* ================================================================== *)

Lemma fold_add_fin (qs : list Q) (acc : Q) :
  fold_left Num.add (map Fin qs) (Fin acc) = Fin (fold_left Qplus qs acc).
Proof.
  revert acc. induction qs as [|q qs IH]; intro acc; [reflexivity|].
  simpl. apply IH.
Qed.

Lemma fold_left_Qplus (qs : list Q) (acc : Q) :
  (fold_left Qplus qs acc == acc + Qsum qs)%Q.
Proof.
  revert acc. induction qs as [|q qs IH]; intro acc; simpl.
  - lra.
  - rewrite IH. lra.
Qed.

Lemma Array_sum_fin (qs : list Q) : Array_sum (map Fin qs) =n= Fin (Qsum qs).
Proof.
  unfold Array_sum. rewrite fold_add_fin. simpl.
  rewrite fold_left_Qplus. lra.
Qed.

Lemma Q_of_nat_nonzero (n : nat) : (0 < n)%nat -> ~ (Q_of_nat n == 0)%Q.
Proof. intros H E. pose proof (Q_of_nat_pos n H). lra. Qed.

(** [sum / length] on a non-empty array of finite values is their mean. *)
Lemma sum_over_length (qs : list Q) :
  qs <> [] ->
  Array_sum (map Fin qs) / Array_length (map Fin qs) =n= Fin (Qmean qs).
Proof.
  intro Hne. unfold Array_sum, Array_length, Num.of_nat.
  rewrite fold_add_fin, length_map.
  fold (Q_of_nat (List.length qs)).
  rewrite div_fin.
  - destruct qs as [|q qs]; [contradiction|].
    unfold Qmean. simpl Num.same.
    rewrite fold_left_Qplus. apply Qdiv_comp; [lra | reflexivity].
  - apply Q_of_nat_nonzero. destruct qs; [contradiction | simpl; lia].
Qed.

Lemma calculateMean_fin (qs : list Q) :
  calculateMean (map Fin qs) =n= Fin (Qmean qs).
Proof.
  unfold calculateMean. destruct qs as [|q qs].
  - simpl. reflexivity.
  - replace (Array_length (map Fin (q :: qs)) >? Fin 0) with true.
    + apply sum_over_length. discriminate.
    + symmetry. unfold Array_length, Num.of_nat, Num.gtb. cbn [Num.ltb].
      qprop. apply (Q_of_nat_pos (List.length (map Fin (q :: qs)))).
      simpl. lia.
Qed.

(* ================================================================== *)
(** ** Quality, completeness *)
(* ================================================================== *)

Lemma Math_max_of_nat (a b : nat) :
  Math_max (Num.of_nat a) (Num.of_nat b) = Num.of_nat (Nat.max a b).
Proof.
  unfold Num.of_nat. rewrite Math_max_fin.
  destruct (Qltb _ _) eqn:E; qprop; rewrite <- ?Zlt_Qlt, <- ?Zle_Qle in E;
    f_equal; f_equal; f_equal; lia.
Qed.

Lemma Math_min_of_nat (a b : nat) :
  Math_min (Num.of_nat a) (Num.of_nat b) = Num.of_nat (Nat.min a b).
Proof.
  unfold Num.of_nat. rewrite Math_min_fin.
  destruct (Qltb _ _) eqn:E; qprop; rewrite <- ?Zlt_Qlt, <- ?Zle_Qle in E;
    f_equal; f_equal; f_equal; lia.
Qed.

Lemma fold_max_of_nat (counts : list nat) (a : nat) :
  fold_left Math_max (map Num.of_nat counts) (Num.of_nat a)
  = Num.of_nat (Nat.max a (list_max counts)).
Proof.
  revert a. induction counts as [|c counts IH]; intro a; simpl.
  - rewrite Nat.max_0_r. reflexivity.
  - rewrite Math_max_of_nat, IH. f_equal. lia.
Qed.

Lemma fold_min_of_nat (counts : list nat) (a : nat) :
  fold_left Math_min (map Num.of_nat counts) (Num.of_nat a)
  = Num.of_nat (fold_left Nat.min counts a).
Proof.
  revert a. induction counts as [|c counts IH]; intro a; simpl.
  - reflexivity.
  - rewrite Math_min_of_nat, IH. reflexivity.
Qed.

Lemma Math_max_list_of_nat (c : nat) (counts : list nat) :
  Math_max_list (map Num.of_nat (c :: counts))
  = Num.of_nat (list_max (c :: counts)).
Proof.
  unfold Math_max_list. simpl fold_left.
  change (Math_max NInf (Num.of_nat c)) with (Num.of_nat c).
  apply fold_max_of_nat.
Qed.

Lemma Math_min_list_of_nat (c : nat) (counts : list nat) :
  Math_min_list (map Num.of_nat (c :: counts))
  = Num.of_nat (list_min (c :: counts)).
Proof.
  unfold Math_min_list. simpl fold_left.
  change (Math_min PInf (Num.of_nat c)) with (Num.of_nat c).
  apply fold_min_of_nat.
Qed.

Lemma Array_sum_of_nat (counts : list nat) :
  exists s, Array_sum (map Num.of_nat counts) = Fin s
            /\ (s == Q_of_nat (list_total counts))%Q.
Proof.
  unfold Array_sum, Num.of_nat.
  rewrite <- (map_map (fun n => inject_Z (Z.of_nat n)) Fin), fold_add_fin.
  eexists. split; [reflexivity|].
  rewrite fold_left_Qplus.
  induction counts as [|c counts IH]; simpl.
  - reflexivity.
  - fold (Q_of_nat c). rewrite Q_of_nat_add. lra.
Qed.

Lemma list_min_le_max (counts : list nat) :
  (list_min counts <= list_max counts)%nat.
Proof.
  destruct counts as [|c counts]; [simpl; lia|].
  unfold list_min. simpl list_max.
  assert (H : forall l a, (fold_left Nat.min l a <= a)%nat).
  { induction l as [|x l IH]; intro a; simpl; [lia|].
    specialize (IH (Nat.min a x)). lia. }
  specialize (H counts c). lia.
Qed.

(** The basic quality score is the blend the specification states. *)
Lemma calculateDataQuality_reference (counts : list nat) :
  calculateDataQuality (map Num.of_nat counts)
  =n= Fin (quality_reference_basic counts).
Proof.
  unfold calculateDataQuality, quality_reference_basic,
    consistency_reference.
  destruct (Array_sum_of_nat counts) as (s & -> & Hs).
  assert (N50 : ~ (50 == 0)%Q) by (intro E; vm_compute in E; discriminate).
  rewrite (div_fin _ _ N50), Math_min_fin.
  destruct counts as [|c counts].
  - simpl in *. unfold Qmin2. qcases; qprop; qinv; lra.
  - rewrite Math_max_list_of_nat, Math_min_list_of_nat.
    set (M := list_max (c :: counts)) in *.
    set (m := list_min (c :: counts)) in *.
    set (T := Q_of_nat (list_total (c :: counts))) in *.
    unfold Num.gtb, Num.of_nat. cbn [Num.ltb].
    fold (Q_of_nat M). fold (Q_of_nat m).
    destruct (Nat.eqb M 0) eqn:EM.
    + apply Nat.eqb_eq in EM. rewrite EM.
      change (Qltb 0 (Q_of_nat 0)) with false. cbn [Num.mul Num.add Num.same].
      unfold Qmin2. qcases; qprop; qinv; lra.
    + apply Nat.eqb_neq in EM.
      assert (HM : (0 < Q_of_nat M)%Q) by (apply Q_of_nat_pos; lia).
      replace (Qltb 0 (Q_of_nat M)) with true by (symmetry; qprop; exact HM).
      rewrite div_fin by lra.
      cbn [Num.mul Num.add Num.same].
      generalize (Q_of_nat m / Q_of_nat M)%Q. intro r.
      unfold Qmin2. qcases; qprop; qinv; lra.
Qed.

(** The basic quality score is a number of [0,1]. *)
Lemma quality_reference_basic_range (counts : list nat) :
  (0 <= quality_reference_basic counts <= 1)%Q.
Proof.
  unfold quality_reference_basic, consistency_reference.
  pose proof (Q_of_nat_nonneg (list_total counts)) as HT.
  assert (Hc : (0 <= (if Nat.eqb (list_max counts) 0 then 0
                      else Q_of_nat (list_min counts)
                           / Q_of_nat (list_max counts)) <= 1)%Q).
  { destruct (Nat.eqb (list_max counts) 0) eqn:E; [lra|].
    apply Nat.eqb_neq in E.
    assert (HM : (0 < Q_of_nat (list_max counts))%Q)
      by (apply Q_of_nat_pos; lia).
    pose proof (Q_of_nat_nonneg (list_min counts)) as Hm.
    pose proof (Q_of_nat_le _ _ (list_min_le_max counts)) as Hle.
    split.
    - apply Qle_shift_div_l; lra.
    - apply Qle_shift_div_r; lra. }
  revert Hc. generalize (if Nat.eqb (list_max counts) 0 then 0%Q
                         else (Q_of_nat (list_min counts)
                               / Q_of_nat (list_max counts))%Q).
  intros c Hc. unfold Qmin2. qcases; qprop; qinv; lra.
Qed.

Lemma completeness_score (c : nat) :
  Math_min (Fin 1) (Num.of_nat c / Fin 10)
  = Fin (Qmin2 1 (Q_of_nat c / 10)).
Proof.
  assert (N10 : ~ (10 == 0)%Q) by (intro E; vm_compute in E; discriminate).
  unfold Num.of_nat. rewrite (div_fin _ _ N10), Math_min_fin.
  unfold Qmin2, Qltb, Q_of_nat. destruct (Qle_bool 1 _); reflexivity.
Qed.

(** The basic completeness score is the mean of the per-signal scores
    min(1, count/10). *)
Lemma calculateDataCompleteness_reference (counts : list nat) :
  counts <> [] ->
  calculateDataCompleteness (map Num.of_nat counts)
  =n= Fin (completeness_reference counts).
Proof.
  intro Hne. unfold calculateDataCompleteness, completeness_reference.
  rewrite map_map.
  rewrite (map_ext _ (fun c => Fin (Qmin2 1 (Q_of_nat c / 10)))
             completeness_score).
  rewrite <- (map_map (fun c => Qmin2 1 (Q_of_nat c / 10)) Fin).
  apply sum_over_length. destruct counts; [contradiction | discriminate].
Qed.

(* ================================================================== *)
(** ** Empty signals and the final confidence *)
(* ================================================================== *)

Section Orchestrator.

Variable Math_sqrt : num -> num.
Variable Date_getTime : string -> num.
Variable Date_getFullYear : string -> num.
Variable now_getFullYear : num.
Variable mlModelsManager : MLModelsManager.
Variable enhancedMLModelsManager : EnhancedMLModelsManager.

Local Abbreviation aggregate_enhanced :=
  (aggregateDataWithTimeSeries Math_sqrt Date_getTime Date_getFullYear
     now_getFullYear).
Local Abbreviation process_enhanced :=
  (processDataForEnhancedML Math_sqrt Date_getTime Date_getFullYear
     now_getFullYear).
Local Abbreviation run :=
  (runMLPrediction Math_sqrt Date_getTime Date_getFullYear now_getFullYear
     mlModelsManager enhancedMLModelsManager).

Lemma Array_sum_NaN (xs ys : list num) : Array_sum (xs ++ NaN :: ys) = NaN.
Proof.
  unfold Array_sum. rewrite fold_left_app. simpl. rewrite add_NaN_r.
  induction ys as [|y ys IH]; [reflexivity | exact IH].
Qed.

(** An empty array scores [0/0]. *)
Lemma cleanAndValidateData_empty :
  cr_quality
    (cleanAndValidateData Date_getTime Date_getFullYear now_getFullYear [])
  = NaN.
Proof. reflexivity. Qed.

(** One empty array is enough to lose the enhanced quality score. *)
Lemma enhanced_quality_NaN
  (soilMoisture temperature fireIndex seaLevel : list Sample) :
  epf_quality
    (aggregate_enhanced soilMoisture temperature fireIndex seaLevel [])
  = NaN.
Proof.
  unfold aggregateDataWithTimeSeries. cbn [epf_quality].
  rewrite cleanAndValidateData_empty.
  change [?a; ?b; ?c; ?d; NaN] with ([a; b; c; d] ++ [NaN]).
  rewrite Array_sum_NaN. reflexivity.
Qed.

Lemma dataPoint_deselected_or_empty
  (selected : bool) (means : list num) (i : nat) :
  dataPoint selected [] means i = Some None.
Proof. unfold dataPoint. rewrite andb_false_r. reflexivity. Qed.

Lemma normalized_means_five (features : EnhancedProcessedFeatures) :
  List.length (basicFeatures features) = 5%nat ->
  exists m0 m1 m2 m3 m4 rest,
    map eds_mean (end_statistics (normalizeFeaturesEnhanced features))
    = m0 :: m1 :: m2 :: m3 :: m4 :: rest.
Proof.
  intro H. unfold normalizeFeaturesEnhanced. cbn [end_statistics].
  destruct (basicFeatures features)
    as [|b0 [|b1 [|b2 [|b3 [|b4 [|b5 rest]]]]]]; try discriminate H.
  cbn. do 6 eexists. reflexivity.
Qed.

Lemma enhanced_means_five
  (soilMoisture temperature fireIndex seaLevel glacierMelting : list Sample)
  (latitude longitude : num) :
  exists m0 m1 m2 m3 m4 rest,
    map eds_mean
        (end_statistics
           (process_enhanced soilMoisture temperature fireIndex seaLevel
                             glacierMelting latitude longitude))
    = m0 :: m1 :: m2 :: m3 :: m4 :: rest.
Proof.
  unfold processDataForEnhancedML.
  apply normalized_means_five, adjusted_basic_length.
  reflexivity.
Qed.

Lemma dataPoint_total
  (selected : bool) (samples : list Sample) (i : nat)
  (m0 m1 m2 m3 m4 : num) (rest : list num) :
  (i < 5)%nat ->
  exists d,
    dataPoint selected samples (m0 :: m1 :: m2 :: m3 :: m4 :: rest) i
    = Some d.
Proof.
  intro Hi. unfold dataPoint.
  destruct (selected && (Array_length samples >? Fin 0)); [|eauto].
  do 5 (destruct i as [|i]; [simpl; eauto|]). lia.
Qed.

Lemma collect_dataPoints_total
  (features : DataFeatures)
  (soilMoisture temperature fireIndex seaLevel glacierMelting : list Sample)
  (m0 m1 m2 m3 m4 : num) (rest : list num) :
  exists dataPoints,
    collect_dataPoints features soilMoisture temperature fireIndex seaLevel
      glacierMelting (m0 :: m1 :: m2 :: m3 :: m4 :: rest)
    = Some dataPoints.
Proof.
  unfold collect_dataPoints.
  destruct (dataPoint_total (df_soilMoisture features) soilMoisture 0
              m0 m1 m2 m3 m4 rest) as (a & ->); [lia|].
  destruct (dataPoint_total (df_surfaceTemperature features) temperature 1
              m0 m1 m2 m3 m4 rest) as (b & ->); [lia|].
  destruct (dataPoint_total (df_fireIndex features) fireIndex 2
              m0 m1 m2 m3 m4 rest) as (c & ->); [lia|].
  destruct (dataPoint_total (df_seaLevel features) seaLevel 3
              m0 m1 m2 m3 m4 rest) as (d & ->); [lia|].
  destruct (dataPoint_total (df_glacierMelting features) glacierMelting 4
              m0 m1 m2 m3 m4 rest) as (e & ->); [lia|].
  eauto.
Qed.

Lemma basic_means_five
  (soilMoisture temperature fireIndex seaLevel glacierMelting : list Sample)
  (latitude longitude : num) :
  exists m0 m1 m2 m3 m4 rest,
    map ds_mean
        (nd_statistics
           (processDataForML Date_getTime soilMoisture temperature fireIndex
              seaLevel glacierMelting latitude longitude))
    = m0 :: m1 :: m2 :: m3 :: m4 :: rest.
Proof. do 6 eexists. reflexivity. Qed.

(** No prediction throws: both branches reach their [return]. *)
Lemma runMLPrediction_returns
  (soilMoisture temperature fireIndex seaLevel glacierMelting : list Sample)
  (model : PredictionModel) (features : DataFeatures)
  (latitude longitude : num) :
  exists result,
    run soilMoisture temperature fireIndex seaLevel glacierMelting model
        features latitude longitude = Some result.
Proof.
  unfold runMLPrediction.
  destruct (enhanced_means_five soilMoisture temperature fireIndex seaLevel
              glacierMelting latitude longitude)
    as (m0 & m1 & m2 & m3 & m4 & rest & He).
  destruct (basic_means_five soilMoisture temperature fireIndex seaLevel
              glacierMelting latitude longitude)
    as (n0 & n1 & n2 & n3 & n4 & rest' & Hb).
  destruct (collect_dataPoints_total features soilMoisture temperature
              fireIndex seaLevel glacierMelting m0 m1 m2 m3 m4 rest)
    as (dpe & Hdpe).
  destruct (collect_dataPoints_total features soilMoisture temperature
              fireIndex seaLevel glacierMelting n0 n1 n2 n3 n4 rest')
    as (dpb & Hdpb).
  destruct model; cbn [EnhancedMLModelsManager_predict];
    rewrite ?He, ?Hb, ?Hdpe, ?Hdpb; eauto.
Qed.

Lemma Some_eq (A : Type) (a b : A) : Some a = Some b -> a = b.
Proof. intro H. congruence. Qed.

Lemma adjust_keeps_quality
  (features : ProcessedFeatures) (latitude longitude : num) :
  pf_quality (adjustForGeographicContext features latitude longitude)
  = pf_quality features.
Proof.
  unfold adjustForGeographicContext.
  destruct (isDesertRegion latitude longitude),
           (isPolarRegion latitude longitude),
           (isCoastalRegion latitude longitude); reflexivity.
Qed.

Lemma basic_quality_of_pipeline
  (soilMoisture temperature fireIndex seaLevel glacierMelting : list Sample)
  (latitude longitude : num) :
  nd_quality
    (processDataForML Date_getTime soilMoisture temperature fireIndex
       seaLevel glacierMelting latitude longitude)
  = pf_quality
      (aggregateData Date_getTime soilMoisture temperature fireIndex
         seaLevel glacierMelting).
Proof.
  unfold processDataForML, normalizeFeatures. cbn [nd_quality].
  apply adjust_keeps_quality.
Qed.

Lemma enhanced_quality_of_pipeline
  (soilMoisture temperature fireIndex seaLevel glacierMelting : list Sample)
  (latitude longitude : num) :
  end_quality
    (process_enhanced soilMoisture temperature fireIndex seaLevel
       glacierMelting latitude longitude)
  = epf_quality
      (aggregate_enhanced soilMoisture temperature fireIndex seaLevel
         glacierMelting).
Proof.
  unfold processDataForEnhancedML, normalizeFeaturesEnhanced,
    adjustForGeographicContextEnhanced.
  cbn [end_quality epf_quality]. reflexivity.
Qed.

Lemma enhanced_richness_of_pipeline
  (soilMoisture temperature fireIndex seaLevel glacierMelting : list Sample)
  (latitude longitude : num) :
  end_dataRichness
    (process_enhanced soilMoisture temperature fireIndex seaLevel
       glacierMelting latitude longitude)
  = epf_dataRichness
      (aggregate_enhanced soilMoisture temperature fireIndex seaLevel
         glacierMelting).
Proof.
  unfold processDataForEnhancedML, normalizeFeaturesEnhanced,
    adjustForGeographicContextEnhanced.
  cbn [end_dataRichness epf_dataRichness]. reflexivity.
Qed.

(** The confidence of the returned result, drought and flood alike: the
    model's confidence times quality times richness on the enhanced branch,
    times quality on the basic one. *)
Lemma runMLPrediction_enhanced_confidence
  (soilMoisture temperature fireIndex seaLevel glacierMelting : list Sample)
  (model : PredictionModel) (features : DataFeatures)
  (latitude longitude : num) (result : PredictionResult) :
  model = neural \/ model = ensemble ->
  run soilMoisture temperature fireIndex seaLevel glacierMelting model
      features latitude longitude = Some result ->
  exists prediction,
    EnhancedMLModelsManager_predict enhancedMLModelsManager model
      (end_features
         (process_enhanced soilMoisture temperature fireIndex seaLevel
            glacierMelting latitude longitude)) = Some prediction
    /\ confidence (pr_droughtRisk result)
       = emp_confidence prediction
         * end_quality
             (process_enhanced soilMoisture temperature fireIndex seaLevel
                glacierMelting latitude longitude)
         * end_dataRichness
             (process_enhanced soilMoisture temperature fireIndex seaLevel
                glacierMelting latitude longitude)
    /\ confidence (pr_floodRisk result)
       = confidence (pr_droughtRisk result).
Proof.
  intros Hmodel. unfold runMLPrediction.
  destruct Hmodel as [-> | ->]; cbv beta iota zeta;
    (destruct (EnhancedMLModelsManager_predict _ _ _) as [prediction|];
     [|discriminate]);
    (destruct (collect_dataPoints _ _ _ _ _ _ _); [|discriminate]);
    intro H; apply Some_eq in H; subst result; exists prediction;
    cbn [pr_droughtRisk pr_floodRisk confidence]; auto.
Qed.

Lemma runMLPrediction_basic_confidence
  (soilMoisture temperature fireIndex seaLevel glacierMelting : list Sample)
  (model : PredictionModel) (features : DataFeatures)
  (latitude longitude : num) (result : PredictionResult) :
  model = linear \/ model = random_forest ->
  run soilMoisture temperature fireIndex seaLevel glacierMelting model
      features latitude longitude = Some result ->
  confidence (pr_droughtRisk result)
  = mp_confidence
      (MLModelsManager_predict Math_sqrt mlModelsManager model
         (nd_features
            (processDataForML Date_getTime soilMoisture temperature fireIndex
               seaLevel glacierMelting latitude longitude)))
    * nd_quality
        (processDataForML Date_getTime soilMoisture temperature fireIndex
           seaLevel glacierMelting latitude longitude)
  /\ confidence (pr_floodRisk result) = confidence (pr_droughtRisk result).
Proof.
  intros Hmodel. unfold runMLPrediction.
  destruct Hmodel as [-> | ->]; cbv beta iota zeta;
    (destruct (collect_dataPoints _ _ _ _ _ _ _); [|discriminate]);
    intro H; apply Some_eq in H; subst result;
    cbn [pr_droughtRisk pr_floodRisk confidence]; auto.
Qed.

(** A factor of [0,1] damps a confidence and leaves it unchanged only when
    it is 1. *)
Lemma confidence_dampening (c q : Q) :
  (0 <= c)%Q -> (0 <= q <= 1)%Q ->
  (Fin c * Fin q <=? Fin c) = true
  /\ ((0 < c)%Q -> (Fin c * Fin q =n= Fin c <-> (q == 1)%Q)).
Proof.
  intros Hc Hq. cbn [Num.mul Num.leb Num.same]. split.
  - qprop. nra.
  - intro Hpos. split; intro H; nra.
Qed.

(** On the basic branch the final confidence is the model's confidence
    times a quality of [0,1], hence at most the model's confidence. *)
Lemma basic_confidence_dampened
  (soilMoisture temperature fireIndex seaLevel glacierMelting : list Sample)
  (model : PredictionModel) (features : DataFeatures)
  (latitude longitude : num) (result : PredictionResult) (c : Q) :
  model = linear \/ model = random_forest ->
  run soilMoisture temperature fireIndex seaLevel glacierMelting model
      features latitude longitude = Some result ->
  mp_confidence
    (MLModelsManager_predict Math_sqrt mlModelsManager model
       (nd_features
          (processDataForML Date_getTime soilMoisture temperature fireIndex
             seaLevel glacierMelting latitude longitude))) = Fin c ->
  (0 <= c)%Q ->
  (confidence (pr_droughtRisk result) <=? Fin c) = true
  /\ (confidence (pr_floodRisk result) <=? Fin c) = true.
Proof.
  intros Hmodel Hrun Hconf Hc.
  destruct (runMLPrediction_basic_confidence _ _ _ _ _ _ _ _ _ _
              Hmodel Hrun) as (Hd & Hf).
  rewrite Hf, Hd, Hconf, basic_quality_of_pipeline.
  pose proof (calculateDataQuality_reference
                (map (fun data => List.length (cleanData Date_getTime data))
                     [soilMoisture; temperature; fireIndex; seaLevel;
                      glacierMelting])) as Hq.
  apply same_fin in Hq. destruct Hq as (a & Ha & Hqa).
  change (pf_quality
            (aggregateData Date_getTime soilMoisture temperature fireIndex
               seaLevel glacierMelting))
    with (calculateDataQuality
            (map Num.of_nat
               (map (fun data => List.length (cleanData Date_getTime data))
                    [soilMoisture; temperature; fireIndex; seaLevel;
                     glacierMelting]))).
  rewrite Ha.
  pose proof (quality_reference_basic_range
                (map (fun data => List.length (cleanData Date_getTime data))
                     [soilMoisture; temperature; fireIndex; seaLevel;
                      glacierMelting])) as Hr.
  assert (Hrange : (0 <= a <= 1)%Q) by lra.
  split; apply (confidence_dampening c a Hc Hrange).
Qed.

(** With one empty array on the enhanced branch the final confidence is
    [NaN]. *)
Lemma enhanced_confidence_NaN
  (soilMoisture temperature fireIndex seaLevel : list Sample)
  (model : PredictionModel) (features : DataFeatures)
  (latitude longitude : num) :
  model = neural \/ model = ensemble ->
  exists result prediction,
    run soilMoisture temperature fireIndex seaLevel [] model features
        latitude longitude = Some result
    /\ EnhancedMLModelsManager_predict enhancedMLModelsManager model
         (end_features
            (process_enhanced soilMoisture temperature fireIndex seaLevel []
               latitude longitude)) = Some prediction
    /\ confidence (pr_droughtRisk result) = NaN
    /\ confidence (pr_floodRisk result) = NaN
    /\ (confidence (pr_droughtRisk result) <=? emp_confidence prediction)
       = false.
Proof.
  intro Hmodel.
  destruct (runMLPrediction_returns soilMoisture temperature fireIndex
              seaLevel [] model features latitude longitude)
    as (result & Hrun).
  destruct (runMLPrediction_enhanced_confidence _ _ _ _ _ _ _ _ _ _
              Hmodel Hrun) as (prediction & Hp & Hd & Hf).
  rewrite enhanced_quality_of_pipeline, enhanced_quality_NaN in Hd.
  rewrite mul_NaN_r in Hd. cbn [Num.mul] in Hd.
  exists result, prediction.
  rewrite Hf, Hd. repeat split; assumption.
Qed.

(** C3.  With five empty arrays no prediction throws, whatever the model;
    the basic preprocessor yields five level features 0 and quality 0; the
    enhanced preprocessor yields five level features 0 too, but its quality
    is [0/0], that is [NaN], not a number at or near 0. *)
Theorem empty_signals_prediction :
  forall (model : PredictionModel) (features : DataFeatures)
         (latitude longitude : num),
    let basic := aggregateData Date_getTime [] [] [] [] [] in
    let enhanced := aggregate_enhanced [] [] [] [] [] in
    (exists result,
        run [] [] [] [] [] model features latitude longitude = Some result)
    /\ [ pf_soilMoisture basic; pf_temperature basic; pf_fireIndex basic;
         pf_seaLevel basic; pf_glacierMelting basic ]
       = [ Fin 0; Fin 0; Fin 0; Fin 0; Fin 0 ]
    /\ pf_quality basic =n= Fin 0
    /\ nd_quality
         (processDataForML Date_getTime [] [] [] [] [] latitude longitude)
       =n= Fin 0
    /\ basicFeatures enhanced = [ Fin 0; Fin 0; Fin 0; Fin 0; Fin 0 ]
    /\ epf_quality enhanced = NaN
    /\ end_quality (process_enhanced [] [] [] [] [] latitude longitude)
       = NaN.
Proof.
  intros model features latitude longitude basic enhanced.
  split; [apply runMLPrediction_returns|].
  split; [reflexivity|].
  assert (Hq : pf_quality basic =n= Fin 0) by (vm_compute; reflexivity).
  split; [exact Hq|].
  split; [rewrite basic_quality_of_pipeline; exact Hq|].
  split; [reflexivity|].
  split; [apply enhanced_quality_NaN|].
  rewrite enhanced_quality_of_pipeline. apply enhanced_quality_NaN.
Qed.

(** C5.  On the enhanced branch a request with an empty array (here the
    three deselected signals) returns, for [neural] and for [ensemble], a
    final confidence that is [NaN]: it is not the model's confidence damped
    by factors of [0,1], and it does not compare below the model's
    confidence. *)
Theorem enhanced_confidence_not_dampened :
  forall (soilMoisture temperature : list Sample) (features : DataFeatures)
         (latitude longitude : num),
    (exists result prediction,
        run soilMoisture temperature [] [] [] neural features
            latitude longitude = Some result
        /\ EnhancedMLModelsManager_predict enhancedMLModelsManager neural
             (end_features
                (process_enhanced soilMoisture temperature [] [] []
                   latitude longitude)) = Some prediction
        /\ confidence (pr_droughtRisk result) = NaN
        /\ confidence (pr_floodRisk result) = NaN
        /\ (confidence (pr_droughtRisk result) <=? emp_confidence prediction)
           = false)
    /\ (exists result prediction,
          run soilMoisture temperature [] [] [] ensemble features
              latitude longitude = Some result
          /\ EnhancedMLModelsManager_predict enhancedMLModelsManager ensemble
               (end_features
                  (process_enhanced soilMoisture temperature [] [] []
                     latitude longitude)) = Some prediction
          /\ confidence (pr_droughtRisk result) = NaN
          /\ confidence (pr_floodRisk result) = NaN
          /\ (confidence (pr_droughtRisk result)
              <=? emp_confidence prediction) = false).
Proof.
  intros. split; apply enhanced_confidence_NaN; auto.
Qed.

End Orchestrator.

(* ================================================================== *)
(** ** Ranges of the predictions *)
(* ================================================================== *)

Lemma calculateUncertainty_range (d f : Q) :
  exists u, calculateUncertainty (Fin d) (Fin f) = Fin u /\ (0 <= u <= 1)%Q.
Proof.
  unfold calculateUncertainty. cbn [Num.sub Num.neg Num.add Math_abs Num.mul].
  rewrite Math_min_fin. eexists. split; [reflexivity|].
  pose proof (Qabs_nonneg (d + - f)) as Habs.
  qcases; qprop; lra.
Qed.

(** The risks of the enhanced neural predictor lie in [0,1] for every
    finite answer of its networks, and so does its uncertainty. *)
Lemma enhanced_neural_ranges
  (this : EnhancedNeuralNetworkModel) (features : list num) (d f : Q) :
  enn_droughtModel this features = Fin d ->
  enn_floodModel this features = Fin f ->
  let p := EnhancedNeuralNetworkModel_predict this features in
  exists rd rf u,
    emp_droughtRisk p = Fin rd /\ emp_floodRisk p = Fin rf
    /\ emp_uncertainty p = Fin u
    /\ (0 <= rd <= 1)%Q /\ (0 <= rf <= 1)%Q /\ (0 <= u <= 1)%Q.
Proof.
  intros Hd Hf p. unfold p, EnhancedNeuralNetworkModel_predict.
  cbn [emp_droughtRisk emp_floodRisk emp_uncertainty].
  rewrite Hd, Hf, !clamp01_fin.
  destruct (calculateUncertainty_range
              (let m := if Qltb d 1 then d else 1%Q in
               if Qltb 0 m then m else 0%Q)
              (let m := if Qltb f 1 then f else 1%Q in
               if Qltb 0 m then m else 0%Q)) as (u & -> & Hu).
  do 3 eexists. repeat split; try reflexivity; try apply Hu;
    cbv zeta; qcases; qprop; lra.
Qed.

(** C6.  The enhanced ensemble multiplies the neural uncertainty by 1.1
    after the neural predictor has capped it at 1: for networks answering
    drought 0.9 and flood 0.1 the neural uncertainty is 1 and the
    ensemble's is 1.1, above 1, whatever the features. *)
Theorem enhanced_ensemble_uncertainty_exceeds_one :
  forall features : list num,
    let neuralPrediction :=
      EnhancedNeuralNetworkModel_predict example_enhanced_neural features in
    let prediction :=
      EnhancedEnsembleModel_predict
        {| ee_neuralModel := example_enhanced_neural |} features in
    EnhancedMLModelsManager_predict example_enhanced_manager ensemble features
    = Some prediction
    /\ emp_droughtRisk prediction =n= Fin 0.9
    /\ emp_floodRisk prediction =n= Fin 0.1
    /\ emp_uncertainty neuralPrediction =n= Fin 1
    /\ emp_uncertainty prediction =n= Fin 1.1
    /\ (emp_uncertainty prediction <=? Fin 1) = false.
Proof.
  intros features neuralPrediction prediction.
  split; [reflexivity|].
  repeat split; vm_compute; reflexivity.
Qed.

(* ================================================================== *)
(** ** Geographic adjustment of the enhanced features: the desert row *)
(* ================================================================== *)

Lemma desert_latitude (latitude longitude : num) :
  isDesertRegion latitude longitude = true ->
  exists a, latitude = Fin a /\ (-30 <= a <= 50)%Q.
Proof.
  unfold isDesertRegion, Num.geb.
  destruct latitude as [a| | |]; cbn [Num.leb];
    rewrite ?andb_false_r, ?andb_false_l; try discriminate.
  intro H. exists a. split; [reflexivity|].
  rewrite !orb_true_iff, !andb_true_iff in H.
  destruct H as [[[[H|H]|H]|H]|H];
    destruct H as (((H1 & H2) & _) & _); qprop; lra.
Qed.

Lemma desert_not_polar (latitude longitude : num) :
  isDesertRegion latitude longitude = true ->
  isPolarRegion latitude longitude = false.
Proof.
  intro H. destruct (desert_latitude _ _ H) as (a & -> & Ha).
  unfold isPolarRegion, Num.gtb. cbn [Num.ltb].
  apply orb_false_iff. split; qprop; lra.
Qed.

Lemma kept_values_finite (keep : Sample -> bool) (samples : list Sample) :
  Forall (fun s => Num.isFinite (value s) = true) samples ->
  Forall (fun x => Num.isFinite x = true) (map value (filter keep samples)).
Proof.
  intro H. rewrite Forall_forall in *. intros x Hx.
  apply in_map_iff in Hx. destruct Hx as (s & <- & Hs).
  apply filter_In in Hs. apply H, Hs.
Qed.

Lemma normalize_slot_fin (v lo hi : Q) :
  ~ (hi - lo == 0)%Q ->
  normalize_slot (Fin v) (Fin lo) (Fin hi)
  = Fin (let m := if Qltb ((v - lo) / (hi - lo)) 1
                  then ((v - lo) / (hi - lo))%Q else 1%Q in
         if Qltb 0 m then m else 0%Q).
Proof.
  intro H. unfold normalize_slot. cbn [Num.sub Num.neg Num.add].
  rewrite (div_fin _ _ H). apply clamp01_fin.
Qed.

(** C1.  In the Sahara, at latitude 25 and longitude 10, with one valid
    sample per signal (soil moisture 50, temperature 30, fire index 10),
    the enhanced pipeline outputs the fire-index slot 0.1, below the 0.6 of
    the desert row: its adjustment compares the raw mean 10 with 0.6, the
    constant of the normalized scale, and the normalization then divides
    by 100.  The basic pipeline, whose adjustment compares with 60,
    outputs 0.6 on the same input. *)
Theorem enhanced_desert_fire_slot :
  let soil := [example_sample 25 10 50] in
  let temp := [example_sample 25 10 30] in
  let fire := [example_sample 25 10 10] in
  let enhanced :=
    end_features (example_enhanced soil temp fire [] [] 25 10) in
  let basic :=
    nd_features
      (processDataForML example_getTime soil temp fire [] []
                        (Fin 25) (Fin 10)) in
  isDesertRegion (Fin 25) (Fin 10) = true
  /\ at_index enhanced 2 =n= Fin 0.1
  /\ (at_index enhanced 2 >=? Fin 0.6) = false
  /\ at_index basic 2 =n= Fin 0.6
  /\ (at_index basic 2 >=? Fin 0.6) = true.
Proof. vm_compute. repeat split; reflexivity. Qed.

Section Quality.

Variable Math_sqrt : num -> num.
Variable Date_getTime : string -> num.
Variable Date_getFullYear : string -> num.
Variable now_getFullYear : num.

Lemma retention_ratio (data : list Sample) :
  data <> [] ->
  cr_quality
    (cleanAndValidateData Date_getTime Date_getFullYear now_getFullYear data)
  = Fin (Q_of_nat
           (List.length
              (cleanData_of
                 (cleanAndValidateData Date_getTime Date_getFullYear
                    now_getFullYear data)))
         / Q_of_nat (List.length data)).
Proof.
  intro Hne. unfold cleanAndValidateData. cbn [cr_quality cleanData_of].
  unfold Array_length, Num.of_nat. apply div_fin.
  apply Q_of_nat_nonzero. destruct data; [contradiction | simpl; lia].
Qed.


End Quality.



(* ================================================================== *)
(** ** The robust mean *)
(* ================================================================== *)

Lemma sort_insert_fin (x : Q) (l : list Q) :
  sort_insert (fun a b => a - b) (Fin x) (map Fin l)
  = map Fin (qinsert x l).
Proof.
  induction l as [|y t IH]; [reflexivity|].
  simpl. destruct (Qltb 0 (x + - y)); [|reflexivity].
  simpl. f_equal. exact IH.
Qed.

Lemma Array_sort_fin (xs : list Q) :
  Array_sort (fun a b => a - b) (map Fin xs) = map Fin (qsort xs).
Proof.
  induction xs as [|x t IH]; [reflexivity|].
  simpl. rewrite IH. apply sort_insert_fin.
Qed.

Lemma qinsert_perm (x : Q) (l : list Q) : Permutation (qinsert x l) (x :: l).
Proof.
  induction l as [|y t IH]; simpl; [reflexivity|].
  destruct (Qltb 0 (x + - y)); [|reflexivity].
  rewrite IH. apply perm_swap.
Qed.

Lemma qsort_perm (xs : list Q) : Permutation (qsort xs) xs.
Proof.
  induction xs as [|x t IH]; simpl; [reflexivity|].
  rewrite qinsert_perm. constructor. exact IH.
Qed.

Lemma qinsert_sorted (x : Q) (l : list Q) :
  StronglySorted Qle l -> StronglySorted Qle (qinsert x l).
Proof.
  induction l as [|y t IH]; intro Hs; simpl.
  - constructor; constructor.
  - apply StronglySorted_inv in Hs. destruct Hs as (Ht & Hy).
    destruct (Qltb 0 (x + - y)) eqn:E; qprop.
    + constructor; [apply IH, Ht|].
      apply (Permutation_Forall (Permutation_sym (qinsert_perm x t))).
      constructor; [lra | exact Hy].
    + constructor; [constructor; assumption|].
      constructor; [lra|].
      apply (Forall_impl _ (fun z (Hz : (y <= z)%Q) => Qle_trans x y z
                                                       ltac:(lra) Hz) Hy).
Qed.

Lemma qsort_sorted (xs : list Q) : StronglySorted Qle (qsort xs).
Proof.
  induction xs as [|x t IH]; simpl; [constructor|].
  apply qinsert_sorted, IH.
Qed.


Lemma floor_quarter (n : nat) :
  Qfloor (inject_Z (Z.of_nat n) * 0.25) = Z.of_nat (Nat.div n 4).
Proof.
  rewrite Nat2Z.inj_div. unfold Qfloor, Qmult, inject_Z. simpl Qnum.
  simpl Qden. change (Z.pos (1 * 100)) with (4 * 25)%Z.
  apply Z.div_mul_cancel_r; lia.
Qed.

Lemma floor_three_quarters (n : nat) :
  Qfloor (inject_Z (Z.of_nat n) * 0.75) = Z.of_nat (Nat.div (3 * n) 4).
Proof.
  rewrite Nat2Z.inj_div, Nat2Z.inj_mul.
  unfold Qfloor, Qmult, inject_Z. simpl Qnum. simpl Qden.
  change (Z.pos (1 * 100)) with (4 * 25)%Z.
  replace (Z.of_nat n * 75)%Z with (Z.of_nat 3 * Z.of_nat n * 25)%Z by lia.
  apply Z.div_mul_cancel_r; lia.
Qed.

(** Reading a finite array at an index computed by [Math.floor]. *)
Lemma Array_get_fin (l : list Q) (k : nat) :
  (k < List.length l)%nat ->
  Array_get (map Fin l) (Fin (inject_Z (Z.of_nat k))) = Fin (nth k l 0%Q).
Proof.
  intro Hk. unfold Array_get. rewrite Qfloor_Z, Nat2Z.id.
  replace (Qeq_bool (inject_Z (Z.of_nat k)) (inject_Z (Z.of_nat k)))
    with true by (symmetry; apply Qeq_bool_iff; reflexivity).
  replace (Qle_bool 0 (inject_Z (Z.of_nat k))) with true
    by (symmetry; apply Qle_bool_iff, (Q_of_nat_nonneg k)).
  cbn [andb].
  rewrite (nth_indep _ NaN (Fin 0)) by (rewrite length_map; exact Hk).
  apply map_nth.
Qed.

Lemma filter_map_Fin (p : num -> bool) (xs : list Q) :
  filter p (map Fin xs) = map Fin (filter (fun x => p (Fin x)) xs).
Proof.
  induction xs as [|x xs IH]; [reflexivity|].
  simpl. destruct (p (Fin x)); simpl; rewrite IH; reflexivity.
Qed.

Lemma Array_length_positive (A : Type) (l : list A) :
  (Array_length l >? Fin 0) = negb (Nat.eqb (List.length l) 0).
Proof.
  unfold Array_length, Num.of_nat, Num.gtb. cbn [Num.ltb].
  destruct l as [|a l]; [reflexivity|].
  cbn [Nat.eqb List.length negb]. qprop.
  apply (Q_of_nat_pos (S (List.length l))). lia.
Qed.

(** The two quartiles the code reads off its sorted copy. *)
Lemma quartiles_fin (xs : list Q) :
  xs <> [] ->
  let sorted := Array_sort (fun a b => a - b) (map Fin xs) in
  Array_get sorted (Math_floor (Array_length sorted * Fin 0.25))
  = Fin (nth (Nat.div (List.length xs) 4) (qsort xs) 0%Q)
  /\ Array_get sorted (Math_floor (Array_length sorted * Fin 0.75))
     = Fin (nth (Nat.div (3 * List.length xs) 4) (qsort xs) 0%Q).
Proof.
  intros Hne sorted. unfold sorted. rewrite Array_sort_fin.
  assert (Hsorted : List.length (qsort xs) = List.length xs)
    by (apply Permutation_length, qsort_perm).
  assert (Hpos : (0 < List.length xs)%nat)
    by (destruct xs; [contradiction | simpl; lia]).
  unfold Array_length. rewrite length_map, Hsorted.
  unfold Num.of_nat. cbn [Num.mul Math_floor].
  rewrite floor_quarter, floor_three_quarters.
  split; apply Array_get_fin; rewrite Hsorted;
    apply Nat.Div0.div_lt_upper_bound; lia.
Qed.

(** On finite values the code computes the reference definition, taken on
    its own sorted copy. *)
Lemma calculateRobustAverage_qsort (xs : list Q) :
  calculateRobustAverage (map Fin xs)
  =n= Fin (robustMean_reference (qsort xs) xs).
Proof.
  destruct xs as [|x0 xs0] eqn:Exs; [simpl; reflexivity|].
  rewrite <- Exs.
  assert (Hne : xs <> []) by (rewrite Exs; discriminate).
  destruct (quartiles_fin xs Hne) as (Hq1 & Hq3). cbv zeta in Hq1, Hq3.
  unfold calculateRobustAverage, robustMean_reference. cbv zeta.
  rewrite Hq1, Hq3, length_map.
  replace (Nat.eqb (List.length xs) 0) with false
    by (rewrite Exs; reflexivity).
  cbn [Num.sub Num.neg Num.add Num.mul].
  rewrite filter_map_Fin.
  unfold Num.geb. cbn [Num.leb].
  match goal with
  | |- context [filter ?p xs] => set (inBound := filter p xs)
  end.
  change (filter _ xs) with inBound.
  rewrite Array_length_positive, length_map.
  destruct inBound as [|y inBound'] eqn:Ein;
    cbn [List.length Nat.eqb negb]; clear Hq1 Hq3 Ein; subst xs.
  - apply (sum_over_length (x0 :: xs0)). discriminate.
  - apply (sum_over_length (y :: inBound')). discriminate.
Qed.

Section RoundedRobustMean.

Local Close Scope num_scope.


Lemma Qltb_sub (x y : Q) : Qltb 0 (x + - y) = Qltb y x.
Proof.
  unfold Qltb. f_equal.
  destruct (Qle_bool (x + - y) 0) eqn:A, (Qle_bool x y) eqn:B;
    try reflexivity.
  - apply Qle_bool_iff in A. apply not_true_iff_false in B.
    exfalso. apply B. apply Qle_bool_iff. lra.
  - apply Qle_bool_iff in B. apply not_true_iff_false in A.
    exfalso. apply A. apply Qle_bool_iff. lra.
Qed.

Lemma sort_insert_double (x : Q) (l : list Q) :
  Binary64.is_double x -> Forall Binary64.is_double l ->
  sort_insert (fun a b => Binary64.sub a b) (Fin x) (map Fin l)
  = map Fin (qinsert x l).
Proof.
  intros Hx Hl. induction Hl as [|y t Hy Ht IH]; [reflexivity|].
  cbn [map sort_insert qinsert]. rewrite (sub_positive x y Hx Hy), Qltb_sub.
  destruct (Qltb y x); [|reflexivity].
  cbn [map]. f_equal. exact IH.
Qed.

Lemma Array_sort_double (xs : list Q) :
  Forall Binary64.is_double xs ->
  Array_sort (fun a b => Binary64.sub a b) (map Fin xs)
  = map Fin (qsort xs).
Proof.
  intro H. induction H as [|x t Hx Ht IH]; [reflexivity|].
  simpl. rewrite IH. apply sort_insert_double; [exact Hx|].
  apply (Permutation_Forall (Permutation_sym (qsort_perm t))). exact Ht.
Qed.

(** The quartile indices are computed without rounding. *)
Lemma quarter_index (n : nat) :
  (Z.of_nat n < 2 ^ 32)%Z ->
  Math_floor (Binary64.mul (Num.of_nat n) (Binary64.lit 0.25))
  = Fin (inject_Z (Z.of_nat (Nat.div n 4))).
Proof.
  intro H.
  assert (L : Binary64.lit 0.25 = Fin (1 # 4)) by (vm_compute; reflexivity).
  rewrite L. unfold Binary64.mul, Num.of_nat.
  cbn [Num.mul Binary64.round_num].
  assert (E : inject_Z (Z.of_nat n) * (1 # 4)
              == inject_Z (Z.of_nat n) * 2 ^ (-2)) by reflexivity.
  rewrite (round_compat _ _ E), round_exact.
  - cbn [Math_floor]. f_equal. f_equal.
    rewrite (Qfloor_comp _ _ (Qred_correct _)).
    rewrite <- (Qfloor_comp _ _ E).
    assert (T : inject_Z (Z.of_nat n) * (1 # 4)
                == inject_Z (Z.of_nat n) * 0.25).
    { apply Qmult_comp; [reflexivity | vm_compute; reflexivity]. }
    rewrite (Qfloor_comp _ _ T). apply floor_quarter.
  - rewrite Z.abs_eq by lia. lia.
  - lia.
  - rewrite Qabs_Qmult, (Qabs_pos (2 ^ (-2))) by (vm_compute; discriminate).
    assert (A : Qabs (inject_Z (Z.of_nat n)) == inject_Z (Z.of_nat n)).
    { apply Qabs_pos. change 0 with (inject_Z 0). rewrite <- Zle_Qle. lia. }
    rewrite A.
    assert (B : inject_Z (Z.of_nat n) < inject_Z (2 ^ 32))
      by (rewrite <- Zlt_Qlt; exact H).
    assert (C : inject_Z (2 ^ 32) * 2 ^ (-2) < 2 ^ 1024).
    { rewrite (pow2_inject 32), <- pow2_plus by lia. apply pow2_lt. lia. }
    assert (D : inject_Z (Z.of_nat n) * 2 ^ (-2)
                <= inject_Z (2 ^ 32) * 2 ^ (-2)).
    { apply Qmult_le_compat_r; [lra | vm_compute; discriminate]. }
    lra.
Qed.

Lemma three_quarters_index (n : nat) :
  (Z.of_nat n < 2 ^ 32)%Z ->
  Math_floor (Binary64.mul (Num.of_nat n) (Binary64.lit 0.75))
  = Fin (inject_Z (Z.of_nat (Nat.div (3 * n) 4))).
Proof.
  intro H.
  assert (L : Binary64.lit 0.75 = Fin (3 # 4)) by (vm_compute; reflexivity).
  rewrite L. unfold Binary64.mul, Num.of_nat.
  cbn [Num.mul Binary64.round_num].
  assert (E : inject_Z (Z.of_nat n) * (3 # 4)
              == inject_Z (3 * Z.of_nat n) * 2 ^ (-2)).
  { rewrite inject_Z_mult. change (2 ^ (-2)) with (1 # 4).
    change (inject_Z 3) with 3.
    assert (T : (3 # 4) == 3 * (1 # 4)) by (vm_compute; reflexivity).
    rewrite T. ring. }
  rewrite (round_compat _ _ E), round_exact.
  - cbn [Math_floor]. f_equal. f_equal.
    rewrite (Qfloor_comp _ _ (Qred_correct _)).
    rewrite <- (Qfloor_comp _ _ E).
    assert (T : inject_Z (Z.of_nat n) * (3 # 4)
                == inject_Z (Z.of_nat n) * 0.75).
    { apply Qmult_comp; [reflexivity | vm_compute; reflexivity]. }
    rewrite (Qfloor_comp _ _ T). apply floor_three_quarters.
  - rewrite Z.abs_eq by lia. lia.
  - lia.
  - rewrite Qabs_Qmult, (Qabs_pos (2 ^ (-2))) by (vm_compute; discriminate).
    assert (A : Qabs (inject_Z (3 * Z.of_nat n)) == inject_Z (3 * Z.of_nat n)).
    { apply Qabs_pos. change 0 with (inject_Z 0). rewrite <- Zle_Qle. lia. }
    rewrite A.
    assert (B : inject_Z (3 * Z.of_nat n) < inject_Z (2 ^ 34))
      by (rewrite <- Zlt_Qlt; lia).
    assert (C : inject_Z (2 ^ 34) * 2 ^ (-2) < 2 ^ 1024).
    { rewrite (pow2_inject 34), <- pow2_plus by lia. apply pow2_lt. lia. }
    assert (D : inject_Z (3 * Z.of_nat n) * 2 ^ (-2)
                <= inject_Z (2 ^ 34) * 2 ^ (-2)).
    { apply Qmult_le_compat_r; [lra | vm_compute; discriminate]. }
    lra.
Qed.

Lemma qsort_length (xs : list Q) : List.length (qsort xs) = List.length xs.
Proof. apply Permutation_length, qsort_perm. Qed.

(** The two quartiles the code reads off its sorted copy. *)
Lemma quartiles_double (xs : list Q) :
  Forall Binary64.is_double xs ->
  (Z.of_nat (List.length xs) < 2 ^ 32)%Z ->
  xs <> [] ->
  let sorted := Array_sort (fun a b => Binary64.sub a b) (map Fin xs) in
  Array_get sorted
    (Math_floor (Binary64.mul (Array_length sorted) (Binary64.lit 0.25)))
  = Fin (nth (Nat.div (List.length xs) 4) (qsort xs) 0%Q)
  /\ Array_get sorted
       (Math_floor (Binary64.mul (Array_length sorted) (Binary64.lit 0.75)))
     = Fin (nth (Nat.div (3 * List.length xs) 4) (qsort xs) 0%Q).
Proof.
  intros Hd Hn Hne sorted. unfold sorted.
  rewrite (Array_sort_double xs Hd).
  assert (Hpos : (0 < List.length xs)%nat)
    by (destruct xs; [contradiction | simpl; lia]).
  unfold Array_length. rewrite length_map, qsort_length.
  rewrite (quarter_index _ Hn), (three_quarters_index _ Hn).
  split; apply Array_get_fin; rewrite qsort_length;
    apply Nat.Div0.div_lt_upper_bound; lia.
Qed.

(** On binary64 values the code computes the reference definition, taken
    on its own sorted copy. *)
Lemma rounded_robust_average_qsort (xs : list Q) :
  Forall Binary64.is_double xs ->
  (Z.of_nat (List.length xs) < 2 ^ 32)%Z ->
  Rounded.calculateRobustAverage (map Fin xs)
  = robustMean_binary64 (qsort xs) xs.
Proof.
  intros Hd Hn.
  destruct xs as [|x0 xs0] eqn:Exs; [reflexivity|].
  rewrite <- Exs in *.
  assert (Hne : xs <> []) by (rewrite Exs; discriminate).
  destruct (quartiles_double xs Hd Hn Hne) as (Hq1 & Hq3).
  cbv zeta in Hq1, Hq3.
  unfold Rounded.calculateRobustAverage, robustMean_binary64. cbv zeta.
  rewrite Hq1, Hq3, length_map.
  replace (Nat.eqb (List.length xs) 0) with false
    by (rewrite Exs; reflexivity).
  rewrite filter_map_Fin. unfold Num.geb.
  match goal with
  | |- context [filter ?p xs] => set (inBound := filter p xs)
  end.
  change (filter _ xs) with inBound.
  rewrite Array_length_positive, length_map.
  unfold mean_binary64, Array_length. rewrite !length_map.
  destruct inBound as [|y inBound'] eqn:Ein;
    cbn [List.length Nat.eqb negb]; rewrite Exs; reflexivity.
Qed.

End RoundedRobustMean.



(* ================================================================== *)
(** ** Confidence on the enhanced branch, away from empty arrays *)
(* ================================================================== *)

Section EnhancedConfidence.

Variable Math_sqrt : num -> num.
Variable Date_getTime : string -> num.
Variable Date_getFullYear : string -> num.
Variable now_getFullYear : num.
Variable mlModelsManager : MLModelsManager.
Variable enhancedMLModelsManager : EnhancedMLModelsManager.

Lemma ratio_range (k n : nat) :
  (k <= n)%nat -> (0 < n)%nat ->
  (0 <= Q_of_nat k / Q_of_nat n <= 1)%Q.
Proof.
  intros Hk Hn.
  pose proof (Q_of_nat_pos n Hn) as Hpos.
  pose proof (Q_of_nat_nonneg k) as Hk0.
  pose proof (Q_of_nat_le k n Hk) as Hle.
  split.
  - apply Qle_shift_div_l; lra.
  - apply Qle_shift_div_r; lra.
Qed.

Lemma retention_range (data : list Sample) :
  data <> [] ->
  exists a,
    cr_quality
      (cleanAndValidateData Date_getTime Date_getFullYear now_getFullYear
         data) = Fin a
    /\ (0 <= a <= 1)%Q.
Proof.
  intro Hne. rewrite (retention_ratio _ _ _ _ Hne).
  eexists. split; [reflexivity|].
  apply ratio_range.
  - unfold cleanAndValidateData. cbn [cleanData_of]. apply filter_length_le.
  - destruct data; [contradiction | simpl; lia].
Qed.

(** With five non-empty arrays the enhanced quality is a number of
    [0,1]. *)
Lemma enhanced_quality_range
  (soilMoisture temperature fireIndex seaLevel glacierMelting : list Sample) :
  Forall (fun data => data <> [])
         [soilMoisture; temperature; fireIndex; seaLevel; glacierMelting] ->
  exists q,
    epf_quality
      (aggregateDataWithTimeSeries Math_sqrt Date_getTime Date_getFullYear
         now_getFullYear soilMoisture temperature fireIndex seaLevel
         glacierMelting) = Fin q
    /\ (0 <= q <= 1)%Q.
Proof.
  intro Hne.
  inversion_clear Hne as [|? ? H1 Hne1].
  inversion_clear Hne1 as [|? ? H2 Hne2].
  inversion_clear Hne2 as [|? ? H3 Hne3].
  inversion_clear Hne3 as [|? ? H4 Hne4].
  inversion_clear Hne4 as [|? ? H5 _].
  destruct (retention_range _ H1) as (a & Ea & Ha).
  destruct (retention_range _ H2) as (b & Eb & Hb).
  destruct (retention_range _ H3) as (c & Ec & Hc).
  destruct (retention_range _ H4) as (d & Ed & Hd).
  destruct (retention_range _ H5) as (e & Ee & He).
  unfold aggregateDataWithTimeSeries. cbn [epf_quality].
  rewrite Ea, Eb, Ec, Ed, Ee.
  unfold Array_sum, Array_length, Num.of_nat.
  cbn [fold_left Num.add List.length].
  rewrite div_fin by (intro E; vm_compute in E; discriminate).
  eexists. split; [reflexivity|].
  change (inject_Z (Z.of_nat 5)) with 5%Q. qinv. lra.
Qed.

(** The enhanced richness is always a number of [0,1]. *)
Lemma enhanced_richness_range
  (soilMoisture temperature fireIndex seaLevel glacierMelting : list Sample) :
  exists r,
    epf_dataRichness
      (aggregateDataWithTimeSeries Math_sqrt Date_getTime Date_getFullYear
         now_getFullYear soilMoisture temperature fireIndex seaLevel
         glacierMelting) = Fin r
    /\ (0 <= r <= 1)%Q.
Proof.
  unfold aggregateDataWithTimeSeries. cbn [epf_dataRichness].
  unfold Array_length, Num.of_nat. cbn [Num.add].
  rewrite div_fin by (intro E; vm_compute in E; discriminate).
  rewrite Math_min_fin. eexists. split; [reflexivity|].
  repeat match goal with
         | |- context [inject_Z (Z.of_nat ?n)] =>
             let H := fresh "Hn" in
             pose proof (Q_of_nat_nonneg n) as H;
             unfold Q_of_nat in H;
             generalize dependent (inject_Z (Z.of_nat n)); intros
         end.
  qcases; qprop; qinv; lra.
Qed.

(** With five non-empty arrays the final confidence of the enhanced branch
    is at most the model's confidence. *)
Lemma enhanced_confidence_dampened
  (soilMoisture temperature fireIndex seaLevel glacierMelting : list Sample)
  (model : PredictionModel) (features : DataFeatures)
  (latitude longitude : num) (result : PredictionResult)
  (prediction : EnhancedModelPrediction) (c : Q) :
  model = neural \/ model = ensemble ->
  Forall (fun data => data <> [])
         [soilMoisture; temperature; fireIndex; seaLevel; glacierMelting] ->
  runMLPrediction Math_sqrt Date_getTime Date_getFullYear now_getFullYear
    mlModelsManager enhancedMLModelsManager soilMoisture temperature
    fireIndex seaLevel glacierMelting model features latitude longitude
  = Some result ->
  EnhancedMLModelsManager_predict enhancedMLModelsManager model
    (end_features
       (processDataForEnhancedML Math_sqrt Date_getTime Date_getFullYear
          now_getFullYear soilMoisture temperature fireIndex seaLevel
          glacierMelting latitude longitude)) = Some prediction ->
  emp_confidence prediction = Fin c ->
  (0 <= c)%Q ->
  (confidence (pr_droughtRisk result) <=? Fin c) = true
  /\ (confidence (pr_floodRisk result) <=? Fin c) = true.
Proof.
  intros Hmodel Hne Hrun Hpred Hconf Hc.
  destruct (runMLPrediction_enhanced_confidence _ _ _ _ _ _ _ _ _ _ _ _ _ _
              _ _ Hmodel Hrun) as (prediction' & Hpred' & Hd & Hf).
  rewrite Hpred in Hpred'. apply Some_eq in Hpred'. subst prediction'.
  rewrite Hf, Hd, Hconf, enhanced_quality_of_pipeline,
    enhanced_richness_of_pipeline.
  destruct (enhanced_quality_range _ _ _ _ _ Hne) as (q & -> & Hq).
  destruct (enhanced_richness_range soilMoisture temperature fireIndex
              seaLevel glacierMelting) as (r & -> & Hr).
  cbn [Num.mul Num.leb].
  assert (Hcq : (0 <= c * q <= c)%Q) by nra.
  split; qprop; nra.
Qed.

End EnhancedConfidence.

(* ================================================================== *)
(** ** Two requests, end to end *)
(* ================================================================== *)

(** A point of the Sahara, five valid samples per signal, linear model:
    drought 0.7 is [high], flood 0.2 is [low], and the model's confidence
    0.78 is damped by the quality 0.8. *)
Example basic_prediction_sahara :
  exists result,
    runMLPrediction example_sqrt example_getTime example_getFullYear
      example_now example_manager example_enhanced_manager
      five_samples five_samples five_samples five_samples five_samples
      linear example_features (Fin 20) (Fin 10) = Some result
    /\ level (pr_droughtRisk result) = high
    /\ level (pr_floodRisk result) = low
    /\ confidence (pr_droughtRisk result) =n= Fin 0.624
    /\ dp_soilMoisture (pr_dataPoints result) = Some (Fin 15)
    /\ dp_fireIndex (pr_dataPoints result) = None.
Proof.
  eexists. split; [vm_compute; reflexivity|].
  vm_compute. repeat split; reflexivity.
Qed.

(** The same point with two signals selected and the neural model: the
    three empty arrays turn the confidence into [NaN]. *)
Example enhanced_prediction_two_signals :
  exists result,
    runMLPrediction example_sqrt example_getTime example_getFullYear
      example_now example_manager example_enhanced_manager
      five_samples five_samples [] [] []
      neural example_features (Fin 20) (Fin 10) = Some result
    /\ level (pr_droughtRisk result) = extreme
    /\ confidence (pr_droughtRisk result) = NaN.
Proof.
  eexists. split; [vm_compute; reflexivity|].
  vm_compute. split; reflexivity.
Qed.

(* ================================================================== *)
(** ** Normalization: shape and bounds *)
(* ================================================================== *)

Lemma clamp01_unit (x : num) :
  Num.isNaN x = false -> unit_interval (clamp01 x).
Proof.
  intro H. destruct x as [a| | |]; try discriminate H.
  - rewrite clamp01_fin. eexists. split; [reflexivity|].
    cbv zeta. qcases; qprop; lra.
  - exists 1%Q. split; [reflexivity | lra].
  - exists 0%Q. split; [reflexivity | lra].
Qed.

(** A slot that is not [NaN] is rescaled into [0,1], wherever it lies
    with respect to its range. *)
Lemma normalize_slot_unit (x : num) (lo hi : Q) :
  Num.isNaN x = false -> (lo < hi)%Q ->
  unit_interval (normalize_slot x (Fin lo) (Fin hi)).
Proof.
  intros Hx Hr. unfold normalize_slot. apply clamp01_unit.
  assert (Hd : ~ (hi + - lo == 0)%Q) by lra.
  destruct x as [a| | |]; try discriminate Hx;
    cbn [Num.sub Num.neg Num.add].
  - rewrite (div_fin _ _ Hd). reflexivity.
  - cbn [Num.div Num.sign Num.sign_mul].
    replace (Qltb (hi + - lo) 0) with false
      by (symmetry; qprop; lra). reflexivity.
  - cbn [Num.div Num.sign Num.sign_mul].
    replace (Qltb (hi + - lo) 0) with false
      by (symmetry; qprop; lra). reflexivity.
Qed.

Lemma normalize_slot_NaN (lo hi : num) : normalize_slot NaN lo hi = NaN.
Proof. reflexivity. Qed.

Lemma normalize_group_unit
  (groupIndex : nat) (features : list num)
  (ranges : list (string * num * num)) :
  Forall (fun x => Num.isNaN x = false) features ->
  forallb proper_range ranges = true ->
  Forall unit_interval
         (map (fun p => fst (fst p))
              (normalize_group groupIndex features ranges)).
Proof.
  revert ranges. induction features as [|x features IH];
    intros ranges Hf Hr; [constructor|].
  destruct ranges as [|[[name lo] hi] ranges]; [constructor|].
  inversion Hf as [|? ? Hx Hf']; subst.
  simpl in Hr. apply andb_true_iff in Hr. destruct Hr as (Hr1 & Hr2).
  destruct lo as [lo| | |]; try discriminate Hr1.
  destruct hi as [hi| | |]; try discriminate Hr1.
  unfold normalize_group. simpl. constructor.
  - apply normalize_slot_unit; [exact Hx | qprop; exact Hr1].
  - apply IH; assumption.
Qed.

Lemma normalize_group_length
  (groupIndex : nat) (features : list num)
  (ranges : list (string * num * num)) :
  List.length features = List.length ranges ->
  List.length (normalize_group groupIndex features ranges)
  = List.length ranges
  /\ map snd (normalize_group groupIndex features ranges)
     = map (fun r => fst (fst r)) ranges.
Proof.
  intro H. unfold normalize_group. split.
  - rewrite length_map, length_combine. lia.
  - revert ranges H. induction features as [|x features IH];
      intros [|[[name lo] hi] ranges] H; try discriminate H;
      [reflexivity|].
    simpl. f_equal. apply IH. simpl in H. lia.
Qed.

Lemma normalized_groups (features : EnhancedProcessedFeatures) :
  let group i feats :=
    normalize_group i feats (nth i normalizationRanges []) in
  let pushed :=
    group 0%nat (basicFeatures features)
    ++ group 1%nat (temporalFeatures features)
    ++ group 2%nat (volatilityFeatures features)
    ++ group 3%nat (interactionFeatures features)
    ++ group 4%nat (seasonalFeatures features)
    ++ group 5%nat (extremeFeatures features) in
  end_features (normalizeFeaturesEnhanced features)
  = map (fun p => fst (fst p)) pushed
  /\ end_statistics (normalizeFeaturesEnhanced features)
     = map (fun p => snd (fst p)) pushed
  /\ end_featureNames (normalizeFeaturesEnhanced features) = map snd pushed.
Proof.
  cbv zeta. unfold normalizeFeaturesEnhanced.
  cbn [end_features end_statistics end_featureNames seq combine
       normalizationRanges map List.concat nth].
  rewrite app_nil_r. repeat split.
Qed.

Lemma enhanced_normalization_facts :
  forall features : EnhancedProcessedFeatures,
    group_shape features ->
    let out := normalizeFeaturesEnhanced features in
    List.length (end_features out) = 25%nat
    /\ List.length (end_statistics out) = 25%nat
    /\ end_featureNames out = range_names
    /\ (no_NaN features -> Forall unit_interval (end_features out)).
Proof.
  intros features (H0 & H1 & H2 & H3 & H4 & H5) out.
  destruct (normalized_groups features) as (Ef & Es & En).
  cbv zeta in Ef, Es, En. subst out.
  destruct (normalize_group_length 0 (basicFeatures features)
              (nth 0 normalizationRanges []) H0) as (L0 & N0).
  destruct (normalize_group_length 1 (temporalFeatures features)
              (nth 1 normalizationRanges []) H1) as (L1 & N1).
  destruct (normalize_group_length 2 (volatilityFeatures features)
              (nth 2 normalizationRanges []) H2) as (L2 & N2).
  destruct (normalize_group_length 3 (interactionFeatures features)
              (nth 3 normalizationRanges []) H3) as (L3 & N3).
  destruct (normalize_group_length 4 (seasonalFeatures features)
              (nth 4 normalizationRanges []) H4) as (L4 & N4).
  destruct (normalize_group_length 5 (extremeFeatures features)
              (nth 5 normalizationRanges []) H5) as (L5 & N5).
  split; [|split; [|split]].
  - rewrite Ef, length_map, !length_app, L0, L1, L2, L3, L4, L5.
    reflexivity.
  - rewrite Es, length_map, !length_app, L0, L1, L2, L3, L4, L5.
    reflexivity.
  - rewrite En, !map_app, N0, N1, N2, N3, N4, N5. reflexivity.
  - intro Hn. rewrite Ef, !map_app. unfold no_NaN in Hn.
    rewrite !Forall_app in Hn.
    destruct Hn as (F0 & F1 & F2 & F3 & F4 & F5).
    rewrite !Forall_app.
    repeat split; apply normalize_group_unit;
      (assumption || reflexivity).
Qed.

(** X1.  The enhanced normalization of a record of the aggregation step's
    shape returns 25 features, 25 statistics and the 25 names of the range
    table in order; and when no feature is [NaN], every normalized feature
    is a number of [0,1], however far outside its range the raw feature
    lies. *)
Theorem enhanced_normalization_shape_and_bounds :
  forall features : EnhancedProcessedFeatures,
    group_shape features ->
    let out := normalizeFeaturesEnhanced features in
    List.length (end_features out) = 25%nat
    /\ List.length (end_statistics out) = 25%nat
    /\ end_featureNames out = range_names
    /\ (no_NaN features -> Forall unit_interval (end_features out)).
Proof. exact enhanced_normalization_facts. Qed.

Lemma example_aggregated_shape : group_shape example_aggregated.
Proof. repeat split. Qed.

Lemma example_aggregated_no_NaN : no_NaN example_aggregated.
Proof. vm_compute. repeat constructor. Qed.

(** The aggregated features of the example point. *)
Lemma enhanced_normalization_shape_and_bounds_witness :
  group_shape example_aggregated
  /\ no_NaN example_aggregated
  /\ Forall unit_interval
            (end_features (normalizeFeaturesEnhanced example_aggregated)).
Proof.
  split; [exact example_aggregated_shape|].
  split; [exact example_aggregated_no_NaN|].
  pose proof (enhanced_normalization_shape_and_bounds example_aggregated
                example_aggregated_shape) as H.
  cbv zeta in H. destruct H as (_ & _ & _ & H).
  exact (H example_aggregated_no_NaN).
Defined.

(* ================================================================== *)
(** ** The enhanced pipeline: shape of the output *)
(* ================================================================== *)

Section EnhancedShape.

Variable Math_sqrt : num -> num.
Variable Date_getTime : string -> num.
Variable Date_getFullYear : string -> num.
Variable now_getFullYear : num.

Lemma adjusted_aggregate_shape
  (soilMoisture temperature fireIndex seaLevel glacierMelting : list Sample)
  (latitude longitude : num) :
  group_shape
    (adjustForGeographicContextEnhanced
       (aggregateDataWithTimeSeries Math_sqrt Date_getTime Date_getFullYear
          now_getFullYear soilMoisture temperature fireIndex seaLevel
          glacierMelting)
       latitude longitude).
Proof.
  split; [apply adjusted_basic_length; reflexivity|].
  repeat split.
Qed.

(** X2.  Whatever the samples and the coordinates, the feature engineer
    returns 25 features and the enhanced pipeline returns 25 normalized
    features, 25 statistics and the 25 feature names in the order of the
    range table: the input shape of the enhanced networks. *)
Theorem enhanced_pipeline_shape :
  forall (soilMoisture temperature fireIndex seaLevel glacierMelting
            : list Sample)
         (latitude longitude : num)
         (soilTS temperatureTS fireTS seaTS glacierTS : list num),
    let out :=
      processDataForEnhancedML Math_sqrt Date_getTime Date_getFullYear
        now_getFullYear soilMoisture temperature fireIndex seaLevel
        glacierMelting latitude longitude in
    List.length
      (createTemporalFeatures Math_sqrt soilTS temperatureTS fireTS seaTS
                              glacierTS) = 25%nat
    /\ List.length (end_features out) = 25%nat
    /\ List.length (end_statistics out) = 25%nat
    /\ end_featureNames out = range_names.
Proof.
  intros soilMoisture temperature fireIndex seaLevel glacierMelting
         latitude longitude soilTS temperatureTS fireTS seaTS glacierTS out.
  split; [reflexivity|].
  unfold out, processDataForEnhancedML.
  destruct (enhanced_normalization_facts _
              (adjusted_aggregate_shape soilMoisture temperature fireIndex
                 seaLevel glacierMelting latitude longitude))
    as (H1 & H2 & H3 & _).
  repeat split; assumption.
Qed.

End EnhancedShape.

(* ================================================================== *)
(** ** Means stay within the data *)
(* ================================================================== *)

Lemma Qsum_bounds (xs : list Q) (lo hi : Q) :
  Forall (fun x => (lo <= x <= hi)%Q) xs ->
  (Q_of_nat (List.length xs) * lo <= Qsum xs
   <= Q_of_nat (List.length xs) * hi)%Q.
Proof.
  induction 1 as [|x xs Hx Hxs IH].
  - cbn [List.length]. change (Q_of_nat 0) with 0%Q.
    unfold Qsum. cbn [fold_right]. lra.
  - cbn [List.length]. unfold Qsum. cbn [fold_right]. fold (Qsum xs).
    rewrite Q_of_nat_S. lra.
Qed.

Lemma Qmean_bounds (xs : list Q) (lo hi : Q) :
  xs <> [] ->
  Forall (fun x => (lo <= x <= hi)%Q) xs ->
  (lo <= Qmean xs <= hi)%Q.
Proof.
  intros Hne H. pose proof (Qsum_bounds xs lo hi H) as Hs.
  assert (Hn : (0 < Q_of_nat (List.length xs))%Q).
  { apply Q_of_nat_pos. destruct xs; [contradiction | simpl; lia]. }
  destruct xs as [|x xs]; [contradiction|].
  unfold Qmean. split.
  - apply Qle_shift_div_l; [exact Hn | lra].
  - apply Qle_shift_div_r; [exact Hn | lra].
Qed.

Lemma within_same (lo hi : Q) (x : num) (q : Q) :
  x =n= Fin q -> (lo <= q <= hi)%Q -> within lo hi x.
Proof.
  intros H Hq. apply same_fin in H. destruct H as (a & -> & Ha).
  exists a. split; [reflexivity | lra].
Qed.

Lemma sorted_nth_le (s : list Q) (i j : nat) :
  StronglySorted Qle s ->
  (i <= j)%nat -> (j < List.length s)%nat ->
  (nth i s 0 <= nth j s 0)%Q.
Proof.
  intro Hs. revert i j. induction Hs as [|a s Hs IH Ha]; intros i j Hij Hj.
  - simpl in Hj. lia.
  - destruct j as [|j].
    + assert (i = 0)%nat by lia. subst i. simpl. lra.
    + destruct i as [|i].
      * simpl. rewrite Forall_forall in Ha. apply Ha.
        apply nth_In. simpl in Hj. lia.
      * simpl. apply IH; simpl in Hj; lia.
Qed.

Section KeptValues.

Local Close Scope num_scope.

(** A number that is not below zero is a rational or the infinity. *)
Lemma nonneg_cases (v : num) :
  Num.leb (Fin 0) v = true ->
  v = PInf \/ exists q, v = Fin q /\ 0 <= q.
Proof.
  destruct v as [q| | |]; cbn [Num.leb]; intro H; try discriminate H.
  - right. exists q. split; [reflexivity|]. apply Qle_bool_iff, H.
  - left. reflexivity.
Qed.

Lemma round_nonneg (x : Q) :
  0 <= x -> Num.leb (Fin 0) (Binary64.round x) = true.
Proof.
  intro H. rewrite <- (round_zero 0) by reflexivity.
  apply round_mono, H.
Qed.

(** One and a half times a spread that is not negative. *)
Lemma margin_nonneg (iqr : num) :
  Num.leb (Fin 0) iqr = true ->
  Num.leb (Fin 0) (Binary64.lit 1.5 *! iqr) = true.
Proof.
  intro H.
  assert (L : Binary64.lit 1.5 = Fin (3 # 2)) by (vm_compute; reflexivity).
  rewrite L. destruct (nonneg_cases iqr H) as [-> | (q & -> & Hq)].
  - reflexivity.
  - unfold Binary64.mul. cbn [Num.mul Binary64.round_num].
    apply round_nonneg. lra.
Qed.

(** Taking a margin off a binary64 value does not raise it; adding one
    does not lower it. *)
Lemma lower_bound_le (a : Q) (t : num) :
  Binary64.is_double a -> Num.leb (Fin 0) t = true ->
  Num.leb (Fin a -! t) (Fin a) = true.
Proof.
  intros Ha Ht. destruct (nonneg_cases t Ht) as [-> | (q & -> & Hq)].
  - reflexivity.
  - unfold Binary64.sub, Num.sub.
    cbn [Num.neg Num.add Binary64.round_num].
    unfold Binary64.is_double in Ha. rewrite <- Ha.
    apply round_mono. lra.
Qed.

Lemma upper_bound_ge (a : Q) (t : num) :
  Binary64.is_double a -> Num.leb (Fin 0) t = true ->
  Num.leb (Fin a) (Fin a +! t) = true.
Proof.
  intros Ha Ht. destruct (nonneg_cases t Ht) as [-> | (q & -> & Hq)].
  - reflexivity.
  - unfold Binary64.add. cbn [Num.add Binary64.round_num].
    unfold Binary64.is_double in Ha. rewrite <- Ha.
    apply round_mono. lra.
Qed.

Lemma leb_trans_fin (a b : Q) (v : num) :
  a <= b -> Num.leb (Fin b) v = true -> Num.leb (Fin a) v = true.
Proof.
  intros H. destruct v as [q| | |]; cbn [Num.leb]; intro L;
    try discriminate L; try reflexivity.
  apply Qle_bool_iff. apply Qle_bool_iff in L. lra.
Qed.

(** The first quartile is one of the values and passes the filter. *)
Lemma first_quartile_kept (xs : list Q) :
  xs <> [] -> Forall Binary64.is_double xs ->
  In (nth (Nat.div (List.length xs) 4) (qsort xs) 0%Q)
     (in_bound_binary64 xs).
Proof.
  intros Hne Hd.
  assert (Hpos : (0 < List.length xs)%nat)
    by (destruct xs; [contradiction | simpl; lia]).
  assert (Hlen : List.length (qsort xs) = List.length xs)
    by (apply Permutation_length, qsort_perm).
  assert (H1 : (Nat.div (List.length xs) 4 < List.length (qsort xs))%nat)
    by (rewrite Hlen; apply Nat.Div0.div_lt_upper_bound; lia).
  assert (H3 : (Nat.div (3 * List.length xs) 4
                < List.length (qsort xs))%nat)
    by (rewrite Hlen; apply Nat.Div0.div_lt_upper_bound; lia).
  assert (H13 : (Nat.div (List.length xs) 4
                 <= Nat.div (3 * List.length xs) 4)%nat)
    by (apply Nat.Div0.div_le_mono; lia).
  pose proof (sorted_nth_le _ _ _ (qsort_sorted xs) H13 H3) as Hle.
  unfold in_bound_binary64. cbv zeta.
  set (q1 := nth (Nat.div (List.length xs) 4) (qsort xs) 0) in *.
  set (q3 := nth (Nat.div (3 * List.length xs) 4) (qsort xs) 0) in *.
  assert (I1 : In q1 xs)
    by (apply (Permutation_in _ (qsort_perm xs)), nth_In, H1).
  assert (I3 : In q3 xs)
    by (apply (Permutation_in _ (qsort_perm xs)), nth_In, H3).
  rewrite Forall_forall in Hd.
  pose proof (Hd q1 I1) as D1. pose proof (Hd q3 I3) as D3.
  assert (S : Num.leb (Fin 0) (Fin q3 -! Fin q1) = true).
  { unfold Binary64.sub, Num.sub.
    cbn [Num.neg Num.add Binary64.round_num]. apply round_nonneg. lra. }
  pose proof (margin_nonneg _ S) as T.
  apply filter_In. split; [exact I1|].
  apply andb_true_iff. split.
  - apply lower_bound_le; assumption.
  - apply (leb_trans_fin q1 q3 _ Hle). apply upper_bound_ge; assumption.
Qed.

End KeptValues.

(** X3.  On a non-empty array of binary64 values the first quartile is
    within the bounds that the robust average computes, whatever the
    rounding of the spread and of the bounds: the filter keeps at least
    that value, the fallback to the unfiltered mean is never taken, and
    the robust average is the mean, as the engine takes it, of the values
    kept. *)
Theorem robust_average_keeps_a_value :
  forall (xs : list Q),
    xs <> [] -> Forall Binary64.is_double xs ->
    (Z.of_nat (List.length xs) < 2 ^ 32)%Z ->
    In (nth (Nat.div (List.length xs) 4) (qsort xs) 0%Q)
       (in_bound_binary64 xs)
    /\ in_bound_binary64 xs <> []
    /\ incl (in_bound_binary64 xs) xs
    /\ Rounded.calculateRobustAverage (map Fin xs)
       = mean_binary64 (in_bound_binary64 xs).
Proof.
  intros xs Hne Hd Hn.
  pose proof (first_quartile_kept xs Hne Hd) as Hin.
  assert (Hkept : in_bound_binary64 xs <> []).
  { intro E. rewrite E in Hin. destruct Hin. }
  split; [exact Hin|]. split; [exact Hkept|]. split.
  - intros x Hx. unfold in_bound_binary64 in Hx. cbv zeta in Hx.
    apply filter_In in Hx. apply Hx.
  - rewrite (rounded_robust_average_qsort xs Hd Hn).
    unfold robustMean_binary64. cbv zeta.
    change (filter _ xs) with (in_bound_binary64 xs).
    destruct xs as [|x xs]; [contradiction|].
    destruct (in_bound_binary64 (x :: xs)) as [|y kept];
      [contradiction | reflexivity].
Qed.

(** The five readings: the first four are kept. *)
Lemma robust_average_keeps_a_value_witness :
  in_bound_binary64 example_readings = firstn 4 example_readings
  /\ Rounded.calculateRobustAverage (map Fin example_readings)
     = mean_binary64 (firstn 4 example_readings).
Proof.
  assert (E : in_bound_binary64 example_readings
              = firstn 4 example_readings) by (vm_compute; reflexivity).
  split; [exact E|]. rewrite <- E.
  apply (robust_average_keeps_a_value example_readings).
  - discriminate.
  - repeat constructor; vm_compute; reflexivity.
  - vm_compute. reflexivity.
Defined.

(* ================================================================== *)
(** ** The basic pipeline *)
(* ================================================================== *)

Lemma finite_as_Fin (xs : list num) :
  Forall (fun x => Num.isFinite x = true) xs -> exists qs, xs = map Fin qs.
Proof.
  induction 1 as [|x xs Hx _ (qs & ->)].
  - exists []. reflexivity.
  - destruct x as [q| | |]; try discriminate Hx.
    exists (q :: qs). reflexivity.
Qed.

Lemma calculateRobustAverage_finite (xs : list num) :
  Forall (fun x => Num.isFinite x = true) xs ->
  exists q, calculateRobustAverage xs = Fin q.
Proof.
  intro H. destruct (finite_as_Fin xs H) as (qs & ->).
  destruct (same_fin _ _ (calculateRobustAverage_qsort qs)) as (a & Ha & _).
  eauto.
Qed.

Lemma adjusted_finite_levels
  (f : ProcessedFeatures) (latitude longitude : num) :
  finite_levels f ->
  finite_levels (adjustForGeographicContext f latitude longitude).
Proof.
  intros (a & b & c & d & e & Ha & Hb & Hc & Hd & He).
  unfold adjustForGeographicContext. cbv zeta.
  destruct (isDesertRegion latitude longitude),
           (isPolarRegion latitude longitude),
           (isCoastalRegion latitude longitude);
    cbn [pf_soilMoisture pf_temperature pf_fireIndex pf_seaLevel
         pf_glacierMelting];
    rewrite ?Ha, ?Hb, ?Hc, ?Hd, ?He, ?Math_min_fin, ?Math_max_fin;
    unfold finite_levels;
    cbn [pf_soilMoisture pf_temperature pf_fireIndex pf_seaLevel
         pf_glacierMelting];
    rewrite ?Ha, ?Hb, ?Hc, ?Hd, ?He, ?Math_min_fin, ?Math_max_fin;
    do 5 eexists; repeat split; reflexivity.
Qed.

Lemma normalized_unit_interval (f : ProcessedFeatures) :
  finite_levels f ->
  Forall unit_interval (nd_features (normalizeFeatures f)).
Proof.
  intros (a & b & c & d & e & Ha & Hb & Hc & Hd & He).
  unfold normalizeFeatures. cbn [nd_features map].
  rewrite Ha, Hb, Hc, Hd, He.
  repeat constructor; apply normalize_slot_unit; try reflexivity; lra.
Qed.

Lemma completeness_reference_range (counts : list nat) :
  counts <> [] -> (0 <= completeness_reference counts <= 1)%Q.
Proof.
  intro Hne. unfold completeness_reference. apply Qmean_bounds.
  - destruct counts; [contradiction | discriminate].
  - apply Forall_forall. intros x Hx. apply in_map_iff in Hx.
    destruct Hx as (c & <- & _).
    pose proof (Q_of_nat_nonneg c) as Hc.
    unfold Qmin2. destruct (Qle_bool 1 (Q_of_nat c / 10)) eqn:E; qprop.
    + lra.
    + qinv. lra.
Qed.

Section BasicPipeline.

Variable Date_getTime : string -> num.

Local Abbreviation aggregate := (aggregateData Date_getTime).
Local Abbreviation process := (processDataForML Date_getTime).

Lemma aggregated_finite_levels
  (soilMoisture temperature fireIndex seaLevel glacierMelting
     : list Sample) :
  finite_values soilMoisture -> finite_values temperature ->
  finite_values fireIndex -> finite_values seaLevel ->
  finite_values glacierMelting ->
  finite_levels (aggregate soilMoisture temperature fireIndex seaLevel
                           glacierMelting).
Proof.
  intros H1 H2 H3 H4 H5. unfold aggregateData, cleanData. cbv zeta.
  unfold finite_levels.
  cbn [pf_soilMoisture pf_temperature pf_fireIndex pf_seaLevel
       pf_glacierMelting].
  destruct (calculateRobustAverage_finite _
              (kept_values_finite (cleanData_keep Date_getTime) _ H1))
    as (a & ->).
  destruct (calculateRobustAverage_finite _
              (kept_values_finite (cleanData_keep Date_getTime) _ H2))
    as (b & ->).
  destruct (calculateRobustAverage_finite _
              (kept_values_finite (cleanData_keep Date_getTime) _ H3))
    as (c & ->).
  destruct (calculateRobustAverage_finite _
              (kept_values_finite (cleanData_keep Date_getTime) _ H4))
    as (d & ->).
  destruct (calculateRobustAverage_finite _
              (kept_values_finite (cleanData_keep Date_getTime) _ H5))
    as (e & ->).
  do 5 eexists; repeat split; reflexivity.
Qed.

Lemma aggregated_scores
  (soilMoisture temperature fireIndex seaLevel glacierMelting
     : list Sample) :
  unit_interval (pf_quality (aggregate soilMoisture temperature fireIndex
                                       seaLevel glacierMelting))
  /\ unit_interval
       (pf_completeness (aggregate soilMoisture temperature fireIndex
                                   seaLevel glacierMelting)).
Proof.
  unfold aggregateData. cbv zeta. cbn [pf_quality pf_completeness].
  unfold Array_length.
  set (counts := [ List.length (cleanData Date_getTime soilMoisture);
                   List.length (cleanData Date_getTime temperature);
                   List.length (cleanData Date_getTime fireIndex);
                   List.length (cleanData Date_getTime seaLevel);
                   List.length (cleanData Date_getTime glacierMelting) ]).
  change [ Num.of_nat _; _; _; _; _ ] with (map Num.of_nat counts).
  split.
  - apply (within_same _ _ _ _ (calculateDataQuality_reference counts)).
    apply quality_reference_basic_range.
  - assert (Hne : counts <> []) by discriminate.
    apply (within_same _ _ _ _
             (calculateDataCompleteness_reference counts Hne)).
    apply completeness_reference_range, Hne.
Qed.

(** X5.  Whatever finite sample values the basic pipeline is given, and
    whatever the coordinates, it returns five features and five statistics
    records; every feature, the quality score and the completeness score
    lie in [0,1]. *)
Theorem basic_pipeline_ranges :
  forall (soilMoisture temperature fireIndex seaLevel glacierMelting
            : list Sample) (latitude longitude : num),
    finite_values soilMoisture -> finite_values temperature ->
    finite_values fireIndex -> finite_values seaLevel ->
    finite_values glacierMelting ->
    let out := process soilMoisture temperature fireIndex seaLevel
                       glacierMelting latitude longitude in
    List.length (nd_features out) = 5%nat
    /\ List.length (nd_statistics out) = 5%nat
    /\ Forall unit_interval (nd_features out)
    /\ unit_interval (nd_quality out)
    /\ unit_interval (nd_completeness out).
Proof.
  intros soilMoisture temperature fireIndex seaLevel glacierMelting
         latitude longitude H1 H2 H3 H4 H5 out.
  pose proof (aggregated_finite_levels _ _ _ _ _ H1 H2 H3 H4 H5) as Hfin.
  pose proof (aggregated_scores soilMoisture temperature fireIndex seaLevel
                                glacierMelting) as (Hq & Hc).
  unfold out, processDataForML. cbv zeta.
  split; [reflexivity|]. split; [reflexivity|].
  split; [apply normalized_unit_interval, adjusted_finite_levels, Hfin|].
  split.
  - unfold normalizeFeatures. cbn [nd_quality].
    rewrite adjust_keeps_quality. exact Hq.
  - unfold normalizeFeatures. cbn [nd_completeness].
    replace (pf_completeness (adjustForGeographicContext _ _ _))
      with (pf_completeness (aggregate soilMoisture temperature fireIndex
                                       seaLevel glacierMelting)).
    + exact Hc.
    + unfold adjustForGeographicContext. cbv zeta.
      destruct (isDesertRegion latitude longitude),
               (isPolarRegion latitude longitude),
               (isCoastalRegion latitude longitude); reflexivity.
Qed.

End BasicPipeline.

Lemma five_samples_finite : finite_values five_samples.
Proof. repeat constructor. Qed.

Lemma basic_pipeline_ranges_witness :
  Forall unit_interval
         (nd_features
            (processDataForML example_getTime five_samples five_samples
               five_samples [] [] (Fin 13.75) (Fin 100.5))).
Proof.
  pose proof (basic_pipeline_ranges example_getTime five_samples
                five_samples five_samples [] [] (Fin 13.75) (Fin 100.5)
                five_samples_finite five_samples_finite five_samples_finite
                (Forall_nil _) (Forall_nil _)) as H.
  cbv zeta in H. destruct H as (_ & _ & H & _). exact H.
Defined.

(* ================================================================== *)
(** ** Geographic rows of the basic pipeline *)
(* ================================================================== *)

Ltac slot_bounds :=
  rewrite ?Math_min_fin, ?Math_max_fin, ?normalize_slot_fin
    by (vm_compute; discriminate);
  cbv zeta;
  eexists; (split; [reflexivity|]);
  qcases; qprop; qinv; lra.

Section BasicRows.

Variable Date_getTime : string -> num.

Local Abbreviation process := (processDataForML Date_getTime).

(** At coordinates classified as desert the basic pipeline, given
    finite sample values, returns soil moisture at most 0.15, temperature
    at least 15/22 (25 degrees on the -50..60 scale), fire index at least
    0.6 and glacier melting 0; sea level is 0 unless the point is also
    classified as coastal, where it is at least 0.05. *)
Lemma desert_row :
  forall (soilMoisture temperature fireIndex seaLevel glacierMelting
            : list Sample) (latitude longitude : num),
    finite_values soilMoisture -> finite_values temperature ->
    finite_values fireIndex -> finite_values seaLevel ->
    finite_values glacierMelting ->
    isDesertRegion latitude longitude = true ->
    let out := nd_features (process soilMoisture temperature fireIndex
                              seaLevel glacierMelting latitude longitude) in
    within 0 0.15 (at_index out 0)
    /\ within (15 # 22) 1 (at_index out 1)
    /\ within 0.6 1 (at_index out 2)
    /\ (if isCoastalRegion latitude longitude
        then within 0.05 1 (at_index out 3)
        else within 0 0 (at_index out 3))
    /\ within 0 0 (at_index out 4).
Proof.
  intros soilMoisture temperature fireIndex seaLevel glacierMelting
         latitude longitude H1 H2 H3 H4 H5 Hdesert out.
  destruct (aggregated_finite_levels Date_getTime _ _ _ _ _ H1 H2 H3 H4 H5)
    as (a & b & c & d & e & Ha & Hb & Hc & Hd & He).
  unfold out, processDataForML, adjustForGeographicContext. cbv zeta.
  rewrite Hdesert, (desert_not_polar _ _ Hdesert).
  destruct (isCoastalRegion latitude longitude);
    unfold normalizeFeatures, at_index;
    cbn [nd_features map nth pf_soilMoisture pf_temperature pf_fireIndex
         pf_seaLevel pf_glacierMelting];
    rewrite ?Ha, ?Hb, ?Hc, ?Hd, ?He;
    repeat split; slot_bounds.
Qed.

(** At coordinates classified as polar the basic pipeline, given
    finite sample values, returns soil moisture at most 0.4, temperature at
    most 13/22 (15 degrees on the -50..60 scale), fire index at most 0.3
    and glacier melting at least 0.25; sea level is 0 unless the point is
    also classified as coastal, where it is at least 0.05. *)
Lemma polar_row :
  forall (soilMoisture temperature fireIndex seaLevel glacierMelting
            : list Sample) (latitude longitude : num),
    finite_values soilMoisture -> finite_values temperature ->
    finite_values fireIndex -> finite_values seaLevel ->
    finite_values glacierMelting ->
    isPolarRegion latitude longitude = true ->
    let out := nd_features (process soilMoisture temperature fireIndex
                              seaLevel glacierMelting latitude longitude) in
    within 0 0.4 (at_index out 0)
    /\ within 0 (13 # 22) (at_index out 1)
    /\ within 0 0.3 (at_index out 2)
    /\ (if isCoastalRegion latitude longitude
        then within 0.05 1 (at_index out 3)
        else within 0 0 (at_index out 3))
    /\ within 0.25 1 (at_index out 4).
Proof.
  intros soilMoisture temperature fireIndex seaLevel glacierMelting
         latitude longitude H1 H2 H3 H4 H5 Hpolar out.
  destruct (aggregated_finite_levels Date_getTime _ _ _ _ _ H1 H2 H3 H4 H5)
    as (a & b & c & d & e & Ha & Hb & Hc & Hd & He).
  unfold out, processDataForML, adjustForGeographicContext. cbv zeta.
  rewrite Hpolar.
  destruct (isDesertRegion latitude longitude),
           (isCoastalRegion latitude longitude);
    unfold normalizeFeatures, at_index;
    cbn [nd_features map nth pf_soilMoisture pf_temperature pf_fireIndex
         pf_seaLevel pf_glacierMelting];
    rewrite ?Ha, ?Hb, ?Hc, ?Hd, ?He;
    repeat split; slot_bounds.
Qed.

(** X6.  The geographic rows of the basic pipeline, given finite sample
    values.  At coordinates classified as desert: soil moisture at most
    0.15, temperature at least 15/22, fire index at least 0.6, glacier
    melting 0.  At coordinates classified as polar: soil moisture at most
    0.4, temperature at most 13/22, fire index at most 0.3, glacier
    melting at least 0.25.  In both, sea level is 0 unless the point is
    also classified as coastal, where it is at least 0.05. *)
Theorem basic_geographic_rows :
  forall (soilMoisture temperature fireIndex seaLevel glacierMelting
            : list Sample) (latitude longitude : num),
    finite_values soilMoisture -> finite_values temperature ->
    finite_values fireIndex -> finite_values seaLevel ->
    finite_values glacierMelting ->
    let out := nd_features (process soilMoisture temperature fireIndex
                              seaLevel glacierMelting latitude longitude) in
    let sea :=
      if isCoastalRegion latitude longitude
      then within 0.05 1 (at_index out 3)
      else within 0 0 (at_index out 3) in
    (isDesertRegion latitude longitude = true ->
     within 0 0.15 (at_index out 0)
     /\ within (15 # 22) 1 (at_index out 1)
     /\ within 0.6 1 (at_index out 2)
     /\ sea
     /\ within 0 0 (at_index out 4))
    /\ (isPolarRegion latitude longitude = true ->
        within 0 0.4 (at_index out 0)
        /\ within 0 (13 # 22) (at_index out 1)
        /\ within 0 0.3 (at_index out 2)
        /\ sea
        /\ within 0.25 1 (at_index out 4)).
Proof.
  intros soilMoisture temperature fireIndex seaLevel glacierMelting
         latitude longitude H1 H2 H3 H4 H5 out sea.
  split; intro H.
  - apply desert_row; assumption.
  - apply polar_row; assumption.
Qed.

End BasicRows.

(** The Sahara and Svalbard, with readings that the rows override. *)
Lemma basic_geographic_rows_witness :
  isDesertRegion (Fin 23) (Fin 10) = true
  /\ within 0 0.15
       (at_index
          (nd_features
             (processDataForML example_getTime five_samples five_samples
                five_samples [] [] (Fin 23) (Fin 10))) 0)
  /\ isPolarRegion (Fin 78) (Fin 16) = true
  /\ within 0.25 1
       (at_index
          (nd_features
             (processDataForML example_getTime five_samples five_samples
                five_samples [] [] (Fin 78) (Fin 16))) 4).
Proof.
  split; [reflexivity|].
  pose proof (basic_geographic_rows example_getTime five_samples
                five_samples five_samples [] [] (Fin 23) (Fin 10)
                five_samples_finite five_samples_finite five_samples_finite
                (Forall_nil _) (Forall_nil _)) as Hd.
  pose proof (basic_geographic_rows example_getTime five_samples
                five_samples five_samples [] [] (Fin 78) (Fin 16)
                five_samples_finite five_samples_finite five_samples_finite
                (Forall_nil _) (Forall_nil _)) as Hp.
  cbv zeta in Hd, Hp.
  destruct Hd as (Hd & _). destruct Hp as (_ & Hp).
  destruct (Hd eq_refl) as (Hsoil & _).
  destruct (Hp eq_refl) as (_ & _ & _ & _ & Hglacier).
  repeat split; assumption.
Defined.

(** X7.  At coordinates that none of the five region tests accepts, both
    geographic adjustments return their input: the basic one for every
    feature record, the enhanced one for every record whose [allFeatures]
    is the concatenation of its six groups. *)
Theorem adjustment_outside_regions :
  forall (latitude longitude : num),
    isDesertRegion latitude longitude = false ->
    isPolarRegion latitude longitude = false ->
    isCoastalRegion latitude longitude = false ->
    isTropicalRegion latitude longitude = false ->
    isMountainousRegion latitude longitude = false ->
    (forall f, adjustForGeographicContext f latitude longitude = f)
    /\ (forall f, well_formed f ->
                  adjustForGeographicContextEnhanced f latitude longitude
                  = f).
Proof.
  intros latitude longitude Hd Hp Hc Ht Hm. split.
  - intro f. unfold adjustForGeographicContext. cbv zeta.
    rewrite Hd, Hp, Hc. reflexivity.
  - intros f (_ & _ & Hall).
    unfold adjustForGeographicContextEnhanced. cbv zeta.
    rewrite Hd, Hp, Hc, Ht, Hm. rewrite <- Hall.
    destruct f; reflexivity.
Qed.

(** The Urals: no desert, pole, coast, tropic or mountain range of the
    tables. *)
Lemma adjustment_outside_regions_witness :
  adjustForGeographicContextEnhanced example_aggregated (Fin 55) (Fin 60)
  = example_aggregated.
Proof.
  destruct (adjustment_outside_regions (Fin 55) (Fin 60)
              eq_refl eq_refl eq_refl eq_refl eq_refl) as (_ & H).
  apply H. apply aggregate_well_formed.
Defined.

(* ================================================================== *)
(** ** Temporal statistics *)
(* ================================================================== *)

Lemma within_list (lo hi : Q) (xs : list num) :
  Forall (within lo hi) xs ->
  exists qs, xs = map Fin qs /\ Forall (fun q => (lo <= q <= hi)%Q) qs.
Proof.
  induction 1 as [|x xs (q & -> & Hq) _ (qs & -> & Hqs)].
  - exists []. split; constructor.
  - exists (q :: qs). split; [reflexivity | constructor; assumption].
Qed.

Section ExtremeValues.

Variable Math_sqrt : num -> num.

(** X10.  The share of extreme values is a fraction in [0,1] for every
    array, whatever its values and whatever the square root returns: it is
    a count of selected elements divided by the count of all of them, and
    0 for the empty array. *)
Theorem extreme_share_range :
  forall (values : list num),
    unit_interval (calculateExtremeValues Math_sqrt values)
    /\ calculateExtremeValues Math_sqrt [] = Fin 0.
Proof.
  intro values. split; [|reflexivity].
  unfold calculateExtremeValues.
  destruct (Nat.eqb (List.length values) 0) eqn:E.
  - exists 0%Q. split; [reflexivity | lra].
  - apply Nat.eqb_neq in E. cbv zeta.
    set (kept := filter _ values).
    assert (Hk : (List.length kept <= List.length values)%nat)
      by apply filter_length_le.
    unfold Array_length, Num.of_nat.
    fold (Q_of_nat (List.length kept)).
    fold (Q_of_nat (List.length values)).
    rewrite div_fin by (apply Q_of_nat_nonzero; lia).
    eexists. split; [reflexivity|]. apply ratio_range; lia.
Qed.

End ExtremeValues.

(* ================================================================== *)
(** ** The basic models *)
(* ================================================================== *)

Lemma count_positive_fin (features : list num) :
  count_positive features
  = Fin (Q_of_nat
           (List.length (filter (fun f => f >? Fin 0) features))).
Proof. reflexivity. Qed.

(** [Math.min(0.95, base + share * weight)] for a non-negative share. *)
Lemma capped_confidence (base weight share : Q) :
  (0 <= base <= 0.95)%Q -> (0 <= weight)%Q -> (0 <= share)%Q ->
  within base 0.95
         (Math_min (Fin 0.95) (Fin base + Fin share * Fin weight)).
Proof.
  intros Hb Hw Hs. cbn [Num.mul Num.add]. rewrite Math_min_fin.
  eexists. split; [reflexivity|].
  assert (0 <= share * weight)%Q by (apply Qmult_le_0_compat; lra).
  qcases; qprop; lra.
Qed.

Lemma positive_share (features : list num) (d : Q) :
  (0 < d)%Q ->
  exists share,
    count_positive features / Fin d = Fin share /\ (0 <= share)%Q.
Proof.
  intro Hd. rewrite count_positive_fin. rewrite div_fin by lra.
  eexists. split; [reflexivity|].
  apply Qle_shift_div_l; [exact Hd|].
  pose proof (Q_of_nat_nonneg
                (List.length (filter (fun f => f >? Fin 0) features))).
  lra.
Qed.

(** X11.  For every trained network and every feature array, the linear
    model's confidence lies in [0.6, 0.95] and the neural model's in
    [0.7, 0.95]; each risk lies in [0,1] unless the network's output is
    NaN. *)
Theorem network_models_ranges :
  forall (lin : LinearRegressionModel) (nn : NeuralNetworkModel)
         (features : list num),
    let p := LinearRegressionModel_predict lin features in
    let q := NeuralNetworkModel_predict nn features in
    within 0.6 0.95 (mp_confidence p)
    /\ within 0.7 0.95 (mp_confidence q)
    /\ (Num.isNaN (lin_droughtModel lin features) = false ->
        unit_interval (mp_droughtRisk p))
    /\ (Num.isNaN (lin_floodModel lin features) = false ->
        unit_interval (mp_floodRisk p))
    /\ (Num.isNaN (nn_droughtModel nn features) = false ->
        unit_interval (mp_droughtRisk q))
    /\ (Num.isNaN (nn_floodModel nn features) = false ->
        unit_interval (mp_floodRisk q)).
Proof.
  intros lin nn features p q.
  unfold p, q, LinearRegressionModel_predict, NeuralNetworkModel_predict.
  cbv zeta. cbn [mp_confidence mp_droughtRisk mp_floodRisk].
  destruct (positive_share features 5) as (share & -> & Hs); [lra|].
  split; [apply capped_confidence; lra|].
  split; [apply capped_confidence; lra|].
  repeat split; apply clamp01_unit.
Qed.

Lemma network_models_ranges_witness :
  unit_interval
    (mp_droughtRisk
       (LinearRegressionModel_predict example_linear [Fin 0.5; Fin 0.5])).
Proof.
  destruct (network_models_ranges example_linear example_neural
              [Fin 0.5; Fin 0.5]) as (_ & _ & H & _).
  apply H. reflexivity.
Defined.

(* ================================================================== *)
(** ** The random forest *)
(* ================================================================== *)


Section Forest.

Variable Math_sqrt : num -> num.


End Forest.


(* ================================================================== *)
(** ** The enhanced models *)
(* ================================================================== *)






(* ================================================================== *)
(** ** Cleaning *)
(* ================================================================== *)

Lemma filter_twice (A : Type) (f g : A -> bool) (l : list A) :
  filter f (filter g l) = filter (fun x => g x && f x) l.
Proof.
  induction l as [|x l IH]; [reflexivity|]. cbn [filter].
  destruct (g x); cbn [filter andb]; [destruct (f x)|]; rewrite IH;
    reflexivity.
Qed.

Section CleaningRelation.

Variable Date_getTime : string -> num.
Variable Date_getFullYear : string -> num.
Variable now_getFullYear : num.

(** X15.  The enhanced cleaning is the basic cleaning followed by the age
    test: it keeps, in their order, the samples that the basic cleaning
    keeps and whose calendar year is at most 10 years from the current
    one; so it never keeps more samples than the basic cleaning, which
    never keeps more than it is given. *)
Theorem enhanced_cleaning_refines_basic :
  forall (data : list Sample),
    let recent item :=
      negb (Math_abs (now_getFullYear
                      - getFullYear Date_getFullYear (timestamp item))
            >? Fin 10) in
    let enhanced :=
      cleanData_of (cleanAndValidateData Date_getTime Date_getFullYear
                                         now_getFullYear data) in
    let basic := cleanData Date_getTime data in
    enhanced = filter recent basic
    /\ (List.length enhanced <= List.length basic)%nat
    /\ (List.length basic <= List.length data)%nat.
Proof.
  intros data recent enhanced basic.
  assert (E : enhanced = filter recent basic).
  { unfold enhanced, basic, cleanAndValidateData, cleanData.
    cbn [cleanData_of]. rewrite filter_twice.
    apply filter_ext. intro item.
    unfold cleanAndValidateData_keep, cleanData_keep, recent. cbv zeta.
    repeat match goal with
           | |- context [if ?c then false else _] =>
               destruct c; cbn [andb]; try reflexivity
           end. }
  split; [exact E|]. split.
  - rewrite E. apply filter_length_le.
  - apply filter_length_le.
Qed.

End CleaningRelation.

(* ================================================================== *)
(** ** Scores of the enhanced aggregation *)
(* ================================================================== *)

Lemma mean_of_within (xs : list num) (lo hi : Q) :
  xs <> [] -> Forall (within lo hi) xs ->
  within lo hi (Array_sum xs / Array_length xs).
Proof.
  intros Hne H.
  destruct (within_list _ _ _ H) as (qs & -> & Hqs).
  assert (Hq : qs <> []) by (intro E; apply Hne; rewrite E; reflexivity).
  apply (within_same _ _ _ _ (sum_over_length qs Hq)).
  apply Qmean_bounds; assumption.
Qed.

Lemma capped_ratio (k : nat) (d : Q) :
  (0 < d)%Q -> unit_interval (Math_min (Fin 1) (Num.of_nat k / Fin d)).
Proof.
  intro Hd. unfold Num.of_nat. fold (Q_of_nat k).
  rewrite div_fin by lra. rewrite Math_min_fin.
  pose proof (Q_of_nat_nonneg k) as Hk.
  assert (H : (0 <= Q_of_nat k / d)%Q) by (apply Qle_shift_div_l; lra).
  eexists. split; [reflexivity|]. qcases; qprop; lra.
Qed.

Lemma mean_with_NaN (xs : list num) :
  In NaN xs -> Array_sum xs / Array_length xs = NaN.
Proof.
  intro H. apply in_split in H. destruct H as (l1 & l2 & ->).
  rewrite Array_sum_NaN. reflexivity.
Qed.

Section EnhancedScores.

Variable Math_sqrt : num -> num.
Variable Date_getTime : string -> num.
Variable Date_getFullYear : string -> num.
Variable now_getFullYear : num.

Local Abbreviation aggregate_enhanced :=
  (aggregateDataWithTimeSeries Math_sqrt Date_getTime Date_getFullYear
                               now_getFullYear).

Lemma empty_signal_quality
  (soilMoisture temperature fireIndex seaLevel glacierMelting
     : list Sample) :
  In [] [soilMoisture; temperature; fireIndex; seaLevel; glacierMelting] ->
  epf_quality (aggregate_enhanced soilMoisture temperature fireIndex
                                  seaLevel glacierMelting) = NaN.
Proof.
  intro H. unfold aggregateDataWithTimeSeries. cbv zeta.
  cbn [epf_quality]. apply mean_with_NaN.
  destruct H as [-> | [-> | [-> | [-> | [-> | []]]]]].
  - left. reflexivity.
  - right. left. reflexivity.
  - do 2 right. left. reflexivity.
  - do 3 right. left. reflexivity.
  - do 4 right. left. reflexivity.
Qed.

(** X16.  The enhanced aggregation's completeness and data richness lie
    in [0,1] for all inputs.  Its quality lies in [0,1] when the five raw
    arrays are non-empty and is NaN as soon as one of them is empty. *)
Theorem enhanced_scores :
  forall (soilMoisture temperature fireIndex seaLevel glacierMelting
            : list Sample),
    let f := aggregate_enhanced soilMoisture temperature fireIndex
                                seaLevel glacierMelting in
    unit_interval (epf_completeness f)
    /\ unit_interval (epf_dataRichness f)
    /\ (Forall (fun data => data <> [])
               [soilMoisture; temperature; fireIndex; seaLevel;
                glacierMelting] ->
        unit_interval (epf_quality f))
    /\ (In [] [soilMoisture; temperature; fireIndex; seaLevel;
               glacierMelting] ->
        epf_quality f = NaN).
Proof.
  intros soilMoisture temperature fireIndex seaLevel glacierMelting f.
  split.
  { unfold f, aggregateDataWithTimeSeries. cbv zeta.
    cbn [epf_completeness]. apply mean_of_within; [discriminate|].
    unfold cleanAndValidateData. cbv zeta. cbn [cr_completeness].
    repeat constructor; apply capped_ratio; lra. }
  split.
  { destruct (enhanced_richness_range Math_sqrt Date_getTime
                Date_getFullYear now_getFullYear soilMoisture temperature
                fireIndex seaLevel glacierMelting) as (r & Hr & Hb).
    exists r. split; assumption. }
  split.
  - intro H.
    destruct (enhanced_quality_range Math_sqrt Date_getTime
                Date_getFullYear now_getFullYear soilMoisture temperature
                fireIndex seaLevel glacierMelting H) as (q & Hq & Hb).
    exists q. split; assumption.
  - apply empty_signal_quality.
Qed.

End EnhancedScores.

Lemma enhanced_scores_witness :
  unit_interval
    (epf_quality
       (aggregateDataWithTimeSeries example_sqrt example_getTime
          example_getFullYear example_now five_samples five_samples
          five_samples five_samples five_samples)).
Proof.
  destruct (enhanced_scores example_sqrt example_getTime
              example_getFullYear example_now five_samples five_samples
              five_samples five_samples five_samples) as (_ & _ & H & _).
  apply H. repeat constructor; discriminate.
Defined.

(* ================================================================== *)
(** ** The prediction result *)
(* ================================================================== *)

Lemma dataPoint_entry
  (selected : bool) (samples : list Sample) (i : nat)
  (m0 m1 m2 m3 m4 : num) (rest : list num) :
  (i < 5)%nat ->
  dataPoint selected samples (m0 :: m1 :: m2 :: m3 :: m4 :: rest) i
  = Some (data_entry selected samples (nth i [m0; m1; m2; m3; m4] NaN)).
Proof.
  intro Hi. unfold dataPoint, data_entry. rewrite Array_length_positive.
  destruct (selected && negb (Nat.eqb (List.length samples) 0));
    [|reflexivity].
  destruct i as [|[|[|[|[|i]]]]]; try lia; reflexivity.
Qed.

Lemma collected_entries
  (features : DataFeatures)
  (soilMoisture temperature fireIndex seaLevel glacierMelting
     : list Sample)
  (m0 m1 m2 m3 m4 : num) (rest : list num) :
  collect_dataPoints features soilMoisture temperature fireIndex seaLevel
    glacierMelting (m0 :: m1 :: m2 :: m3 :: m4 :: rest)
  = Some {| dp_soilMoisture :=
              data_entry (df_soilMoisture features) soilMoisture m0;
            dp_surfaceTemperature :=
              data_entry (df_surfaceTemperature features) temperature m1;
            dp_fireIndex :=
              data_entry (df_fireIndex features) fireIndex m2;
            dp_seaLevel := data_entry (df_seaLevel features) seaLevel m3;
            dp_glacierMelting :=
              data_entry (df_glacierMelting features) glacierMelting m4 |}.
Proof.
  unfold collect_dataPoints.
  rewrite !dataPoint_entry by lia. reflexivity.
Qed.

Lemma normalized_means_levels (features : EnhancedProcessedFeatures) :
  List.length (basicFeatures features) = 5%nat ->
  exists rest,
    map eds_mean (end_statistics (normalizeFeaturesEnhanced features))
    = basicFeatures features ++ rest.
Proof.
  intro H. unfold normalizeFeaturesEnhanced. cbn [end_statistics].
  destruct (basicFeatures features)
    as [|b0 [|b1 [|b2 [|b3 [|b4 [|b5 rest]]]]]]; try discriminate H.
  cbn. eexists. reflexivity.
Qed.

Section Result.

Variable Math_sqrt : num -> num.
Variable Date_getTime : string -> num.
Variable Date_getFullYear : string -> num.
Variable now_getFullYear : num.
Variable mlModelsManager : MLModelsManager.
Variable enhancedMLModelsManager : EnhancedMLModelsManager.

Local Abbreviation run :=
  (runMLPrediction Math_sqrt Date_getTime Date_getFullYear now_getFullYear
                   mlModelsManager enhancedMLModelsManager).

Lemma returned_result_facts :
  forall (soilMoisture temperature fireIndex seaLevel glacierMelting
            : list Sample)
         (model : PredictionModel) (features : DataFeatures)
         (latitude longitude : num),
  exists result,
    run soilMoisture temperature fireIndex seaLevel glacierMelting model
        features latitude longitude = Some result
    /\ pr_model result = model
    /\ pr_features result = features
    /\ pr_latitude result = or_zero latitude
    /\ pr_longitude result = or_zero longitude
    /\ level (pr_droughtRisk result)
       = getRiskLevel (probability (pr_droughtRisk result))
    /\ level (pr_floodRisk result)
       = getRiskLevel (probability (pr_floodRisk result))
    /\ confidence (pr_floodRisk result)
       = confidence (pr_droughtRisk result).
Proof.
  intros soilMoisture temperature fireIndex seaLevel glacierMelting model
         features latitude longitude.
  unfold runMLPrediction.
  destruct (enhanced_means_five Math_sqrt Date_getTime Date_getFullYear
              now_getFullYear soilMoisture temperature fireIndex seaLevel
              glacierMelting latitude longitude)
    as (m0 & m1 & m2 & m3 & m4 & rest & He).
  destruct (basic_means_five Date_getTime soilMoisture temperature
              fireIndex seaLevel glacierMelting latitude longitude)
    as (n0 & n1 & n2 & n3 & n4 & rest' & Hb).
  destruct model; cbn [EnhancedMLModelsManager_predict];
    cbv beta iota zeta;
    rewrite ?He, ?Hb, ?collected_entries;
    (eexists; split; [reflexivity|]);
    cbn [pr_model pr_features pr_latitude pr_longitude pr_droughtRisk
         pr_floodRisk level probability confidence];
    repeat split.
Qed.

Lemma returned_data_points :
  forall (soilMoisture temperature fireIndex seaLevel glacierMelting
            : list Sample)
         (model : PredictionModel) (features : DataFeatures)
         (latitude longitude : num) (result : PredictionResult),
    run soilMoisture temperature fireIndex seaLevel glacierMelting model
        features latitude longitude = Some result ->
    let a :=
      adjustForGeographicContext
        (aggregateData Date_getTime soilMoisture temperature fireIndex
                       seaLevel glacierMelting) latitude longitude in
    let b :=
      basicFeatures
        (adjustForGeographicContextEnhanced
           (aggregateDataWithTimeSeries Math_sqrt Date_getTime
              Date_getFullYear now_getFullYear soilMoisture temperature
              fireIndex seaLevel glacierMelting) latitude longitude) in
    let entries v0 v1 v2 v3 v4 :=
      {| dp_soilMoisture :=
           data_entry (df_soilMoisture features) soilMoisture v0;
         dp_surfaceTemperature :=
           data_entry (df_surfaceTemperature features) temperature v1;
         dp_fireIndex := data_entry (df_fireIndex features) fireIndex v2;
         dp_seaLevel := data_entry (df_seaLevel features) seaLevel v3;
         dp_glacierMelting :=
           data_entry (df_glacierMelting features) glacierMelting v4 |} in
    pr_dataPoints result
    = match model with
      | linear | random_forest =>
          entries (pf_soilMoisture a) (pf_temperature a) (pf_fireIndex a)
                  (pf_seaLevel a) (pf_glacierMelting a)
      | neural | ensemble =>
          entries (at_index b 0) (at_index b 1) (at_index b 2)
                  (at_index b 3) (at_index b 4)
      end.
Proof.
  intros soilMoisture temperature fireIndex seaLevel glacierMelting model
         features latitude longitude result Hrun a b entries.
  assert (Hlen : List.length b = 5%nat)
    by (apply adjusted_basic_length; reflexivity).
  destruct (normalized_means_levels
              (adjustForGeographicContextEnhanced
                 (aggregateDataWithTimeSeries Math_sqrt Date_getTime
                    Date_getFullYear now_getFullYear soilMoisture
                    temperature fireIndex seaLevel glacierMelting)
                 latitude longitude))
    as (rest & He); [exact Hlen|].
  fold b in He.
  assert (Hb : map ds_mean
                   (nd_statistics
                      (processDataForML Date_getTime soilMoisture
                         temperature fireIndex seaLevel glacierMelting
                         latitude longitude))
               = [pf_soilMoisture a; pf_temperature a; pf_fireIndex a;
                  pf_seaLevel a; pf_glacierMelting a]) by reflexivity.
  unfold runMLPrediction in Hrun. unfold processDataForEnhancedML in Hrun.
  destruct b as [|b0 [|b1 [|b2 [|b3 [|b4 [|b5 b]]]]]];
    try discriminate Hlen.
  cbn [app] in He.
  destruct model; cbn [EnhancedMLModelsManager_predict] in Hrun;
    cbv beta iota zeta in Hrun;
    rewrite ?He, ?Hb, ?collected_entries in Hrun;
    apply Some_eq in Hrun; subst result; reflexivity.
Qed.

(** X17.  [runMLPrediction] returns a result for every input, model and
    toggle set: it never throws.  The result echoes the model and the
    toggles, carries the coordinates with [|| 0] applied, gives each risk
    the level that [getRiskLevel] assigns to its probability, and gives
    the flood risk the confidence of the drought risk. *)
Theorem prediction_always_returns :
  forall (soilMoisture temperature fireIndex seaLevel glacierMelting
            : list Sample)
         (model : PredictionModel) (features : DataFeatures)
         (latitude longitude : num),
  exists result,
    run soilMoisture temperature fireIndex seaLevel glacierMelting model
        features latitude longitude = Some result
    /\ pr_model result = model
    /\ pr_features result = features
    /\ pr_latitude result = or_zero latitude
    /\ pr_longitude result = or_zero longitude
    /\ level (pr_droughtRisk result)
       = getRiskLevel (probability (pr_droughtRisk result))
    /\ level (pr_floodRisk result)
       = getRiskLevel (probability (pr_floodRisk result))
    /\ confidence (pr_floodRisk result)
       = confidence (pr_droughtRisk result).
Proof. exact returned_result_facts. Qed.

(** X18.  In the returned result a data point is present exactly when its
    toggle is on and the raw array of its signal is non-empty, whatever
    the cleaning keeps of that array; its value is the level feature after
    the geographic adjustment and before normalization: the adjusted
    robust average on the basic path, the adjusted mean on the enhanced
    path. *)
Theorem data_points_values :
  forall (soilMoisture temperature fireIndex seaLevel glacierMelting
            : list Sample)
         (model : PredictionModel) (features : DataFeatures)
         (latitude longitude : num) (result : PredictionResult),
    run soilMoisture temperature fireIndex seaLevel glacierMelting model
        features latitude longitude = Some result ->
    let a :=
      adjustForGeographicContext
        (aggregateData Date_getTime soilMoisture temperature fireIndex
                       seaLevel glacierMelting) latitude longitude in
    let b :=
      basicFeatures
        (adjustForGeographicContextEnhanced
           (aggregateDataWithTimeSeries Math_sqrt Date_getTime
              Date_getFullYear now_getFullYear soilMoisture temperature
              fireIndex seaLevel glacierMelting) latitude longitude) in
    let entries v0 v1 v2 v3 v4 :=
      {| dp_soilMoisture :=
           data_entry (df_soilMoisture features) soilMoisture v0;
         dp_surfaceTemperature :=
           data_entry (df_surfaceTemperature features) temperature v1;
         dp_fireIndex := data_entry (df_fireIndex features) fireIndex v2;
         dp_seaLevel := data_entry (df_seaLevel features) seaLevel v3;
         dp_glacierMelting :=
           data_entry (df_glacierMelting features) glacierMelting v4 |} in
    pr_dataPoints result
    = match model with
      | linear | random_forest =>
          entries (pf_soilMoisture a) (pf_temperature a) (pf_fireIndex a)
                  (pf_seaLevel a) (pf_glacierMelting a)
      | neural | ensemble =>
          entries (at_index b 0) (at_index b 1) (at_index b 2)
                  (at_index b 3) (at_index b 4)
      end.
Proof. exact returned_data_points. Qed.

End Result.

(** X19.  The basic registry's neural and ensemble models are never
    consulted: two registries with the same linear model and the same
    random forest give the same result on every input and every model
    identifier; and for the identifiers [linear] and [random_forest] the
    result depends neither on the enhanced registry nor on the calendar
    year. *)
Theorem prediction_routing :
  forall (Math_sqrt : num -> num) (Date_getTime : string -> num)
         (Date_getFullYear Date_getFullYear' : string -> num)
         (now_getFullYear now_getFullYear' : num)
         (manager manager' : MLModelsManager)
         (enhanced enhanced' : EnhancedMLModelsManager)
         (soilMoisture temperature fireIndex seaLevel glacierMelting
            : list Sample)
         (model : PredictionModel) (features : DataFeatures)
         (latitude longitude : num),
    (mgr_linear manager = mgr_linear manager' ->
     mgr_random_forest manager = mgr_random_forest manager' ->
     runMLPrediction Math_sqrt Date_getTime Date_getFullYear
       now_getFullYear manager enhanced soilMoisture temperature fireIndex
       seaLevel glacierMelting model features latitude longitude
     = runMLPrediction Math_sqrt Date_getTime Date_getFullYear
         now_getFullYear manager' enhanced soilMoisture temperature
         fireIndex seaLevel glacierMelting model features latitude
         longitude)
    /\ (model = linear \/ model = random_forest ->
        runMLPrediction Math_sqrt Date_getTime Date_getFullYear
          now_getFullYear manager enhanced soilMoisture temperature
          fireIndex seaLevel glacierMelting model features latitude
          longitude
        = runMLPrediction Math_sqrt Date_getTime Date_getFullYear'
            now_getFullYear' manager enhanced' soilMoisture temperature
            fireIndex seaLevel glacierMelting model features latitude
            longitude).
Proof.
  intros Math_sqrt Date_getTime Date_getFullYear Date_getFullYear'
         now_getFullYear now_getFullYear' manager manager' enhanced
         enhanced' soilMoisture temperature fireIndex seaLevel
         glacierMelting model features latitude longitude.
  split.
  - intros Hl Hf. unfold runMLPrediction.
    destruct model; cbv beta iota zeta; cbn [MLModelsManager_predict];
      rewrite ?Hl, ?Hf; reflexivity.
  - intros [-> | ->]; reflexivity.
Qed.

Lemma data_points_values_witness :
  exists result,
    runMLPrediction example_sqrt example_getTime example_getFullYear
      example_now example_manager example_enhanced_manager
      five_samples five_samples five_samples five_samples five_samples
      linear example_features (Fin 20) (Fin 10) = Some result
    /\ dp_soilMoisture (pr_dataPoints result) = Some (Fin 15)
    /\ dp_seaLevel (pr_dataPoints result) = None.
Proof.
  destruct (runMLPrediction example_sqrt example_getTime
              example_getFullYear example_now example_manager
              example_enhanced_manager five_samples five_samples
              five_samples five_samples five_samples linear
              example_features (Fin 20) (Fin 10)) as [result|] eqn:E;
    [|vm_compute in E; discriminate E].
  exists result. split; [reflexivity|].
  pose proof (data_points_values example_sqrt example_getTime
                example_getFullYear example_now example_manager
                example_enhanced_manager five_samples five_samples
                five_samples five_samples five_samples linear
                example_features (Fin 20) (Fin 10) result E) as H.
  cbv zeta in H. rewrite H. vm_compute. split; reflexivity.
Defined.

(** A registry whose unused models answer differently. *)
Lemma prediction_routing_witness :
  runMLPrediction example_sqrt example_getTime example_getFullYear
    example_now example_manager example_enhanced_manager
    five_samples five_samples [] [] [] ensemble example_features
    (Fin 20) (Fin 10)
  = runMLPrediction example_sqrt example_getTime example_getFullYear
      example_now
      {| mgr_linear := example_linear;
         mgr_neural := {| nn_droughtModel := constant_network 0;
                          nn_floodModel := constant_network 1 |};
         mgr_random_forest := example_forest;
         mgr_ensemble :=
           {| linearModel := example_linear;
              neuralModel := {| nn_droughtModel := constant_network 0;
                                nn_floodModel := constant_network 1 |};
              randomForestModel := {| trees := [] |} |} |}
      example_enhanced_manager
      five_samples five_samples [] [] [] ensemble example_features
      (Fin 20) (Fin 10).
Proof.
  apply (proj1 (prediction_routing example_sqrt example_getTime
                  example_getFullYear example_getFullYear example_now
                  example_now example_manager _ example_enhanced_manager
                  example_enhanced_manager five_samples five_samples [] []
                  [] ensemble example_features (Fin 20) (Fin 10)));
    reflexivity.
Defined.

(* ================================================================== *)
(** ** Helpers *)
(* ================================================================== *)

(** X20.  For bounds [lo <= hi] and a value that is not NaN, [clamp]
    returns a value that [isInRange] accepts, returns its argument when
    that is already in range, and is idempotent; with the bounds 0 and 1
    it agrees with the models' [Math.max(0, Math.min(1, x))]; NaN is
    passed through.  [isValidCoordinates] is [isInRange] of the latitude
    in -90..90 and of the longitude in -180..180. *)
Theorem clamp_in_range :
  forall (v : num) (lo hi : Q),
    (lo <= hi)%Q ->
    (Num.isNaN v = false ->
     isInRange (clamp v (Fin lo) (Fin hi)) (Fin lo) (Fin hi) = true
     /\ (isInRange v (Fin lo) (Fin hi) = true ->
         clamp v (Fin lo) (Fin hi) = v)
     /\ clamp (clamp v (Fin lo) (Fin hi)) (Fin lo) (Fin hi)
        = clamp v (Fin lo) (Fin hi)
     /\ clamp v (Fin 0) (Fin 1) =n= clamp01 v)
    /\ clamp NaN (Fin lo) (Fin hi) = NaN
    /\ (forall lat lng,
          isValidCoordinates lat lng
          = isInRange lat (Fin (-90)) (Fin 90)
            && isInRange lng (Fin (-180)) (Fin 180)).
Proof.
  intros v lo hi Hle. split; [|split].
  - intro Hv. unfold clamp, clamp01, isInRange, Math_min, Math_max.
    destruct v as [q| | |]; try discriminate Hv;
      cbn [Num.isNaN orb Num.ltb Num.leb Num.geb Num.gtb];
      repeat split; try intro H;
      repeat (qcases; cbn [Num.isNaN orb Num.ltb Num.leb Num.geb Num.gtb
                           andb Num.same]);
      try reflexivity; try discriminate;
      try (apply andb_true_iff in H; destruct H);
      qprop; try lra; try (apply andb_true_iff; split; qprop; lra).
  - reflexivity.
  - intros lat lng. unfold isValidCoordinates, isInRange.
    rewrite andb_assoc. reflexivity.
Qed.

Lemma clamp_in_range_witness :
  isInRange (clamp (Fin 250) (Fin (-90)) (Fin 90)) (Fin (-90)) (Fin 90)
  = true.
Proof.
  assert (H : (-90 <= 90)%Q) by (vm_compute; discriminate).
  destruct (clamp_in_range (Fin 250) (-90) 90 H) as (Hc & _).
  apply Hc. reflexivity.
Defined.

Section CleanedSamples.

Variable Date_getTime : string -> num.

Lemma kept_sample_truthy (item : Sample) :
  cleanData_keep Date_getTime item = true ->
  truthy_number (latitude item) = true
  /\ truthy_number (longitude item) = true.
Proof.
  unfold cleanData_keep.
  destruct (truthy_string (timestamp item)),
           (truthy_number (latitude item)),
           (truthy_number (longitude item));
    cbn [negb orb]; intro H; try discriminate H; split; reflexivity.
Qed.

(** X21.  Every sample that the basic cleaning keeps has a non-empty
    timestamp that parses, a latitude within -90..90 and a longitude
    within -180..180, both different from 0; cleaning cleaned data changes
    nothing. *)
Theorem cleaned_samples_valid :
  forall (samples : list Sample),
    Forall (fun item =>
              valid_sample_reference Date_getTime item = true
              /\ truthy_number (latitude item) = true
              /\ truthy_number (longitude item) = true)
           (cleanData Date_getTime samples)
    /\ cleanData Date_getTime (cleanData Date_getTime samples)
       = cleanData Date_getTime samples.
Proof.
  intro samples. split.
  - apply Forall_forall. intros item Hin. unfold cleanData in Hin.
    apply filter_In in Hin. destruct Hin as (_ & Hkeep).
    destruct (kept_sample_truthy item Hkeep) as (Hlat & Hlon).
    rewrite <- (cleanData_keep_nonzero Date_getTime item Hlat Hlon).
    repeat split; assumption.
  - unfold cleanData. rewrite filter_twice. apply filter_ext.
    intro item. apply andb_diag.
Qed.

End CleanedSamples.

(* ================================================================== *)
(** ** The error handler *)
(* ================================================================== *)

Section RetryDelay.

Local Close Scope num_scope.

Lemma nearest_even_small (t : Q) :
  0 <= t <= 1 # 2 -> Binary64.nearest_even t = 0%Z.
Proof.
  intro H. unfold Binary64.nearest_even.
  assert (F : Qfloor t = 0%Z).
  { pose proof (Qfloor_le t) as L. pose proof (Qlt_floor t) as U.
    assert (A : inject_Z (Qfloor t) < inject_Z 1)
      by (change (inject_Z 1) with 1; lra).
    assert (B : inject_Z (-1) < inject_Z (Qfloor t)).
    { rewrite inject_Z_plus in U. change (inject_Z 1) with 1 in U.
      change (inject_Z (-1)) with (-1). lra. }
    rewrite <- Zlt_Qlt in A, B. lia. }
  rewrite F. change (inject_Z 0) with 0.
  destruct (Qcompare (t - 0) (1 # 2)) eqn:C; try reflexivity.
  apply Qgt_alt in C. lra.
Qed.

(** Below the smallest binary64 value a power of two rounds to zero. *)
Lemma round_pow2_underflow (n : Z) :
  (n <= -1075)%Z -> Binary64.round (2 ^ n) = Fin 0.
Proof.
  intro H. pose proof (pow2_pos n) as P.
  assert (NZ : ~ 2 ^ n == 0) by lra.
  assert (A : Qabs (2 ^ n) < 2 ^ (n + 1)).
  { rewrite Qabs_pos by lra. apply pow2_lt. lia. }
  pose proof (round_exponent_le _ n NZ A) as Le.
  pose proof (round_exponent_ge (2 ^ n)) as Ge.
  assert (E : Binary64.round_exponent (2 ^ n) = (-1074)%Z) by lia.
  assert (M : Binary64.round_mantissa (2 ^ n) = 0%Z).
  { unfold Binary64.round_mantissa. rewrite E. apply nearest_even_small.
    assert (T : Qred (2 ^ n) / 2 ^ (-1074) == 2 ^ (n + 1074)).
    { rewrite Qred_correct, pow2_plus.
      change (2 ^ 1074) with (/ 2 ^ (-1074)).
      pose proof (pow2_pos (-1074)). field. lra. }
    rewrite T. split; [apply Qlt_le_weak, pow2_pos|].
    change (1 # 2) with (2 ^ (-1)). apply pow2_le. lia. }
  rewrite round_fin.
  - unfold Binary64.round_value. rewrite M. reflexivity.
  - unfold Binary64.round_value. rewrite M. change (inject_Z 0) with 0.
    rewrite Qmult_0_l. apply pow2_pos.
Qed.

Lemma round_pow2 (n : Z) :
  (-1074 <= n <= 1023)%Z -> Binary64.round (2 ^ n) = Fin (Qred (2 ^ n)).
Proof.
  intro H.
  assert (E : 2 ^ n == inject_Z 1 * 2 ^ n)
    by (change (inject_Z 1) with 1; ring).
  rewrite (round_compat _ _ E), round_exact.
  - rewrite (Qred_complete _ _ E). reflexivity.
  - vm_compute. reflexivity.
  - lia.
  - rewrite <- E, Qabs_pos by (apply Qlt_le_weak, pow2_pos).
    apply pow2_lt. lia.
Qed.

Lemma round_pow2_overflow (n : Z) :
  (1024 <= n)%Z -> Binary64.round (2 ^ n) = PInf.
Proof.
  intro H.
  assert (E : 2 ^ n == inject_Z 1 * 2 ^ n)
    by (change (inject_Z 1) with 1; ring).
  rewrite (round_compat _ _ E). apply round_overflow.
  - lia.
  - lia.
  - rewrite <- E. apply pow2_le. exact H.
Qed.

Lemma thousand_pow2 (n : Z) : 1000 * 2 ^ n == inject_Z 125 * 2 ^ (n + 3).
Proof.
  rewrite pow2_plus. change (2 ^ 3) with 8. change (inject_Z 125) with 125.
  ring.
Qed.

(** What the delay of a retryable error is at every attempt. *)
Lemma retryable_delay (error : ErrorHandler.AppError) (attempt : Z) :
  ErrorHandler.isRetryable error = true ->
  ErrorHandler.getRetryDelay error attempt
  =n= Fin (retry_schedule attempt).
Proof.
  intro Hretry. unfold ErrorHandler.getRetryDelay, ErrorHandler.Math_pow2.
  rewrite Hretry. cbn [negb]. unfold retry_schedule.
  set (n := (attempt - 1)%Z).
  destruct (Z.leb_spec attempt (-1074)) as [U|U].
  - rewrite round_pow2_underflow by lia. vm_compute. reflexivity.
  - destruct (Z_le_gt_dec n 1023) as [R|R].
    + rewrite round_pow2 by lia. unfold Binary64.mul.
      cbn [Num.mul Binary64.round_num].
      assert (E : 1000 * Qred (2 ^ n) == inject_Z 125 * 2 ^ (n + 3))
        by (rewrite Qred_correct; apply thousand_pow2).
      rewrite (round_compat _ _ E).
      destruct (Z_le_gt_dec n 1014) as [S|S].
      * rewrite round_exact.
        -- rewrite Math_min_fin. cbn [Num.same].
           set (p := Qred (inject_Z 125 * 2 ^ (n + 3))).
           assert (Hp : p == 1000 * 2 ^ n)
             by (unfold p; rewrite Qred_correct, thousand_pow2; reflexivity).
           destruct (Z.leb_spec 5 attempt) as [F|F].
           ++ assert (16 <= 2 ^ n).
              { change 16 with (2 ^ 4). apply pow2_le. lia. }
              destruct (Qltb 16000 p) eqn:C; [reflexivity|].
              unfold Qltb in C. apply negb_false_iff, Qle_bool_iff in C. lra.
           ++ assert (2 ^ n <= 8).
              { change 8 with (2 ^ 3). apply pow2_le. lia. }
              destruct (Qltb 16000 p) eqn:C; [|exact Hp].
              unfold Qltb in C. apply negb_true_iff in C.
              apply not_true_iff_false in C. exfalso. apply C.
              apply Qle_bool_iff. lra.
        -- vm_compute. reflexivity.
        -- lia.
        -- rewrite <- thousand_pow2.
           rewrite Qabs_pos
             by (pose proof (pow2_pos n); lra).
           assert (2 ^ n <= 2 ^ 1014) by (apply pow2_le; lia).
           assert (1000 * 2 ^ 1014 < 2 ^ 1024).
           { assert (T : 2 ^ 1024 == 1024 * 2 ^ 1014).
             { change 1024 with (2 ^ 10). rewrite <- pow2_plus.
               reflexivity. }
             rewrite T. pose proof (pow2_pos 1014). lra. }
           lra.
      * rewrite round_overflow.
        -- replace (5 <=? attempt)%Z with true by (symmetry; apply Z.leb_le; lia).
           vm_compute. reflexivity.
        -- lia.
        -- lia.
        -- rewrite <- thousand_pow2.
           assert (2 ^ 1015 <= 2 ^ n) by (apply pow2_le; lia).
           assert (2 ^ 1024 <= 1000 * 2 ^ 1015).
           { assert (T : 2 ^ 1024 == 512 * 2 ^ 1015).
             { change 512 with (2 ^ 9). rewrite <- pow2_plus.
               reflexivity. }
             rewrite T. pose proof (pow2_pos 1015). lra. }
           lra.
    + rewrite round_pow2_overflow by lia.
      replace (5 <=? attempt)%Z with true by (symmetry; apply Z.leb_le; lia).
      vm_compute. reflexivity.
Qed.

Lemma retry_schedule_range (attempt : Z) :
  (0 <= retry_schedule attempt <= 16000)%Q
  /\ ((0 < retry_schedule attempt)%Q <-> (-1073 <= attempt)%Z).
Proof.
  unfold retry_schedule. pose proof (pow2_pos (attempt - 1)) as P.
  destruct (Z.leb_spec attempt (-1074)) as [U|U].
  - split; [lra|]. split; [intro C; lra | intro C; lia].
  - destruct (Z.leb_spec 5 attempt) as [F|F].
    + split; [lra|]. split; [intro; lia | intro; lra].
    + assert (2 ^ (attempt - 1) <= 8)%Q.
      { change 8%Q with (2 ^ 3)%Q. apply pow2_le. lia. }
      split; [lra|]. split; [intro; lia | intro; lra].
Qed.

Lemma retry_schedule_mono (attempt attempt' : Z) :
  (attempt <= attempt')%Z ->
  (retry_schedule attempt <= retry_schedule attempt')%Q.
Proof.
  intro H. destruct (retry_schedule_range attempt') as ((L' & _) & _).
  unfold retry_schedule in *.
  destruct (Z.leb_spec attempt (-1074)) as [U|U]; [exact L'|].
  destruct (Z.leb_spec attempt' (-1074)) as [U'|U']; [lia|].
  destruct (Z.leb_spec 5 attempt) as [F|F].
  - destruct (Z.leb_spec 5 attempt') as [F'|F']; [lra | lia].
  - assert (2 ^ (attempt - 1) <= 8)%Q.
    { change 8%Q with (2 ^ 3)%Q. apply pow2_le. lia. }
    destruct (Z.leb_spec 5 attempt') as [F'|F']; [lra|].
    assert (2 ^ (attempt - 1) <= 2 ^ (attempt' - 1))%Q
      by (apply pow2_le; lia).
    lra.
Qed.

End RetryDelay.

(** X22.  The retry delay of an error that is not retryable is 0.  For a
    retryable one it is a number between 0 and 16000 that never decreases
    with the attempt; it is 1000, 2000, 4000 and 8000 at the attempts 1
    to 4 and 16000 from the fifth attempt on; it is positive from the
    attempt -1073 on, so at every attempt that is counted from 1, and 0
    below, where the power of two underflows. *)
Theorem retry_delay_backoff :
  forall (error : ErrorHandler.AppError) (attempt attempt' : Z),
    (ErrorHandler.isRetryable error = false ->
     ErrorHandler.getRetryDelay error attempt = Fin 0)
    /\ (ErrorHandler.isRetryable error = true ->
        (exists d, ErrorHandler.getRetryDelay error attempt = Fin d
                   /\ (0 <= d <= 16000)%Q
                   /\ ((0 < d)%Q <-> (-1073 <= attempt)%Z))
        /\ ((attempt <= attempt')%Z ->
            (ErrorHandler.getRetryDelay error attempt
             <=? ErrorHandler.getRetryDelay error attempt') = true)
        /\ ((5 <= attempt)%Z ->
            ErrorHandler.getRetryDelay error attempt =n= Fin 16000)
        /\ ErrorHandler.getRetryDelay error 1 =n= Fin 1000
        /\ ErrorHandler.getRetryDelay error 2 =n= Fin 2000
        /\ ErrorHandler.getRetryDelay error 3 =n= Fin 4000
        /\ ErrorHandler.getRetryDelay error 4 =n= Fin 8000).
Proof.
  intros error attempt attempt'. split.
  - intro H. unfold ErrorHandler.getRetryDelay. rewrite H. reflexivity.
  - intro H.
    destruct (same_fin _ _ (retryable_delay error attempt H))
      as (d & Ed & Hd).
    destruct (same_fin _ _ (retryable_delay error attempt' H))
      as (d' & Ed' & Hd').
    pose proof (retry_schedule_range attempt) as R.
    pose proof (retry_schedule_mono attempt attempt') as M.
    split; [|split; [|split]].
    + exists d. split; [exact Ed|]. rewrite Hd. exact R.
    + intro Hle. rewrite Ed, Ed'. cbn [Num.leb]. apply Qle_bool_iff.
      rewrite Hd, Hd'. apply M, Hle.
    + intro H5. rewrite Ed. cbn [Num.same]. rewrite Hd.
      unfold retry_schedule.
      replace (attempt <=? -1074)%Z with false
        by (symmetry; apply Z.leb_gt; lia).
      replace (5 <=? attempt)%Z with true
        by (symmetry; apply Z.leb_le; lia).
      reflexivity.
    + repeat split;
        match goal with
        | |- ErrorHandler.getRetryDelay error ?a =n= _ =>
            apply (same_trans _ _ _ (retryable_delay error a H));
            vm_compute; reflexivity
        end.
Qed.

Lemma retry_delay_backoff_witness :
  ErrorHandler.getRetryDelay
    {| ErrorHandler.code := ErrorHandler.NETWORK_ERROR;
       ErrorHandler.message := ErrorHandler.NETWORK_ERROR_MESSAGE;
       ErrorHandler.details := None;
       ErrorHandler.timestamp := example_timestamp;
       ErrorHandler.stack := None |} 7
  =n= Fin 16000.
Proof.
  destruct (retry_delay_backoff
              {| ErrorHandler.code := ErrorHandler.NETWORK_ERROR;
                 ErrorHandler.message := ErrorHandler.NETWORK_ERROR_MESSAGE;
                 ErrorHandler.details := None;
                 ErrorHandler.timestamp := example_timestamp;
                 ErrorHandler.stack := None |} 7 7) as (_ & H).
  destruct (H eq_refl) as (_ & _ & H5 & _). apply H5. lia.
Defined.

(** X23.  Each handler appends exactly the error it returns to the log,
    stamped with the current time, and leaves the older entries alone.
    Validation, prediction and data-load errors are never retryable; an
    API error is retryable exactly when the failed request got a response
    or was at least sent.  The message shown to the user is the table's
    message for the code, whatever message the handler was given.  A
    cleared log is empty. *)
Theorem error_handlers_log :
  forall (now message : string) (details : option ErrorHandler.Details)
         (failure : ErrorHandler.RequestError)
         (errorLog : list ErrorHandler.AppError),
    let made :=
      [ ErrorHandler.handleValidationError now message details errorLog;
        ErrorHandler.handlePredictionError now message details errorLog;
        ErrorHandler.handleDataLoadError now message details errorLog;
        ErrorHandler.handleApiError now failure errorLog ] in
    Forall (fun r =>
              snd r = errorLog ++ [fst r]
              /\ ErrorHandler.timestamp (fst r) = now
              /\ ErrorHandler.ERROR_MESSAGES (ErrorHandler.code (fst r))
                 = Some (ErrorHandler.getUserFriendlyMessage (fst r)))
           made
    /\ map (fun r => ErrorHandler.isRetryable (fst r)) made
       = [ false; false; false;
           match ErrorHandler.response failure with
           | Some _ => true
           | None => ErrorHandler.request failure
           end ]
    /\ ErrorHandler.getErrorLog (ErrorHandler.clearErrorLog errorLog) = [].
Proof.
  intros now message details failure errorLog made. unfold made.
  split; [|split; [|reflexivity]].
  - repeat constructor;
      try (unfold ErrorHandler.handleApiError;
           destruct (ErrorHandler.response failure) as [r|];
           [|destruct (ErrorHandler.request failure)]);
      reflexivity.
  - cbn [map]. unfold ErrorHandler.handleApiError.
    destruct (ErrorHandler.response failure) as [r|];
      [|destruct (ErrorHandler.request failure)]; reflexivity.
Qed.

(* ================================================================== *)
(** ** The dashboard state *)
(* ================================================================== *)

Lemma results_after_app
  (actions later : list Action) (before : list PredictionResult) :
  results_after (actions ++ later) before
  = results_after later (results_after actions before).
Proof. unfold results_after. apply fold_left_app. Qed.

Lemma results_of_reducer (actions : list Action) (state : DashboardState) :
  predictionResults (fold_left dashboardReducer actions state)
  = results_after actions (predictionResults state).
Proof.
  revert state. induction actions as [|action actions IH]; intro state.
  - reflexivity.
  - cbn [fold_left]. rewrite IH. unfold results_after. cbn [fold_left].
    destruct action; reflexivity.
Qed.

Lemma results_without_clear
  (actions : list Action) (before : list PredictionResult) :
  forallb (fun action => negb (clears action)) actions = true ->
  results_after actions before = rev (added actions) ++ before.
Proof.
  revert before. induction actions as [|action actions IH];
    intros before H; [reflexivity|].
  cbn [forallb] in H. apply andb_true_iff in H. destruct H as (Ha & H).
  unfold results_after in *. cbn [fold_left added flat_map].
  rewrite (IH _ H). fold (added actions).
  destruct action; try discriminate Ha; cbn [app rev];
    rewrite ?app_nil_r, <- ?app_assoc; reflexivity.
Qed.

(** X24.  Replaying actions through the reducer, the list of results
    depends only on the add and clear actions: after a clear and then
    actions without a clear it holds exactly the results added since, the
    newest first; without any clear those come in front of the results
    held before.  The selections are changed by their own actions only. *)
Theorem reducer_results_history :
  forall (actions later : list Action) (state : DashboardState),
    forallb (fun action => negb (clears action)) later = true ->
    predictionResults
      (fold_left dashboardReducer
                 (actions ++ CLEAR_PREDICTION_RESULTS :: later) state)
    = rev (added later)
    /\ predictionResults (fold_left dashboardReducer later state)
       = rev (added later) ++ predictionResults state
    /\ (forall result,
          selectedModel
            (dashboardReducer state (ADD_PREDICTION_RESULT result))
          = selectedModel state
          /\ selectedFeatures
               (dashboardReducer state (ADD_PREDICTION_RESULT result))
             = selectedFeatures state
          /\ selectedLocation
               (dashboardReducer state (ADD_PREDICTION_RESULT result))
             = selectedLocation state).
Proof.
  intros actions later state H. split; [|split].
  - rewrite results_of_reducer, results_after_app.
    change (results_after (CLEAR_PREDICTION_RESULTS :: later)
                          (results_after actions (predictionResults state)))
      with (results_after later []).
    rewrite (results_without_clear later [] H). apply app_nil_r.
  - rewrite results_of_reducer. apply results_without_clear, H.
  - intro result. repeat split.
Qed.

Lemma reducer_results_history_witness :
  predictionResults
    (fold_left dashboardReducer
               [ ADD_PREDICTION_RESULT example_result;
                 CLEAR_PREDICTION_RESULTS; SET_LOADING true;
                 ADD_PREDICTION_RESULT example_result;
                 ADD_PREDICTION_RESULT example_result ] example_state)
  = [example_result; example_result].
Proof.
  apply (reducer_results_history
           [ADD_PREDICTION_RESULT example_result]
           [SET_LOADING true; ADD_PREDICTION_RESULT example_result;
            ADD_PREDICTION_RESULT example_result] example_state).
  reflexivity.
Defined.

Section Hook.

Variable predictDisasters :
  num -> num -> PredictionModel -> DataFeatures -> PredictionResponse.

Local Abbreviation asked state :=
  (predictDisasters (loc_latitude (selectedLocation state))
                    (loc_longitude (selectedLocation state))
                    (selectedModel state) (selectedFeatures state)).

(** X25.  [runPrediction] never changes the selected model, toggles or
    location and always ends with [isLoading] false.  With fewer than two
    toggles on it does not ask for a prediction: the results are kept and
    the error is the fixed request to select two features.  Otherwise a
    successful answer is put in front of the results with no error, as
    the reducer does for the four actions set-loading, set-error,
    add-result, set-loading; a failed answer keeps the results and sets
    the error to the answer's message, or to the default one. *)
Theorem runPrediction_outcome :
  forall (state : DashboardState),
    let final := runPrediction predictDisasters state in
    (selectedModel final = selectedModel state
     /\ selectedFeatures final = selectedFeatures state
     /\ selectedLocation final = selectedLocation state
     /\ isLoading final = false)
    /\ ((selectedFeatureCount (selectedFeatures state) < 2)%nat ->
        predictionResults final = predictionResults state
        /\ error final
           = Some "Please select at least 2 features for prediction"%string)
    /\ ((2 <= selectedFeatureCount (selectedFeatures state))%nat ->
        match asked state with
        | succeeded data =>
            final
            = fold_left dashboardReducer
                        [ SET_LOADING true; SET_ERROR None;
                          ADD_PREDICTION_RESULT data; SET_LOADING false ]
                        state
            /\ predictionResults final = data :: predictionResults state
            /\ error final = None
        | failed e =>
            predictionResults final = predictionResults state
            /\ error final
               = Some (ErrorHandler.or_default
                         e "Error occurred during prediction")
        end).
Proof.
  intros state final. unfold final, runPrediction, runPrediction_finish.
  cbv zeta.
  destruct (Nat.ltb (selectedFeatureCount (selectedFeatures state)) 2)
    eqn:E.
  - apply Nat.ltb_lt in E. repeat split; try reflexivity. lia.
  - apply Nat.ltb_ge in E.
    destruct (asked state) as [data | e]; repeat split; try reflexivity;
      lia.
Qed.

End Hook.

(** One toggle only: the prediction is not asked for. *)
Lemma runPrediction_outcome_witness :
  predictionResults
    (runPrediction (fun _ _ _ _ => succeeded example_result)
                   example_state)
  = predictionResults example_state.
Proof.
  destruct (runPrediction_outcome (fun _ _ _ _ => succeeded example_result)
                                  example_state) as (_ & Hfew & _).
  apply Hfew. vm_compute. lia.
Defined.

(* ================================================================== *)
(** ** The data sources *)
(* ================================================================== *)

Lemma drawn_value (base spread r : Q) :
  (0 <= spread)%Q -> (0 <= r < 1)%Q ->
  within base (base + spread) (Fin base + Fin r * Fin spread).
Proof.
  intros Hs Hr. cbn [Num.mul Num.add]. eexists. split; [reflexivity|].
  assert (H1 : (0 <= r * spread)%Q) by (apply Qmult_le_0_compat; lra).
  assert (H2 : (0 <= (1 - r) * spread)%Q)
    by (apply Qmult_le_0_compat; lra).
  lra.
Qed.

Lemma fetchApod_carries
  (source : Source) (base spread : Q) (lat lon : num) :
  (0 <= spread)%Q -> unit_draws (src_random source) ->
  carries lat lon base (base + spread)
          (data (fetchApod source base spread lat lon)).
Proof.
  intros Hs Hr. unfold fetchApod, carries.
  destruct (src_response source) as [items|]; cbn [data]; [|constructor].
  apply Forall_forall. intros s Hin. apply in_map_iff in Hin.
  destruct Hin as (e & <- & _). cbn [latitude longitude value].
  repeat split. apply drawn_value; [exact Hs | apply Hr].
Qed.

Lemma zero_coordinate_dropped
  (Date_getTime Date_getFullYear : string -> num) (now_getFullYear : num)
  (lat lon : num) (samples : list Sample) :
  Num.truthy lat = false \/ Num.truthy lon = false ->
  Forall (fun s => latitude s = Some lat /\ longitude s = Some lon)
         samples ->
  cleanData Date_getTime samples = []
  /\ cleanData_of (cleanAndValidateData Date_getTime Date_getFullYear
                                        now_getFullYear samples) = [].
Proof.
  intros Hz H.
  assert (Hb : forall s, In s samples ->
                         cleanData_keep Date_getTime s = false
                         /\ cleanAndValidateData_keep
                              Date_getTime Date_getFullYear
                              now_getFullYear s = false).
  { intros s Hin. rewrite Forall_forall in H.
    destruct (H s Hin) as (Hlat & Hlon).
    unfold cleanData_keep, cleanAndValidateData_keep.
    rewrite Hlat, Hlon. cbn [truthy_number].
    destruct Hz as [-> | ->]; cbn [negb orb];
      rewrite ?orb_true_r; split; reflexivity. }
  unfold cleanData, cleanAndValidateData. cbn [cleanData_of].
  split.
  - induction samples as [|s samples IH]; [reflexivity|].
    cbn [filter]. rewrite (proj1 (Hb s (or_introl eq_refl))).
    apply IH.
    + inversion H; assumption.
    + intros s' Hs'. apply Hb. right. exact Hs'.
  - induction samples as [|s samples IH]; [reflexivity|].
    cbn [filter]. rewrite (proj2 (Hb s (or_introl eq_refl))).
    apply IH.
    + inversion H; assumption.
    + intros s' Hs'. apply Hb. right. exact Hs'.
Qed.

Lemma carries_coordinates
  (lat lon : num) (lo hi : Q) (samples : list Sample) :
  carries lat lon lo hi samples ->
  Forall (fun s => latitude s = Some lat /\ longitude s = Some lon)
         samples.
Proof.
  intro H. eapply Forall_impl; [|exact H].
  intros s (H1 & H2 & _). split; assumption.
Qed.

Lemma carries_finite
  (lat lon : num) (lo hi : Q) (samples : list Sample) :
  carries lat lon lo hi samples -> finite_values samples.
Proof.
  intro H. eapply Forall_impl; [|exact H].
  intros s (_ & _ & (q & -> & _)). reflexivity.
Qed.

(** X26.  With draws in [0, 1), every sample that a fetcher returns
    carries the requested coordinates and a value in the fetcher's range:
    soil moisture 50..80, temperature 25..35, fire index 30..70, sea
    level 0..0.5, glacier melting 2..10.  A failed request gives no
    sample, an answered one gives one sample per item, and the glacier
    fetcher always gives ten.  At a latitude or longitude of 0 both
    cleaning steps drop every fetched sample. *)
Theorem fetched_samples :
  forall (Date_getTime Date_getFullYear : string -> num)
         (now_getFullYear : num)
         (source : Source) (lat lon : num),
    unit_draws (src_random source) ->
    let fetched :=
      [ (getSoilMoistureData source lat lon, (50, 80));
        (getSurfaceTemperatureData source lat lon, (25, 35));
        (getFireIndexData source lat lon, (30, 70));
        (getSeaLevelData source lat lon, (0, 0.5));
        (getGlacierData source lat lon, (2, 10)) ]%Q in
    Forall (fun f =>
              carries lat lon (fst (snd f)) (snd (snd f)) (data (fst f))
              /\ (success (fst f) = false -> data (fst f) = [])
              /\ (Num.truthy lat = false \/ Num.truthy lon = false ->
                  cleanData Date_getTime (data (fst f)) = []
                  /\ cleanData_of
                       (cleanAndValidateData Date_getTime
                          Date_getFullYear now_getFullYear
                          (data (fst f))) = []))
           fetched
    /\ (forall items,
          src_response source = Some items ->
          List.length (data (getSoilMoistureData source lat lon))
          = List.length items)
    /\ List.length (data (getGlacierData source lat lon)) = 10%nat.
Proof.
  intros Date_getTime Date_getFullYear now_getFullYear source lat lon Hr
         fetched.
  assert (Hc : Forall (fun f => carries lat lon (fst (snd f))
                                        (snd (snd f)) (data (fst f)))
                      fetched).
  { assert (H30 : (0 <= 30)%Q) by lra.
    assert (H10 : (0 <= 10)%Q) by lra.
    assert (H40 : (0 <= 40)%Q) by lra.
    assert (H05 : (0 <= 0.5)%Q) by lra.
    unfold fetched.
    constructor; [exact (fetchApod_carries source 50 30 lat lon H30 Hr)|].
    constructor; [exact (fetchApod_carries source 25 10 lat lon H10 Hr)|].
    constructor; [exact (fetchApod_carries source 30 40 lat lon H40 Hr)|].
    constructor; [exact (fetchApod_carries source 0 0.5 lat lon H05 Hr)|].
    constructor; [|constructor].
    cbn [fst snd]. unfold getGlacierData, carries. cbn [data].
    apply Forall_forall. intros s Hin. apply in_map_iff in Hin.
    destruct Hin as (i & <- & _). cbn [latitude longitude value].
    repeat split.
    apply (drawn_value 2 8 (src_random source i)); [lra | apply Hr]. }
  split; [|split].
  - apply Forall_forall. intros f Hin.
    rewrite Forall_forall in Hc. specialize (Hc f Hin).
    split; [exact Hc|]. split.
    + unfold fetched in Hin.
      destruct Hin as [<- | [<- | [<- | [<- | [<- | []]]]]];
        cbn [fst];
        try (unfold getSoilMoistureData, getSurfaceTemperatureData,
               getFireIndexData, getSeaLevelData, fetchApod;
             destruct (src_response source); cbn [success data];
             intro H; [discriminate H | reflexivity]).
      intro H. discriminate H.
    + intro Hz.
      apply (zero_coordinate_dropped _ _ _ lat lon _ Hz).
      eapply carries_coordinates, Hc.
  - intros items E.
    unfold getSoilMoistureData, fetchApod. rewrite E. cbn [data].
    rewrite length_map, length_combine, length_seq. apply Nat.min_id.
  - reflexivity.
Qed.

Lemma example_source_draws : unit_draws (src_random example_source).
Proof. intro i. cbn [src_random example_source]. lra. Qed.

(** On the equator the two soil samples of the example source are
    dropped; away from it they are kept. *)
Lemma fetched_samples_witness :
  cleanData example_getTime
            (data (getSoilMoistureData example_source (Fin 0) (Fin 100.5)))
  = []
  /\ List.length
       (cleanData example_getTime
          (data (getSoilMoistureData example_source (Fin 13.75)
                                     (Fin 100.5)))) = 2%nat.
Proof.
  split; [|reflexivity].
  pose proof (fetched_samples example_getTime example_getFullYear
                example_now example_source (Fin 0) (Fin 100.5)
                example_source_draws) as H.
  cbv zeta in H. destruct H as (H & _).
  apply Forall_inv in H. destruct H as (_ & _ & H).
  apply H. left. reflexivity.
Defined.

(* ================================================================== *)
(** ** A prediction from the sources to the dashboard *)
(* ================================================================== *)

Section EndToEnd.

Variable Math_sqrt : num -> num.
Variable Date_getTime : string -> num.
Variable Date_getFullYear : string -> num.
Variable now_getFullYear : num.
Variable mlModelsManager : MLModelsManager.
Variable enhancedMLModelsManager : EnhancedMLModelsManager.
Variable thrown_message : option string.

Local Abbreviation predict :=
  (predictDisasters Math_sqrt Date_getTime Date_getFullYear
                    now_getFullYear mlModelsManager
                    enhancedMLModelsManager thrown_message).

Lemma predictDisasters_facts
  (world : World) (latitude longitude : num) (model : PredictionModel)
  (features : DataFeatures) :
  exists prediction,
    predict world latitude longitude model features = succeeded prediction
    /\ pr_model prediction = model
    /\ pr_features prediction = features
    /\ (df_soilMoisture features = false ->
        dp_soilMoisture (pr_dataPoints prediction) = None)
    /\ (df_surfaceTemperature features = false ->
        dp_surfaceTemperature (pr_dataPoints prediction) = None)
    /\ (df_fireIndex features = false ->
        dp_fireIndex (pr_dataPoints prediction) = None)
    /\ (df_seaLevel features = false ->
        dp_seaLevel (pr_dataPoints prediction) = None)
    /\ (df_glacierMelting features = false ->
        dp_glacierMelting (pr_dataPoints prediction) = None).
Proof.
  unfold predictDisasters. cbv zeta.
  set (soil := data (if df_soilMoisture features then _ else _)).
  set (temp := data (if df_surfaceTemperature features then _ else _)).
  set (fire := data (if df_fireIndex features then _ else _)).
  set (sea := data (if df_seaLevel features then _ else _)).
  set (glacier := data (if df_glacierMelting features then _ else _)).
  destruct (returned_result_facts Math_sqrt Date_getTime Date_getFullYear
              now_getFullYear mlModelsManager enhancedMLModelsManager
              soil temp fire sea glacier model features latitude longitude)
    as (result & Hrun & Hmodel & Hfeatures & _).
  pose proof (returned_data_points Math_sqrt Date_getTime Date_getFullYear
                now_getFullYear mlModelsManager enhancedMLModelsManager
                soil temp fire sea glacier model features latitude
                longitude result Hrun) as Hpoints.
  cbv zeta in Hpoints. rewrite Hrun. exists result.
  split; [reflexivity|]. split; [exact Hmodel|].
  split; [exact Hfeatures|].
  rewrite Hpoints.
  destruct model;
    cbn [dp_soilMoisture dp_surfaceTemperature dp_fireIndex dp_seaLevel
         dp_glacierMelting];
    unfold data_entry; repeat split; intros ->; reflexivity.
Qed.

(** X27.  [predictDisasters] answers with success for every world,
    location, model and toggle set (given trained registries): the
    prediction echoes the model and the toggles, and shows no data point
    for a signal that is switched off.  So [runPrediction] with two or
    more toggles on always puts one new result in front of the results
    and leaves no error. *)
Theorem predictDisasters_succeeds :
  forall (world : World) (state : DashboardState),
  exists prediction,
    predict world (loc_latitude (selectedLocation state))
            (loc_longitude (selectedLocation state))
            (selectedModel state) (selectedFeatures state)
    = succeeded prediction
    /\ pr_model prediction = selectedModel state
    /\ pr_features prediction = selectedFeatures state
    /\ (df_soilMoisture (selectedFeatures state) = false ->
        dp_soilMoisture (pr_dataPoints prediction) = None)
    /\ (df_surfaceTemperature (selectedFeatures state) = false ->
        dp_surfaceTemperature (pr_dataPoints prediction) = None)
    /\ (df_fireIndex (selectedFeatures state) = false ->
        dp_fireIndex (pr_dataPoints prediction) = None)
    /\ (df_seaLevel (selectedFeatures state) = false ->
        dp_seaLevel (pr_dataPoints prediction) = None)
    /\ (df_glacierMelting (selectedFeatures state) = false ->
        dp_glacierMelting (pr_dataPoints prediction) = None)
    /\ ((2 <= selectedFeatureCount (selectedFeatures state))%nat ->
        predictionResults (runPrediction (predict world) state)
        = prediction :: predictionResults state
        /\ error (runPrediction (predict world) state) = None).
Proof.
  intros world state.
  destruct (predictDisasters_facts
              world (loc_latitude (selectedLocation state))
              (loc_longitude (selectedLocation state))
              (selectedModel state) (selectedFeatures state))
    as (prediction & Hp & Hm & Hf & H1 & H2 & H3 & H4 & H5).
  exists prediction. repeat (split; [assumption|]).
  intro Hcount. unfold runPrediction, runPrediction_finish. cbv zeta.
  replace (Nat.ltb (selectedFeatureCount (selectedFeatures state)) 2)
    with false by (symmetry; apply Nat.ltb_ge, Hcount).
  cbn [runPrediction_start selectedLocation selectedModel
       selectedFeatures].
  rewrite Hp. split; reflexivity.
Qed.

End EndToEnd.

Lemma predictDisasters_succeeds_witness :
  exists prediction,
    predictionResults
      (runPrediction
         (predictDisasters example_sqrt example_getTime
            example_getFullYear example_now example_manager
            example_enhanced_manager None example_world)
         {| selectedModel := linear;
            selectedFeatures := example_features;
            selectedLocation := {| loc_latitude := Fin 20;
                                   loc_longitude := Fin 10;
                                   loc_name := "Sahara" |};
            predictionResults := [];
            isLoading := false;
            error := None |})
    = [prediction]
    /\ dp_fireIndex (pr_dataPoints prediction) = None.
Proof.
  destruct (predictDisasters_succeeds example_sqrt example_getTime
              example_getFullYear example_now example_manager
              example_enhanced_manager None example_world
              {| selectedModel := linear;
                 selectedFeatures := example_features;
                 selectedLocation := {| loc_latitude := Fin 20;
                                        loc_longitude := Fin 10;
                                        loc_name := "Sahara" |};
                 predictionResults := [];
                 isLoading := false;
                 error := None |})
    as (prediction & _ & _ & _ & _ & _ & Hfire & _ & _ & Hrun).
  exists prediction. split.
  - apply Hrun. vm_compute. lia.
  - apply Hfire. reflexivity.
Defined.

(* ================================================================== *)
(** ** Training data and the trained forest *)
(* ================================================================== *)

Lemma bind_run (A B : Type) (m : Rand A) (f : A -> Rand B) (n : nat) :
  bind m f n = f (fst (m n)) (snd (m n)).
Proof. unfold bind. destruct (m n). reflexivity. Qed.

Lemma repeatM_spec
  (A : Type) (P : A -> Prop) (m : Rand A) (k : nat) :
  (forall n, P (fst (m n)) /\ snd (m n) = (n + k)%nat) ->
  forall count n,
    Forall P (fst (repeatM count m n))
    /\ List.length (fst (repeatM count m n)) = count
    /\ snd (repeatM count m n) = (n + count * k)%nat.
Proof.
  intros Hm. induction count as [|count IH]; intro n.
  - cbn. repeat split; [constructor | lia].
  - cbn [repeatM]. rewrite !bind_run. cbn [ret fst snd].
    destruct (Hm n) as (Hp & Hn).
    destruct (IH (snd (m n))) as (Hf & Hl & Hs).
    repeat split.
    + constructor; assumption.
    + cbn [List.length]. rewrite Hl. reflexivity.
    + rewrite Hs, Hn. lia.
Qed.

Lemma labelled_weaken
  (dlo dhi flo fhi dlo' dhi' flo' fhi' : Q) (d : TrainingData) :
  (dlo' <= dlo)%Q -> (dhi <= dhi')%Q -> (flo' <= flo)%Q ->
  (fhi <= fhi')%Q ->
  labelled dlo dhi flo fhi d -> labelled dlo' dhi' flo' fhi' d.
Proof.
  intros H1 H2 H3 H4 (Hl & Hf & (a & Ea & Ha) & (b & Eb & Hb)).
  repeat split; try assumption.
  - exists a. split; [exact Ea | lra].
  - exists b. split; [exact Eb | lra].
Qed.

Lemma drawn_between (base spread r lo hi : Q) :
  (0 <= spread)%Q -> (0 <= r < 1)%Q ->
  (lo <= base)%Q -> (base + spread <= hi)%Q ->
  within lo hi (Fin base + Fin r * Fin spread).
Proof.
  intros Hs Hr Hlo Hhi.
  destruct (drawn_value base spread r Hs Hr) as (q & -> & Hq).
  exists q. split; [reflexivity | lra].
Qed.

Section TrainingData.

Variable Math_random : nat -> Q.
Hypothesis draws : unit_draws Math_random.

Ltac example_case :=
  intro n; cbv [bind ret random fst snd];
  split; [|lia];
  unfold labelled; cbn [td_features td_droughtRisk td_floodRisk];
  split; [reflexivity|];
  split; [repeat constructor|];
  split; (apply drawn_between; [lra | apply draws | lra | lra]).

Lemma desertExample_spec (n : nat) :
  labelled 0.8 0.95 0.05 0.15 (fst (desertExample Math_random n))
  /\ snd (desertExample Math_random n) = (n + 5)%nat.
Proof. revert n. unfold desertExample. example_case. Qed.

Lemma coastalExample_spec (n : nat) :
  labelled 0.2 0.6 0.3 0.7 (fst (coastalExample Math_random n))
  /\ snd (coastalExample Math_random n) = (n + 6)%nat.
Proof. revert n. unfold coastalExample. example_case. Qed.

Lemma tropicalExample_spec (n : nat) :
  labelled 0.1 0.4 0.4 0.8 (fst (tropicalExample Math_random n))
  /\ snd (tropicalExample Math_random n) = (n + 5)%nat.
Proof. revert n. unfold tropicalExample. example_case. Qed.

Lemma polarExample_spec (n : nat) :
  labelled 0.1 0.3 0.2 0.5 (fst (polarExample Math_random n))
  /\ snd (polarExample Math_random n) = (n + 6)%nat.
Proof. revert n. unfold polarExample. example_case. Qed.

Lemma riverBasinExample_spec (n : nat) :
  labelled 0.1 0.4 0.4 0.8 (fst (riverBasinExample Math_random n))
  /\ snd (riverBasinExample Math_random n) = (n + 5)%nat.
Proof. revert n. unfold riverBasinExample. example_case. Qed.

Lemma generated_regions (n : nat) :
  exists desert coastal tropical polar riverBasin,
    fst (generateTrainingData Math_random n)
    = desert ++ coastal ++ tropical ++ polar ++ riverBasin
    /\ (List.length desert = 100 /\ List.length coastal = 100
        /\ List.length tropical = 100 /\ List.length polar = 100
        /\ List.length riverBasin = 100)%nat
    /\ Forall (labelled 0.8 0.95 0.05 0.15) desert
    /\ Forall (labelled 0.2 0.6 0.3 0.7) coastal
    /\ Forall (labelled 0.1 0.4 0.4 0.8) tropical
    /\ Forall (labelled 0.1 0.3 0.2 0.5) polar
    /\ Forall (labelled 0.1 0.4 0.4 0.8) riverBasin
    /\ snd (generateTrainingData Math_random n) = (n + 2700)%nat.
Proof.
  unfold generateTrainingData. rewrite !bind_run. cbn [ret fst snd].
  set (r1 := repeatM 100 (desertExample Math_random) n).
  set (r2 := repeatM 100 (coastalExample Math_random) (snd r1)).
  set (r3 := repeatM 100 (tropicalExample Math_random) (snd r2)).
  set (r4 := repeatM 100 (polarExample Math_random) (snd r3)).
  set (r5 := repeatM 100 (riverBasinExample Math_random) (snd r4)).
  destruct (repeatM_spec _ _ _ 5 desertExample_spec 100 n)
    as (F1 & L1 & S1).
  destruct (repeatM_spec _ _ _ 6 coastalExample_spec 100 (snd r1))
    as (F2 & L2 & S2).
  destruct (repeatM_spec _ _ _ 5 tropicalExample_spec 100 (snd r2))
    as (F3 & L3 & S3).
  destruct (repeatM_spec _ _ _ 6 polarExample_spec 100 (snd r3))
    as (F4 & L4 & S4).
  destruct (repeatM_spec _ _ _ 5 riverBasinExample_spec 100 (snd r4))
    as (F5 & L5 & S5).
  fold r1 in F1, L1, S1. fold r2 in F2, L2, S2. fold r3 in F3, L3, S3.
  fold r4 in F4, L4, S4. fold r5 in F5, L5, S5.
  exists (fst r1), (fst r2), (fst r3), (fst r4), (fst r5).
  split; [reflexivity|]. split; [repeat split; assumption|].
  repeat (split; [assumption|]).
  rewrite S5, S4, S3, S2, S1. lia.
Qed.

Lemma generated_labelled (n : nat) :
  Forall (labelled 0.1 0.95 0.05 0.8)
         (fst (generateTrainingData Math_random n))
  /\ List.length (fst (generateTrainingData Math_random n)) = 500%nat.
Proof.
  destruct (generated_regions n)
    as (d & c & t & p & r & -> & (L1 & L2 & L3 & L4 & L5)
        & F1 & F2 & F3 & F4 & F5 & _).
  split.
  - repeat (apply Forall_app; split);
      (eapply Forall_impl; [|eassumption]);
      intro x; apply labelled_weaken; lra.
  - rewrite !length_app. lia.
Qed.

(** X28.  With draws in [0, 1), [generateTrainingData] makes 2700 draws
    and returns 500 examples, one hundred per region in the order desert,
    coastal, tropical, polar, river basin; every example has five finite
    features and labels in its region's ranges: drought 0.8..0.95 and
    flood 0.05..0.15 for the desert, 0.2..0.6 and 0.3..0.7 for the coast,
    0.1..0.4 and 0.4..0.8 for the tropics and the river basins, 0.1..0.3
    and 0.2..0.5 for the poles. *)
Theorem training_data_regions :
  forall (n : nat),
  exists desert coastal tropical polar riverBasin,
    fst (generateTrainingData Math_random n)
    = desert ++ coastal ++ tropical ++ polar ++ riverBasin
    /\ (List.length desert = 100 /\ List.length coastal = 100
        /\ List.length tropical = 100 /\ List.length polar = 100
        /\ List.length riverBasin = 100)%nat
    /\ Forall (labelled 0.8 0.95 0.05 0.15) desert
    /\ Forall (labelled 0.2 0.6 0.3 0.7) coastal
    /\ Forall (labelled 0.1 0.4 0.4 0.8) tropical
    /\ Forall (labelled 0.1 0.3 0.2 0.5) polar
    /\ Forall (labelled 0.1 0.4 0.4 0.8) riverBasin
    /\ snd (generateTrainingData Math_random n) = (n + 2700)%nat.
Proof. exact generated_regions. Qed.

End TrainingData.

Lemma example_draws_unit : unit_draws example_draws.
Proof.
  intro i. unfold example_draws.
  pose proof (Nat.mod_upper_bound i 10) as H.
  assert (Hm : (Nat.modulo i 10 < 10)%nat) by (apply H; lia).
  assert (H0 : (0 <= inject_Z (Z.of_nat (Nat.modulo i 10)))%Q)
    by (change 0%Q with (inject_Z 0); rewrite <- Zle_Qle; lia).
  assert (H1 : (inject_Z (Z.of_nat (Nat.modulo i 10)) < 10)%Q)
    by (change 10%Q with (inject_Z 10); rewrite <- Zlt_Qlt; lia).
  split.
  - apply Qle_shift_div_l; lra.
  - apply Qlt_shift_div_r; lra.
Qed.

Lemma training_data_regions_witness :
  snd (generateTrainingData example_draws 0%nat) = 2700%nat.
Proof.
  destruct (training_data_regions example_draws example_draws_unit 0%nat)
    as (d & c & t & p & r & _ & _ & _ & _ & _ & _ & _ & H).
  exact H.
Defined.

Lemma exclusive_tests (a t : num) : (a <=? t) && (a >? t) = false.
Proof.
  unfold Num.gtb.
  destruct a as [x| | |], t as [y| | |]; cbn [Num.leb Num.ltb andb];
    try reflexivity.
  unfold Qltb. destruct (Qle_bool x y); reflexivity.
Qed.

Lemma filter_exclusive_length
  (A : Type) (p q : A -> bool) (l : list A) :
  (forall x, p x && q x = false) ->
  (List.length (filter p l) + List.length (filter q l)
   <= List.length l)%nat.
Proof.
  intro H. induction l as [|x l IH]; [simpl; lia|].
  cbn [filter]. specialize (H x).
  destruct (p x), (q x); try discriminate H; cbn [List.length]; lia.
Qed.

Section TrainedForest.

Variable Math_random : nat -> Q.

(** [createTree] returns with fuel for the length of its data, and the
    tree it builds has no more leaves than there are examples. *)
Lemma createTree_spec :
  forall (fuel : nat) (data : list TrainingData) (n : nat),
    (List.length data <= fuel)%nat -> data <> [] ->
    exists tree n',
      createTree Math_random fuel data n = (Some tree, n')
      /\ (1 <= List.length (leaves tree) <= List.length data)%nat.
Proof.
  induction fuel as [|fuel IH]; intros data n Hfuel Hne.
  - destruct data; [contradiction | simpl in Hfuel; lia].
  - assert (Hpos : (1 <= List.length data)%nat)
      by (destruct data; [contradiction | simpl; lia]).
    cbn [createTree].
    destruct (Array_length data <? Fin 10).
    { do 2 eexists. split; [reflexivity|]. cbn [averageLeaf leaves
        List.length]. lia. }
    rewrite bind_run. cbn [random fst snd]. cbv zeta.
    rewrite bind_run. cbn [random fst snd].
    set (featureIndex := index_of (Math_floor (Fin (Math_random n)
                                               * Fin 5))).
    set (threshold := _ + Fin (Math_random (S n)) * _).
    set (leftData := filter _ data).
    set (rightData := filter _ data).
    destruct (Nat.eqb (List.length leftData) 0) eqn:El.
    { do 2 eexists. split; [reflexivity|]. cbn [averageLeaf leaves
        List.length]. lia. }
    destruct (Nat.eqb (List.length rightData) 0) eqn:Er.
    { do 2 eexists. split; [reflexivity|]. cbn [averageLeaf leaves
        List.length]. lia. }
    cbn [orb]. apply Nat.eqb_neq in El. apply Nat.eqb_neq in Er.
    assert (Hsum : (List.length leftData + List.length rightData
                    <= List.length data)%nat).
    { apply filter_exclusive_length. intro d. apply exclusive_tests. }
    destruct (IH leftData (S (S n))) as (l & n1 & El' & Hl).
    { lia. }
    { intro E. apply El. rewrite E. reflexivity. }
    destruct (IH rightData n1) as (r & n2 & Er' & Hr).
    { lia. }
    { intro E. apply Er. rewrite E. reflexivity. }
    rewrite bind_run, El'. cbn [fst snd].
    rewrite bind_run, Er'. cbn [fst snd ret].
    do 2 eexists. split; [reflexivity|].
    cbn [leaves]. rewrite length_app. lia.
Qed.

Lemma growTrees_spec (data : list TrainingData) :
  data <> [] ->
  forall (count n : nat),
  exists grown n',
    growTrees Math_random count data n = (Some grown, n')
    /\ List.length grown = count
    /\ Forall (fun tree =>
                 (1 <= List.length (leaves tree) <= List.length data)%nat)
              grown.
Proof.
  intros Hne. induction count as [|count IH]; intro n.
  - exists [], n. repeat split. constructor.
  - cbn [growTrees].
    destruct (createTree_spec (List.length data) data n
                              (Nat.le_refl _) Hne)
      as (tree & n1 & Et & Ht).
    destruct (IH n1) as (grown & n2 & Eg & Hlen & Hg).
    rewrite bind_run, Et. cbn [fst snd].
    rewrite bind_run, Eg. cbn [fst snd ret].
    do 2 eexists. split; [reflexivity|]. split.
    + cbn [List.length]. rewrite Hlen. reflexivity.
    + constructor; assumption.
Qed.

Hypothesis draws : unit_draws Math_random.

(** X29.  With draws in [0, 1), the training that the random forest runs
    before its first prediction ends without running out of fuel,
    whatever the draws were, and grows 50 trees; a tree has at least one
    leaf and no more leaves than the 500 training examples. *)
Theorem trained_forest_shape :
  forall (n : nat),
  exists forest n',
    trainedForest Math_random n = (Some forest, n')
    /\ List.length (trees forest) = 50%nat
    /\ Forall (fun tree => (1 <= List.length (leaves tree) <= 500)%nat)
              (trees forest).
Proof.
  intro n. unfold trainedForest, train. rewrite bind_run.
  destruct (generated_labelled Math_random draws n) as (_ & Hlen).
  set (data := fst (generateTrainingData Math_random n)) in *.
  assert (Hne : data <> []).
  { intro E. rewrite E in Hlen. discriminate Hlen. }
  destruct (growTrees_spec data Hne 50
                           (snd (generateTrainingData Math_random n)))
    as (grown & n' & Eg & Hg & Hw).
  rewrite bind_run, Eg. cbn [fst snd ret].
  do 2 eexists. split; [reflexivity|]. cbn [trees].
  split; [exact Hg|]. rewrite Hlen in Hw. exact Hw.
Qed.

End TrainedForest.

Lemma trained_forest_shape_witness :
  exists forest n',
    trainedForest example_draws 0%nat = (Some forest, n')
    /\ List.length (trees forest) = 50%nat.
Proof.
  destruct (trained_forest_shape example_draws example_draws_unit 0%nat)
    as (forest & n' & E & H & _).
  exists forest, n'. split; assumption.
Defined.

(* ================================================================== *)
(** ** Training data of the enhanced models *)
(* ================================================================== *)

Lemma falls_slowly_values (c : Q) (xs : list num) :
  falls_slowly c xs ->
  exists vs,
    xs = map Fin vs
    /\ Forall (fun v => (0 <= v)%Q) vs
    /\ (Q_of_nat (List.length vs) * c
        - 0.2 * Q_of_nat (List.length vs)
          * (Q_of_nat (List.length vs) + 1)
        <= Qsum vs)%Q.
Proof.
  revert c. induction xs as [|x xs IH]; intros c H.
  - exists []. repeat split; [constructor|].
    cbn [List.length]. change (Q_of_nat 0) with 0%Q.
    unfold Qsum. cbn [fold_right]. lra.
  - destruct H as (v & -> & Hv0 & Hv & Hrest).
    destruct (IH v Hrest) as (vs & -> & Hpos & Hsum).
    exists (v :: vs). split; [reflexivity|]. split; [constructor; assumption|].
    cbn [List.length]. unfold Qsum in *. cbn [fold_right].
    fold (Qsum vs) in *. rewrite Q_of_nat_S.
    pose proof (Q_of_nat_nonneg (List.length vs)) as Hm.
    set (m := Q_of_nat (List.length vs)) in *.
    assert (Hmv : (0 <= m * (v - (c - 0.4)))%Q)
      by (apply Qmult_le_0_compat; lra).
    lra.
Qed.

Lemma Qsum_nonneg (vs : list Q) :
  Forall (fun v => (0 <= v)%Q) vs -> (0 <= Qsum vs)%Q.
Proof.
  induction 1 as [|v vs Hv _ IH]; unfold Qsum in *; cbn [fold_right]; lra.
Qed.

Lemma series_mean (c : Q) (xs : list num) :
  falls_slowly c xs -> List.length xs = 24%nat ->
  exists m, calculateMean xs = Fin m /\ (0 <= m)%Q /\ (c - 5 <= m)%Q.
Proof.
  intros H Hlen. destruct (falls_slowly_values c xs H)
    as (vs & -> & Hpos & Hsum).
  rewrite length_map in Hlen.
  destruct (same_fin _ _ (calculateMean_fin vs)) as (m & -> & Hm).
  exists m. split; [reflexivity|]. rewrite Hm.
  pose proof (Qsum_nonneg vs Hpos) as Hs.
  rewrite Hlen in Hsum. change (Q_of_nat 24) with 24%Q in Hsum.
  destruct vs as [|v0 vs0] eqn:E; [discriminate Hlen|].
  unfold Qmean. rewrite <- E in *. rewrite Hlen.
  change (Q_of_nat 24) with 24%Q.
  split; apply Qle_shift_div_l; lra.
Qed.

Section RealisticData.

Variable Math_sqrt : num -> num.
Variable Math_random : nat -> Q.
Variable monthly_sine : nat -> Q.
Hypothesis draws : unit_draws Math_random.
Hypothesis sines : bounded_sine monthly_sine.

Local Abbreviation series := (timeSeriesFrom Math_random monthly_sine).

Lemma timeSeriesFrom_spec :
  forall (count i : nat) (c : Q) (n : nat),
    falls_slowly c (fst (series i count (Fin c) n))
    /\ List.length (fst (series i count (Fin c) n)) = count
    /\ snd (series i count (Fin c) n) = (n + 2 * count)%nat.
Proof.
  induction count as [|count IH]; intros i c n.
  - cbn. repeat split. lia.
  - cbn [timeSeriesFrom]. rewrite bind_run. cbn [random fst snd].
    cbv zeta. rewrite bind_run. cbn [random fst snd].
    unfold Num.sub. cbn [Num.neg Num.add Num.mul].
    rewrite Math_max_fin.
    set (x := (c + (Math_random n + - (0.5)) * 0.1
               + monthly_sine i * 0.2
               + (Math_random (S n) + - (0.5)) * 0.3)%Q).
    set (v := if Qltb 0 x then x else 0%Q).
    assert (Hx : (c - 0.4 <= x)%Q).
    { pose proof (draws n). pose proof (draws (S n)).
      pose proof (sines i). unfold x. lra. }
    assert (Hv : (0 <= v)%Q /\ (c - 0.4 <= v)%Q).
    { unfold v. destruct (Qltb 0 x) eqn:E; qprop; lra. }
    rewrite bind_run. cbn [ret fst snd].
    destruct (IH (S i) v (S (S n))) as (Hf & Hl & Hs).
    split; [|split].
    + cbn [falls_slowly]. exists v. repeat split; try apply Hv. exact Hf.
    + cbn [List.length]. rewrite Hl. reflexivity.
    + rewrite Hs. lia.
Qed.

Lemma generateTimeSeries_mean (c : Q) (n : nat) :
  exists m,
    calculateMean
      (fst (generateTimeSeries Math_random monthly_sine (Fin c) 24 n))
    = Fin m
    /\ (0 <= m)%Q /\ (c - 5 <= m)%Q.
Proof.
  unfold generateTimeSeries.
  destruct (timeSeriesFrom_spec 24 0 c n) as (Hf & Hl & _).
  apply series_mean; assumption.
Qed.

Lemma featureRange_run (range : FeatureRange) (n : nat) :
  featureRange Math_random range n
  = (Fin (range_min range
          + Math_random n * (range_max range + - range_min range)), S n).
Proof. reflexivity. Qed.

Lemma ranged_start (range : FeatureRange) (n : nat) :
  (range_min range <= range_max range)%Q ->
  (range_min range
   <= range_min range
      + Math_random n * (range_max range + - range_min range))%Q.
Proof.
  intro H. pose proof (draws n) as Hr.
  assert (0 <= Math_random n * (range_max range + - range_min range))%Q
    by (apply Qmult_le_0_compat; lra).
  lra.
Qed.

(** A label [Math.max(0, Math.min(1, raw))] of a finite [raw]. *)
Lemma clamped_label (raw : Q) :
  unit_interval (Math_max (Fin 0) (Math_min (Fin 1) (Fin raw)))
  /\ ((1 <= raw)%Q ->
      Math_max (Fin 0) (Math_min (Fin 1) (Fin raw)) = Fin 1).
Proof.
  rewrite Math_min_fin, Math_max_fin. split.
  - eexists. split; [reflexivity|]. qcases; qprop; lra.
  - intro H. replace (Qltb raw 1) with false; [reflexivity|].
    symmetry. apply Qltb_false. exact H.
Qed.

Lemma realisticExample_spec
  (region : string) (pattern : RegionPattern) (n : nat) :
  well_ranged pattern ->
  let run := realisticExample Math_sqrt Math_random monthly_sine region
                              pattern n in
  snd run = (n + 249)%nat
  /\ List.length (etd_features (fst run)) = 25%nat
  /\ etd_region (fst run) = region
  /\ unit_interval (etd_droughtRisk (fst run))
  /\ unit_interval (etd_floodRisk (fst run))
  /\ ((1 <= drought_floor pattern)%Q ->
      etd_droughtRisk (fst run) = Fin 1)
  /\ ((1 <= flood_floor pattern)%Q ->
      etd_floodRisk (fst run) = Fin 1).
Proof.
  intros (Hr0 & Hr1 & Hr2 & Hr3 & Hr4 & Hvd & Hvf) run.
  unfold run, realisticExample.
  do 5 (rewrite bind_run, featureRange_run; cbn [fst snd]).
  cbv zeta.
  set (c0 := (range_min (rp_soilMoisture pattern) + _)%Q).
  set (c1 := (range_min (rp_temperature pattern) + _)%Q).
  set (c2 := (range_min (rp_fireIndex pattern) + _)%Q).
  set (c3 := (range_min (rp_seaLevel pattern) + _)%Q).
  set (c4 := (range_min (rp_glacierMelting pattern) + _)%Q).
  assert (H0 : (range_min (rp_soilMoisture pattern) <= c0)%Q)
    by (apply ranged_start, Hr0).
  assert (H1 : (range_min (rp_temperature pattern) <= c1)%Q)
    by (apply ranged_start, Hr1).
  assert (H2 : (range_min (rp_fireIndex pattern) <= c2)%Q)
    by (apply ranged_start, Hr2).
  rewrite bind_run.
  set (n5 := S (S (S (S (S n))))).
  set (r0 := generateTimeSeries Math_random monthly_sine (Fin c0) 24 n5).
  destruct (timeSeriesFrom_spec 24 0 c0 n5) as (_ & _ & S0).
  destruct (generateTimeSeries_mean c0 n5) as (m0 & M0 & P0 & B0).
  fold (generateTimeSeries Math_random monthly_sine (Fin c0) 24 n5) in S0.
  fold r0 in S0, M0. rewrite S0.
  rewrite bind_run.
  set (r1 := generateTimeSeries Math_random monthly_sine (Fin c1) 24 _).
  destruct (timeSeriesFrom_spec 24 0 c1 (n5 + 2 * 24)) as (_ & _ & S1).
  destruct (generateTimeSeries_mean c1 (n5 + 2 * 24))
    as (m1 & M1 & P1 & B1).
  fold (generateTimeSeries Math_random monthly_sine (Fin c1) 24
                           (n5 + 2 * 24)%nat) in S1.
  fold r1 in S1, M1. rewrite S1.
  rewrite bind_run.
  set (r2 := generateTimeSeries Math_random monthly_sine (Fin c2) 24 _).
  destruct (timeSeriesFrom_spec 24 0 c2 (n5 + 2 * 24 + 2 * 24))
    as (_ & _ & S2).
  destruct (generateTimeSeries_mean c2 (n5 + 2 * 24 + 2 * 24))
    as (m2 & M2 & P2 & B2).
  fold (generateTimeSeries Math_random monthly_sine (Fin c2) 24
                           (n5 + 2 * 24 + 2 * 24)%nat) in S2.
  fold r2 in S2, M2. rewrite S2.
  rewrite bind_run.
  set (r3 := generateTimeSeries Math_random monthly_sine (Fin c3) 24 _).
  destruct (timeSeriesFrom_spec 24 0 c3
              (n5 + 2 * 24 + 2 * 24 + 2 * 24)) as (_ & _ & S3).
  destruct (generateTimeSeries_mean c3 (n5 + 2 * 24 + 2 * 24 + 2 * 24))
    as (m3 & M3 & P3 & B3).
  fold (generateTimeSeries Math_random monthly_sine (Fin c3) 24
                           (n5 + 2 * 24 + 2 * 24 + 2 * 24)%nat) in S3.
  fold r3 in S3, M3. rewrite S3.
  rewrite bind_run.
  set (r4 := generateTimeSeries Math_random monthly_sine (Fin c4) 24 _).
  destruct (timeSeriesFrom_spec 24 0 c4
              (n5 + 2 * 24 + 2 * 24 + 2 * 24 + 2 * 24))
    as (_ & _ & S4).
  fold (generateTimeSeries Math_random monthly_sine (Fin c4) 24
                           (n5 + 2 * 24 + 2 * 24 + 2 * 24 + 2 * 24)%nat)
    in S4.
  fold r4 in S4. rewrite S4.
  set (features := createTemporalFeatures Math_sqrt (fst r0) (fst r1)
                                          (fst r2) (fst r3) (fst r4)).
  assert (A1 : at_index features 1 = Fin m1) by (rewrite <- M1; reflexivity).
  assert (A2 : at_index features 2 = Fin m2) by (rewrite <- M2; reflexivity).
  assert (A0 : at_index features 0 = Fin m0) by (rewrite <- M0; reflexivity).
  assert (A3 : at_index features 3 = Fin m3) by (rewrite <- M3; reflexivity).
  assert (L : List.length features = 25%nat) by reflexivity.
  do 2 (rewrite bind_run; cbn [random fst snd]).
  unfold getRandomSeason.
  do 3 (rewrite bind_run; cbn [random ret fst snd]).
  cbn [etd_features etd_droughtRisk etd_floodRisk etd_region].
  unfold calculateRiskAdjustment. rewrite A0, A1, A2, A3.
  unfold Num.sub. cbn [Num.neg Num.add Num.mul].
  set (n6 := (n5 + 2 * 24 + 2 * 24 + 2 * 24 + 2 * 24 + 2 * 24)%nat).
  pose proof (draws n6) as D1. pose proof (draws (S n6)) as D2.
  set (rawD := (base (rp_droughtRisk pattern)
                + (Math_random n6 + - (0.5))
                  * variation (rp_droughtRisk pattern)
                + (m1 * 0.3 + m2 * 0.2) * 0.1)%Q).
  set (rawF := (base (rp_floodRisk pattern)
                + (Math_random (S n6) + - (0.5))
                  * variation (rp_floodRisk pattern)
                + (m0 * 0.3 + m3 * 0.4) * 0.1)%Q).
  destruct (clamped_label rawD) as (UD & SD).
  destruct (clamped_label rawF) as (UF & SF).
  split; [unfold n6, n5; lia|].
  split; [exact L|]. split; [reflexivity|].
  split; [exact UD|]. split; [exact UF|]. split.
  - intro Hfloor. apply SD. unfold drought_floor in Hfloor. unfold rawD.
    assert (Hv : (0 <= Math_random n6
                       * variation (rp_droughtRisk pattern))%Q)
      by (apply Qmult_le_0_compat; lra).
    lra.
  - intro Hfloor. apply SF. unfold flood_floor in Hfloor. unfold rawF.
    assert (Hv : (0 <= Math_random (S n6)
                       * variation (rp_floodRisk pattern))%Q)
      by (apply Qmult_le_0_compat; lra).
    lra.
Qed.

Lemma region_examples (region : string) (pattern : RegionPattern) :
  In (region, pattern) disasterPatterns ->
  forall n,
    realistic (fst (realisticExample Math_sqrt Math_random monthly_sine
                                     region pattern n))
    /\ snd (realisticExample Math_sqrt Math_random monthly_sine region
                             pattern n) = (n + 249)%nat.
Proof.
  intros Hin n.
  assert (Hw : well_ranged pattern).
  { unfold disasterPatterns in Hin.
    destruct Hin as [E | [E | [E | [E | [E | []]]]]];
      inversion E; subst; repeat split; cbn; lra. }
  destruct (realisticExample_spec region pattern n Hw)
    as (Hn & Hlen & Hregion & Hd & Hf & Hsd & Hsf).
  split; [|exact Hn].
  unfold realistic. rewrite Hregion.
  split; [exact Hlen|]. split; [exact Hd|]. split; [exact Hf|].
  unfold disasterPatterns in Hin.
  destruct Hin as [E | [E | [E | [E | [E | []]]]]];
    inversion E; subst; split; intro Hr;
    try (apply Hsd; unfold drought_floor; cbn; lra);
    try (apply Hsf; unfold flood_floor; cbn; lra);
    repeat (destruct Hr as [Hr | Hr]; [discriminate Hr|]);
    destruct Hr.
Qed.

Lemma forEachRegion_spec (patterns : list (string * RegionPattern)) :
  (forall region pattern,
     In (region, pattern) patterns ->
     In (region, pattern) disasterPatterns) ->
  forall n,
    Forall realistic
           (fst (forEachRegion Math_sqrt Math_random monthly_sine
                               patterns n))
    /\ List.length
         (fst (forEachRegion Math_sqrt Math_random monthly_sine
                             patterns n))
       = (200 * List.length patterns)%nat
    /\ snd (forEachRegion Math_sqrt Math_random monthly_sine patterns n)
       = (n + 200 * 249 * List.length patterns)%nat.
Proof.
  induction patterns as [|(region, pattern) patterns IH]; intros Hsub n.
  - cbn. repeat split; [constructor | lia].
  - cbn [forEachRegion]. rewrite bind_run.
    destruct (repeatM_spec _ realistic
                (realisticExample Math_sqrt Math_random monthly_sine
                                  region pattern) 249
                (region_examples region pattern
                   (Hsub region pattern (or_introl eq_refl))) 200 n)
      as (Hf & Hl & Hs).
    set (first := repeatM 200 _ n) in *.
    rewrite bind_run. cbn [ret fst snd].
    destruct (IH (fun r p H => Hsub r p (or_intror H)) (snd first))
      as (Hf' & Hl' & Hs').
    split; [|split].
    + apply Forall_app. split; assumption.
    + rewrite length_app, Hl, Hl'. cbn [List.length]. lia.
    + rewrite Hs', Hs. cbn [List.length]. lia.
Qed.

(** X30.  With draws in [0, 1) and sines in -1 .. 1, the enhanced
    training data are 5 times 200 examples, each made with 249 draws and
    each with 25 features and labels in [0, 1].  The adjustment is taken
    from the means on their raw scales, so the labels saturate: the
    drought label of every desert and every tropical example is exactly
    1, and so is the flood label of every coastal, tropical and
    river-basin example. *)
Theorem realistic_training_labels :
  forall (n : nat),
    let run := generateRealisticTrainingData Math_sqrt Math_random
                                             monthly_sine n in
    List.length (fst run) = (5 * 200)%nat
    /\ snd run = (n + 5 * (200 * 249))%nat
    /\ Forall realistic (fst run).
Proof.
  intros n run. unfold run, generateRealisticTrainingData.
  destruct (forEachRegion_spec disasterPatterns (fun r p H => H) n)
    as (Hf & Hl & Hs).
  change (List.length disasterPatterns) with 5%nat in Hl, Hs.
  split; [rewrite Hl; lia|]. split; [rewrite Hs; lia | exact Hf].
Qed.

End RealisticData.

Lemma realistic_training_labels_witness :
  snd (generateRealisticTrainingData example_sqrt example_draws
                                     (fun _ => 0%Q) 0%nat)
  = (0 + 5 * (200 * 249))%nat.
Proof.
  assert (Hs : bounded_sine (fun _ => 0%Q)) by (intro i; lra).
  destruct (realistic_training_labels example_sqrt example_draws
              (fun _ => 0%Q) example_draws_unit Hs 0%nat) as (_ & H & _).
  exact H.
Defined.
